(** * FastRTC audio backend: stream registry, buffering and dispatch

    A shallow embedding of [backend/fastrtc_integration.py] and of the
    handlers of [backend/main.py] that drive it, with the properties of
    the stream lifecycle proved on the embedding.

    Conventions of the embedding.
    - A Python [dict] is an insertion-ordered association list with
      distinct keys ([PyDict]).
    - A naive [datetime] is its number of microseconds since
      [datetime.min]; the calendar fields are the mixed-radix digits of
      that number, so [replace(minute=m)] and [<] are arithmetic.
    - The module-level singletons ([fastrtc_manager], [manager]), the
      logger, the wall clock and the uuid generator form one [World];
      the code runs in a state monad over it, with Python exceptions as
      the second outcome of a computation. *)

From Stdlib Require Import ZArith List String Ascii Bool Lia DecimalString.
From Stdlib Require Import Init.Byte.
Import ListNotations.
Open Scope string_scope.
Open Scope Z_scope.

(** ** Python values carried by JSON messages *)

(** What a handler can observe of a value found in a parsed message:
    [PyOther] stands for the remaining JSON values (floats, lists,
    objects) through their hashability, truth value and [str()]. *)
Inductive pyval : Type :=
| PyNone
| PyBool (b : bool)
| PyInt (n : Z)
| PyStr (s : string)
| PyOther (hashable truthy : bool) (text : string).

(** [bool(v)] *)
Definition py_truthy (v : pyval) : bool :=
  match v with
  | PyNone => false
  | PyBool b => b
  | PyInt n => negb (n =? 0)
  | PyStr s => negb (s =? "")%string
  | PyOther _ t _ => t
  end.

(** [str(v)], as an f-string renders it *)
Definition py_str (v : pyval) : string :=
  match v with
  | PyNone => "None"
  | PyBool true => "True"
  | PyBool false => "False"
  | PyInt n => NilZero.string_of_int (Z.to_int n)
  | PyStr s => s
  | PyOther _ _ t => t
  end.

(** [v == s] for a string literal [s] *)
Definition py_eq_str (v : pyval) (s : string) : bool :=
  match v with
  | PyStr t => (t =? s)%string
  | _ => false
  end.

Definition py_hashable (v : pyval) : bool :=
  match v with
  | PyOther h _ _ => h
  | _ => true
  end.

(** ** Python dictionaries with string keys *)

Module PyDict.
Section Dict.
Context {V : Type}.

Definition t := list (string * V).

(** [d.get(k)] *)
Fixpoint get (d : t) (k : string) : option V :=
  match d with
  | [] => None
  | (k', v) :: d' => if (k' =? k)%string then Some v else get d' k
  end.

(** [k in d] *)
Definition mem (d : t) (k : string) : bool :=
  match get d k with Some _ => true | None => false end.

(** [d[k] = v]: an existing key keeps its place, a new key goes last *)
Fixpoint set (d : t) (k : string) (v : V) : t :=
  match d with
  | [] => [(k, v)]
  | (k', v') :: d' =>
      if (k' =? k)%string then (k, v) :: d' else (k', v') :: set d' k v
  end.

(** [del d[k]] for a key that is present *)
Definition del (d : t) (k : string) : t :=
  filter (fun kv => negb (fst kv =? k)%string) d.

Definition keys (d : t) : list string := map fst d.
Definition values (d : t) : list V := map snd d.
Definition len (d : t) : Z := Z.of_nat (List.length d).
End Dict.
Arguments t : clear implicits.
End PyDict.

(** [d.get(k, default)] *)
Definition get_default {V} (d : PyDict.t V) (k : string) (dflt : V) : V :=
  match PyDict.get d k with Some v => v | None => dflt end.

(** ** Naive datetimes *)

Definition datetime := Z.
Definition usec_per_minute : Z := 60000000.

(** [t.minute] *)
Definition dt_minute (t : datetime) : Z := (t / usec_per_minute) mod 60.

(** [t - timedelta(minutes=m)], used to state properties only *)
Definition minutes_before (t : datetime) (m : Z) : datetime :=
  t - m * usec_per_minute.

(** ** Exceptions and outcomes *)

Inductive exn : Type :=
| ValueError (msg : string)
| KeyError (key : string)
| TypeError (msg : string)
| Exception (msg : string)
| HTTPException (status_code : Z) (detail : string).

Inductive outcome (A : Type) : Type :=
| Return (a : A)
| Raise (e : exn).
Arguments Return {A} a.
Arguments Raise {A} e.

(** [t.replace(minute=m)] *)
Definition dt_replace_minute (t : datetime) (m : Z) : outcome datetime :=
  if (0 <=? m) && (m <=? 59)
  then Return (t + (m - dt_minute t) * usec_per_minute)
  else Raise (ValueError "minute must be in 0..59").

(** ** Streams *)

(** [FastRTCStream] *)
Record FastRTCStream : Type := mkStream {
  webrtc_id : string;
  modality : string;
  mode : string;
  is_active : bool;
  created_at : datetime;
  last_activity : datetime;
  audio_buffer : list (list byte);
  processing : bool
}.

Definition set_is_active (b : bool) (s : FastRTCStream) : FastRTCStream :=
  mkStream (webrtc_id s) (modality s) (mode s) b (created_at s)
           (last_activity s) (audio_buffer s) (processing s).
Definition set_last_activity (t : datetime) (s : FastRTCStream) : FastRTCStream :=
  mkStream (webrtc_id s) (modality s) (mode s) (is_active s) (created_at s)
           t (audio_buffer s) (processing s).
Definition set_audio_buffer (b : list (list byte)) (s : FastRTCStream) : FastRTCStream :=
  mkStream (webrtc_id s) (modality s) (mode s) (is_active s) (created_at s)
           (last_activity s) b (processing s).
Definition set_processing (b : bool) (s : FastRTCStream) : FastRTCStream :=
  mkStream (webrtc_id s) (modality s) (mode s) (is_active s) (created_at s)
           (last_activity s) (audio_buffer s) b.

(** The dictionary returned by [FastRTCStream.get_status]; the two
    timestamps are kept as datetimes ([isoformat] is not rendered). *)
Record stream_status : Type := mkStatus {
  st_webrtc_id : string;
  st_modality : string;
  st_mode : string;
  st_is_active : bool;
  st_created_at : datetime;
  st_last_activity : datetime;
  st_buffer_size : Z;
  st_processing : bool
}.

(** [FastRTCManager] *)
Record FastRTCManager : Type := mkManager {
  streams : PyDict.t FastRTCStream;
  max_streams : Z
}.

Definition set_streams (d : PyDict.t FastRTCStream) (m : FastRTCManager) : FastRTCManager :=
  mkManager d (max_streams m).

(** ** Connections ([main.py]) *)

(** One entry of [ConnectionManager.connection_metadata] *)
Record conn_meta : Type := mkMeta {
  connected_at : datetime;
  conn_last_activity : datetime;
  audio_streaming : bool
}.

(** A response of [handle_fastrtc_message] *)
Inductive response : Type :=
| RespMessage (status : string) (message : pyval)
| RespOutput (status : string) (stream_id : pyval) (st : stream_status).

Definition resp_status (r : response) : string :=
  match r with
  | RespMessage s _ => s
  | RespOutput s _ _ => s
  end.

(** A JSON text sent on a websocket, before [json.dumps] *)
Inductive frame : Type :=
| StreamingStarted (client_id : string) (timestamp : datetime)
| StreamingStopped (client_id : string) (timestamp : datetime)
| Pong (timestamp : datetime).

(** [ConnectionManager]: a [WebSocket] is the list of the frames sent on
    it so far, oldest first. *)
Record ConnectionManager : Type := mkConn {
  active_connections : PyDict.t (list frame);
  connection_metadata : PyDict.t conn_meta
}.

(** ** The logger *)

Inductive level : Type := DEBUG | INFO | WARNING | ERROR.

(** The records the code logs, with the values their f-strings embed. *)
Inductive logmsg : Type :=
| LStarted (id : string)
| LStopped (id : string)
| LProcessing (nbytes : nat) (id : string)
| LProcessingFailed (id : string) (e : exn)
| LCreated (id : string)
| LRemoved (id : string)
| LNotFound (id : string)
| LCleanedUp (n : nat)
| LInput (id : pyval)
| LStopword (id : pyval)
| LFastRTCError (data : pyval)
| LFastRTCWarning (data : pyval)
| LFastRTCLog (data : pyval)
| LSdpAnswer (id : string)
| LAudioStarted (client_id : string)
| LAudioStopped (client_id : string)
| LUnknownControl (client_id : string) (tag : pyval)
| LCreationError (e : string)
| LOfferAccepted (id : string)
| LOfferError (e : exn).

(** ** The world and its monad *)

Record World : Type := mkWorld {
  fastrtc_manager : FastRTCManager;
  manager : ConnectionManager;
  logged : list (level * logmsg);
  ticks : nat;
  uuids : nat
}.

Definition M (A : Type) : Type := World -> outcome A * World.

Definition ret {A} (a : A) : M A := fun w => (Return a, w).
Definition raise {A} (e : exn) : M A := fun w => (Raise e, w).
Definition bind {A B} (c : M A) (k : A -> M B) : M B :=
  fun w =>
    match c w with
    | (Return a, w') => k a w'
    | (Raise e, w') => (Raise e, w')
    end.

(** [try: c  except Exception as e: h e] *)
Definition try_except {A} (c : M A) (h : exn -> M A) : M A :=
  fun w =>
    match c w with
    | (Return a, w') => (Return a, w')
    | (Raise e, w') => h e w'
    end.

Declare Scope py_scope.
Delimit Scope py_scope with py.
Notation "x <- c ;; k" := (bind c (fun x => k))
  (at level 61, c at next level, right associativity) : py_scope.
Notation "c ;; k" := (bind c (fun _ => k))
  (at level 61, right associativity) : py_scope.
Open Scope py_scope.

Definition lift {A} (o : outcome A) : M A := fun w => (o, w).

Definition with_manager (m : FastRTCManager) (w : World) : World :=
  mkWorld m (manager w) (logged w) (ticks w) (uuids w).
Definition with_conn (c : ConnectionManager) (w : World) : World :=
  mkWorld (fastrtc_manager w) c (logged w) (ticks w) (uuids w).
Definition with_record (l : level) (m : logmsg) (w : World) : World :=
  mkWorld (fastrtc_manager w) (manager w) (logged w ++ [(l, m)]) (ticks w) (uuids w).
Definition tick (w : World) : World :=
  mkWorld (fastrtc_manager w) (manager w) (logged w) (S (ticks w)) (uuids w).
Definition draw (w : World) : World :=
  mkWorld (fastrtc_manager w) (manager w) (logged w) (ticks w) (S (uuids w)).

Definition get_manager : M FastRTCManager :=
  fun w => (Return (fastrtc_manager w), w).
Definition put_manager (m : FastRTCManager) : M unit :=
  fun w => (Return tt, with_manager m w).
Definition get_conn : M ConnectionManager :=
  fun w => (Return (manager w), w).
Definition put_conn (c : ConnectionManager) : M unit :=
  fun w => (Return tt, with_conn c w).

(** [logger.<level>(msg)] *)
Definition log (l : level) (m : logmsg) : M unit :=
  fun w => (Return tt, with_record l m w).

(** ** The code *)

Section Backend.

(** [clock k] is the value of the [k]-th call of [datetime.utcnow()]
    and [uuid4 k] the text of the [k]-th [uuid.uuid4()]. *)
Variable clock : nat -> datetime.
Variable uuid4 : nat -> string.

(** The processing of a combined payload inside [_process_buffer], at
    the place the source marks "Here you would integrate with actual
    FastRTC processing": [None] when it returns, [Some msg] when it
    raises [Exception(msg)].  It is given the stream as [self] is at
    that point.  The source itself only logs there ([log_only]). *)
Variable process : FastRTCStream -> list byte -> option string.

Definition utcnow : M datetime :=
  fun w => (Return (clock (ticks w)), tick w).

Definition new_uuid : M string :=
  fun w => (Return (uuid4 (uuids w)), draw w).

(** *** [FastRTCStream] *)

Definition FastRTCStream_init (id modality mode : string) : M FastRTCStream :=
  created <- utcnow ;;
  activity <- utcnow ;;
  ret (mkStream id modality mode false created activity [] false).

Definition start_streaming (self : FastRTCStream) : M FastRTCStream :=
  let self := set_is_active true self in
  now <- utcnow ;;
  let self := set_last_activity now self in
  log INFO (LStarted (webrtc_id self)) ;;
  ret self.

Definition stop_streaming (self : FastRTCStream) : M FastRTCStream :=
  let self := set_is_active false self in
  log INFO (LStopped (webrtc_id self)) ;;
  ret self.

Definition run_processing (self : FastRTCStream) (combined_audio : list byte) : M unit :=
  match process self combined_audio with
  | None => log DEBUG (LProcessing (List.length combined_audio) (webrtc_id self))
  | Some msg => raise (Exception msg)
  end.

Definition _process_buffer (self : FastRTCStream) : M FastRTCStream :=
  let self := set_processing true self in
  self <- try_except
            (let combined_audio := List.concat (audio_buffer self) in
             run_processing self combined_audio ;;
             ret (set_audio_buffer [] self))
            (fun e =>
               log ERROR (LProcessingFailed (webrtc_id self) e) ;;
               ret self) ;;
  ret (set_processing false self).

Definition process_audio_data (self : FastRTCStream) (audio_data : list byte)
  : M FastRTCStream :=
  if negb (is_active self) then ret self
  else
    now <- utcnow ;;
    let self := set_last_activity now self in
    let self := set_audio_buffer (audio_buffer self ++ [audio_data]) self in
    if (Z.of_nat (List.length (audio_buffer self)) >=? 10) && negb (processing self)
    then _process_buffer self
    else ret self.

Definition get_status (self : FastRTCStream) : stream_status :=
  mkStatus (webrtc_id self) (modality self) (mode self) (is_active self)
           (created_at self) (last_activity self)
           (Z.of_nat (List.length (audio_buffer self))) (processing self).

(** *** [FastRTCManager] *)

Definition FastRTCManager_init : FastRTCManager := mkManager [] 100.

(** A method has mutated the stream object held under [id]: the entry
    of the dictionary shows the new state, in its old place. *)
Definition store_stream (id : string) (s : FastRTCStream) : M unit :=
  m <- get_manager ;;
  if PyDict.mem (streams m) id
  then put_manager (set_streams (PyDict.set (streams m) id s) m)
  else ret tt.

Definition create_stream (id modality mode : string) : M FastRTCStream :=
  m <- get_manager ;;
  if (id =? "")%string || (id =? "None")%string
  then raise (ValueError "Invalid webrtc_id: cannot be None or empty")
  else if PyDict.len (streams m) >=? max_streams m
  then raise (ValueError "Maximum number of streams reached")
  else if PyDict.mem (streams m) id
  then raise (ValueError ("Stream " ++ id ++ " already exists"))
  else
    stream <- FastRTCStream_init id modality mode ;;
    put_manager (set_streams (PyDict.set (streams m) id stream) m) ;;
    log INFO (LCreated id) ;;
    ret stream.

(** [self.streams.get(webrtc_id)]: the keys are strings, so a hashable
    key of another type finds nothing and an unhashable one raises. *)
Definition get_stream (key : pyval) : M (option FastRTCStream) :=
  m <- get_manager ;;
  if negb (py_hashable key) then raise (TypeError "unhashable type")
  else match key with
       | PyStr id => ret (PyDict.get (streams m) id)
       | _ => ret None
       end.

Definition remove_stream (id : string) : M unit :=
  m <- get_manager ;;
  if PyDict.mem (streams m) id then
    match PyDict.get (streams m) id with
    | None => raise (KeyError id)
    | Some stream =>
        stream <- stop_streaming stream ;;
        store_stream id stream ;;
        m <- get_manager ;;
        put_manager (set_streams (PyDict.del (streams m) id) m) ;;
        log INFO (LRemoved id)
    end
  else ret tt.

Definition process_audio (id : string) (audio_data : list byte) : M unit :=
  stream <- get_stream (PyStr id) ;;
  match stream with
  | Some stream =>
      stream <- process_audio_data stream audio_data ;;
      store_stream id stream
  | None => log WARNING (LNotFound id)
  end.

Record stats : Type := mkStats {
  total_streams : Z;
  active_streams : Z;
  stats_max_streams : Z;
  stats_streams : list stream_status
}.

Definition get_stats : M stats :=
  m <- get_manager ;;
  let vals := PyDict.values (streams m) in
  ret (mkStats (PyDict.len (streams m))
               (Z.of_nat (List.length (filter is_active vals)))
               (max_streams m)
               (map get_status vals)).

Fixpoint for_each {A} (l : list A) (body : A -> M unit) : M unit :=
  match l with
  | [] => ret tt
  | x :: l' => body x ;; for_each l' body
  end.

Definition cleanup_inactive_streams (max_inactive_minutes : Z) : M unit :=
  cutoff_time <- utcnow ;;
  cutoff_time <- lift (dt_replace_minute cutoff_time
                         (dt_minute cutoff_time - max_inactive_minutes)) ;;
  m <- get_manager ;;
  let streams_to_remove :=
    map fst (filter (fun kv => last_activity (snd kv) <? cutoff_time) (streams m)) in
  for_each streams_to_remove remove_stream ;;
  match streams_to_remove with
  | [] => ret tt
  | _ => log INFO (LCleanedUp (List.length streams_to_remove))
  end.

(** *** Message handlers of the FastRTC protocol *)

(** The literal [{}] that [send_input] uses as the default of ["data"] *)
Definition empty_dict_value : pyval := PyOther false false "{}".

Definition handle_fastrtc_message (message : PyDict.t pyval) : M (option response) :=
  let message_type := get_default message "type" PyNone in
  if py_eq_str message_type "send_input" then
    let webrtc_id := get_default message "webrtc_id" PyNone in
    let data := get_default message "data" empty_dict_value in
    if py_truthy webrtc_id then
      stream <- get_stream webrtc_id ;;
      match stream with
      | Some _ =>
          log INFO (LInput webrtc_id) ;;
          ret (Some (RespMessage "success" (PyStr "Input processed")))
      | None => ret (Some (RespMessage "error" (PyStr "Stream not found")))
      end
    else ret None
  else if py_eq_str message_type "fetch_output" then
    let webrtc_id := get_default message "webrtc_id" PyNone in
    if py_truthy webrtc_id then
      stream <- get_stream webrtc_id ;;
      match stream with
      | Some stream =>
          ret (Some (RespOutput "success" webrtc_id (get_status stream)))
      | None => ret (Some (RespMessage "error" (PyStr "Stream not found")))
      end
    else ret None
  else if py_eq_str message_type "stopword" then
    let webrtc_id := get_default message "webrtc_id" PyNone in
    log INFO (LStopword webrtc_id) ;;
    ret (Some (RespMessage "success" (PyStr "Stopword detected")))
  else if py_eq_str message_type "error" then
    let error_message := get_default message "data" (PyStr "Unknown error") in
    log ERROR (LFastRTCError error_message) ;;
    ret (Some (RespMessage "error" error_message))
  else if py_eq_str message_type "warning" then
    let warning_message := get_default message "data" (PyStr "Unknown warning") in
    log WARNING (LFastRTCWarning warning_message) ;;
    ret (Some (RespMessage "warning" warning_message))
  else if py_eq_str message_type "log" then
    let log_message := get_default message "data" (PyStr "") in
    log INFO (LFastRTCLog log_message) ;;
    ret (Some (RespMessage "success" (PyStr "Log recorded")))
  else
    ret (Some (RespMessage "error"
                 (PyStr ("Unknown message type: " ++ py_str message_type)))).

(** *** Offer and answer *)

Definition newline : string := String (ascii_of_nat 10) "".

(** The session description of [create_webrtc_answer], after [strip()] *)
Definition sdp_answer (id : string) : string :=
  String.concat newline
    [ "v=0";
      "o=- " ++ id ++ " 2 IN IP4 127.0.0.1";
      "s=-";
      "t=0 0";
      "a=group:BUNDLE audio";
      "a=extmap-allow-mixed";
      "a=msid-semantic: WMS";
      "m=audio 9 UDP/TLS/RTP/SAVPF 111";
      "c=IN IP4 0.0.0.0";
      "a=mid:audio";
      "a=sendrecv";
      "a=rtpmap:111 opus/48000/2";
      "a=fmtp:111 minptime=10;useinbandfec=1";
      "a=ssrc:1 cname:fastrtc-audio";
      "a=ssrc:1 msid:fastrtc-audio audio";
      "a=ssrc:1 mslabel:fastrtc-audio";
      "a=label:audio";
      "a=rtcp-mux" ].

(** The dictionary returned by [create_webrtc_answer] *)
Record answer : Type := mkAnswer {
  ans_status : string;
  ans_sdp : string;
  ans_webrtc_id : string;
  meta_modality : string;
  meta_mode : string;
  meta_created_at : datetime
}.

Definition create_webrtc_answer (offer : PyDict.t string) : M answer :=
  id <- new_uuid ;;
  let modality := get_default offer "modality" "audio" in
  let mode := get_default offer "mode" "send" in
  _ <- create_stream id modality mode ;;
  let sdp := sdp_answer id in
  log INFO (LSdpAnswer id) ;;
  created <- utcnow ;;
  ret (mkAnswer "success" sdp id modality mode created).

(** *** Handlers of [main.py] *)

(** [try: c  except ValueError as e: h str(e)] *)
Definition try_except_ValueError {A} (c : M A) (h : string -> M A) : M A :=
  fun w =>
    match c w with
    | (Raise (ValueError msg), w') => h msg w'
    | r => r
    end.

(** The body of the response of [POST /webrtc/offer]: the answer, or
    [status = "failed"] with, as [meta],
    [error = "concurrency_limit_reached"] and the limit,
    [error = "stream_creation_failed"] and the message of the error, or
    [error = "internal_server_error"] and the exception caught. *)
Inductive offer_response : Type :=
| OfferAnswer (a : answer)
| OfferLimitReached (limit : Z)
| OfferCreationFailed (message : string)
| OfferInternalError (e : exn).

Definition str_in (s : string) (l : list string) : bool :=
  existsb (String.eqb s) l.

Definition webrtc_offer (sdp modality mode : string) : M offer_response :=
  try_except
    (if negb (str_in modality ["audio"; "video"; "audio-video"])
     then raise (HTTPException 400 "Invalid modality")
     else if negb (str_in mode ["send"; "receive"; "send-receive"])
     then raise (HTTPException 400 "Invalid mode")
     else
       fastrtc_stats <- get_stats ;;
       if total_streams fastrtc_stats >=? stats_max_streams fastrtc_stats
       then ret (OfferLimitReached (stats_max_streams fastrtc_stats))
       else
         let offer_data := [("sdp", sdp); ("modality", modality); ("mode", mode)] in
         r <- try_except_ValueError
                (a <- create_webrtc_answer offer_data ;; ret (OfferAnswer a))
                (fun msg =>
                   log ERROR (LCreationError msg) ;;
                   ret (OfferCreationFailed msg)) ;;
         match r with
         | OfferAnswer a =>
             log INFO (LOfferAccepted (ans_webrtc_id a)) ;; ret r
         | _ => ret r
         end)
    (fun e => log ERROR (LOfferError e) ;; ret (OfferInternalError e)).

(** [manager.connection_metadata[client_id]["audio_streaming"] = b] *)
Definition set_audio_streaming (client_id : string) (b : bool) : M unit :=
  c <- get_conn ;;
  match PyDict.get (connection_metadata c) client_id with
  | None => raise (KeyError client_id)
  | Some md =>
      put_conn (mkConn (active_connections c)
                  (PyDict.set (connection_metadata c) client_id
                     (mkMeta (connected_at md) (conn_last_activity md) b)))
  end.

(** [ConnectionManager.send_personal_message] *)
Definition send_personal_message (message : frame) (client_id : string) : M unit :=
  c <- get_conn ;;
  match PyDict.get (active_connections c) client_id with
  | Some ws =>
      put_conn (mkConn (PyDict.set (active_connections c) client_id (ws ++ [message])%list)
                       (connection_metadata c))
  | None => ret tt
  end.

(** The key under which [get_stream] found a stream *)
Definition key_of (v : pyval) : string :=
  match v with PyStr s => s | _ => "" end.

Definition handle_control_message (client_id : string) (message : PyDict.t pyval)
  : M unit :=
  let message_type := get_default message "type" PyNone in
  if py_eq_str message_type "start_streaming" then
    set_audio_streaming client_id true ;;
    let webrtc_id := get_default message "webrtc_id" PyNone in
    (if py_truthy webrtc_id then
       stream <- get_stream webrtc_id ;;
       match stream with
       | Some stream =>
           stream <- start_streaming stream ;;
           store_stream (key_of webrtc_id) stream
       | None => ret tt
       end
     else ret tt) ;;
    now <- utcnow ;;
    send_personal_message (StreamingStarted client_id now) client_id ;;
    log INFO (LAudioStarted client_id)
  else if py_eq_str message_type "stop_streaming" then
    set_audio_streaming client_id false ;;
    let webrtc_id := get_default message "webrtc_id" PyNone in
    (if py_truthy webrtc_id then
       stream <- get_stream webrtc_id ;;
       match stream with
       | Some stream =>
           stream <- stop_streaming stream ;;
           store_stream (key_of webrtc_id) stream
       | None => ret tt
       end
     else ret tt) ;;
    now <- utcnow ;;
    send_personal_message (StreamingStopped client_id now) client_id ;;
    log INFO (LAudioStopped client_id)
  else if py_eq_str message_type "ping" then
    now <- utcnow ;;
    send_personal_message (Pong now) client_id
  else
    log WARNING (LUnknownControl client_id message_type).

(** The result of [DELETE /fastrtc/streams/{webrtc_id}]: the success
    body, or the [HTTPException] the handler raises. *)
Definition remove_fastrtc_stream (id : string) : M response :=
  try_except
    (remove_stream id ;;
     ret (RespMessage "success" (PyStr ("Stream " ++ id ++ " removed"))))
    (fun _ => raise (HTTPException 404 ("Stream " ++ id ++ " not found"))).

(** *** Sequences of calls *)

(** [create_stream] once for each id of a list, in order; the first
    failure ends the sequence. *)
Fixpoint create_all (modality mode : string) (ids : list string) : M unit :=
  match ids with
  | [] => ret tt
  | id :: rest => _ <- create_stream id modality mode ;; create_all modality mode rest
  end.

(** [process_audio] once for each chunk of a list, in order *)
Definition feed (id : string) (chunks : list (list byte)) : M unit :=
  for_each chunks (process_audio id).

(** The entry points through which the registry is used *)
Inductive op : Type :=
| OpCreate (id modality mode : string)
| OpRemove (id : string)
| OpProcessAudio (id : string) (audio_data : list byte)
| OpCleanup (max_inactive_minutes : Z)
| OpControl (client_id : string) (message : PyDict.t pyval)
| OpMessage (message : PyDict.t pyval)
| OpAnswer (offer : PyDict.t string)
| OpOffer (sdp modality mode : string)
| OpDelete (id : string).

Definition exec (o : op) : M unit :=
  match o with
  | OpCreate id modality mode => _ <- create_stream id modality mode ;; ret tt
  | OpRemove id => remove_stream id
  | OpProcessAudio id audio_data => process_audio id audio_data
  | OpCleanup minutes => cleanup_inactive_streams minutes
  | OpControl client_id message => handle_control_message client_id message
  | OpMessage message => _ <- handle_fastrtc_message message ;; ret tt
  | OpAnswer offer => _ <- create_webrtc_answer offer ;; ret tt
  | OpOffer sdp modality mode => _ <- webrtc_offer sdp modality mode ;; ret tt
  | OpDelete id => _ <- remove_fastrtc_stream id ;; ret tt
  end.

(** The world after a sequence of calls; a call that raises leaves the
    world as it was when the exception left the call. *)
Definition run (ops : list op) (w : World) : World :=
  fold_left (fun w o => snd (exec o w)) ops w.

End Backend.

(** ** Predicates on the registry *)

(** An id that [create_stream] accepts *)
Definition valid_id (id : string) : Prop := id <> "" /\ id <> "None".

(** Ids are unique, every stream is held under its own id, and the
    registry holds at most [max_streams] streams. *)
Definition registry_ok (m : FastRTCManager) : Prop :=
  NoDup (PyDict.keys (streams m))
  /\ Forall (fun kv => webrtc_id (snd kv) = fst kv) (streams m)
  /\ PyDict.len (streams m) <= max_streams m.

(** The tags [handle_fastrtc_message] recognises *)
Definition recognised_tags : list string :=
  ["send_input"; "fetch_output"; "stopword"; "error"; "warning"; "log"].

(** Number of flushes recorded by a log: each run of [_process_buffer]
    logs one record, of its payload or of its failure. *)
Definition is_flush_record (r : level * logmsg) : bool :=
  match snd r with
  | LProcessing _ _ => true
  | LProcessingFailed _ _ => true
  | _ => false
  end.
Definition flushes (l : list (level * logmsg)) : nat :=
  List.length (filter is_flush_record l).

(** ** Sample environments *)

(** The processing step of the source: it logs and returns. *)
Definition log_only : FastRTCStream -> list byte -> option string :=
  fun _ _ => None.

(** A processing step that raises on every payload *)
Definition failing_step : FastRTCStream -> list byte -> option string :=
  fun _ _ => Some "processing failed".

Definition initial_world : World :=
  mkWorld FastRTCManager_init (mkConn [] []) [] 0 0.

(** A clock that starts at [t0] and advances one microsecond a reading *)
Definition clock_from (t0 : datetime) : nat -> datetime :=
  fun k => t0 + Z.of_nat k.

(** The time of day [h:m:00] of day number [d] *)
Definition at_time (d h m : Z) : datetime :=
  ((d * 24 + h) * 60 + m) * usec_per_minute.

Definition stream_name (k : nat) : string :=
  "s" ++ NilZero.string_of_uint (Nat.to_uint k).
Definition sample_uuid (k : nat) : string :=
  "uuid-" ++ NilZero.string_of_uint (Nat.to_uint k).

Definition sample_clock : nat -> datetime := clock_from (at_time 739000 12 45).

(** The registry after a hundred streams [s0] .. [s99] were created *)
Definition full_world : World :=
  snd (create_all sample_clock "audio" "send" (map stream_name (seq 0 100))
         initial_world).

(** A world with one connected client and an empty registry *)
Definition one_client_world : World :=
  mkWorld FastRTCManager_init
          (mkConn [("c1", [])] [("c1", mkMeta 0 0 false)]) [] 0 0.

Definition chunk_a : list byte := [x01; x02].
Definition chunk_b : list byte := [x03].

(** An active stream holding two chunks *)
Definition buffered_stream : FastRTCStream :=
  mkStream "a" "audio" "send" true 0 0 [chunk_a; chunk_b] false.

(** A stream as [create_stream] leaves it: not started yet *)
Definition idle_stream : FastRTCStream :=
  mkStream "a" "audio" "send" false 0 0 [] false.

(** The world after client [c1] had stream [a] created *)
Definition created_world : World :=
  snd (create_stream sample_clock "a" "audio" "send" one_client_world).

(** and after it asked to start streaming on it *)
Definition active_world : World :=
  snd (handle_control_message sample_clock "c1"
         [("type", PyStr "start_streaming"); ("webrtc_id", PyStr "a")]
         created_world).

Definition nine_chunks : list (list byte) := repeat chunk_a 8 ++ [chunk_b].
Definition ten_chunks : list (list byte) := nine_chunks ++ [chunk_a].

(** A uuid generator that draws the id [a] again *)
Definition colliding_uuid : nat -> string := fun _ => "a".

Definition audio_offer : PyDict.t string :=
  [("sdp", "v=0"); ("modality", "audio"); ("mode", "send")].

Definition start_message (id : string) : PyDict.t pyval :=
  [("type", PyStr "start_streaming"); ("webrtc_id", PyStr id)].
Definition stop_message (id : string) : PyDict.t pyval :=
  [("type", PyStr "stop_streaming"); ("webrtc_id", PyStr id)].

(** A clock for the sweep: [old] is created at 11:39, [recent] at 11:41,
    and every later reading is 12:10. *)
Definition sweep_clock : nat -> datetime :=
  fun k =>
    match k with
    | 0%nat | 1%nat => at_time 739000 11 39
    | 2%nat | 3%nat => at_time 739000 11 41
    | _ => at_time 739000 12 10
    end.

Definition sweep_world : World :=
  snd (create_all sweep_clock "audio" "send" ["old"; "recent"] initial_world).

(** A fresh manager configured for two streams *)
Definition small_world : World :=
  mkWorld (mkManager [] 2) (mkConn [] []) [] 0 0.

(** ** Notions used by the statements *)

(** The stream as [process_audio_data] leaves it before it looks at the
    length of the buffer. *)
Definition appended (now : datetime) (chunk : list byte) (s : FastRTCStream)
  : FastRTCStream :=
  set_audio_buffer (audio_buffer s ++ [chunk]) (set_last_activity now s).

(** What every method of a stream does to the rest of the world: it
    returns, keeps the id of the stream and leaves both managers alone. *)
Definition stream_method (c : M FastRTCStream) (s : FastRTCStream) : Prop :=
  forall w, exists s' w',
    c w = (Return s', w')
    /\ webrtc_id s' = webrtc_id s
    /\ fastrtc_manager w' = fastrtc_manager w
    /\ manager w' = manager w.

(** A computation that keeps the invariant of the registry and its
    capacity, whether it returns or raises. *)
Definition keeps_registry {A} (c : M A) : Prop :=
  forall w,
    registry_ok (fastrtc_manager w) ->
    registry_ok (fastrtc_manager (snd (c w)))
    /\ max_streams (fastrtc_manager (snd (c w))) = max_streams (fastrtc_manager w).

(** ** Connections, inbound audio and offers *)

(** The records that the code below logs besides those of [logmsg] *)
Inductive more_logmsg : Type :=
| LClientConnected (client_id : string)
| LClientDisconnected (client_id : string)
| LReceivedAudio (nbytes : nat) (client_id : string)
| LSdpOffer (id : string).

(** The world together with those records.  Each is kept with the
    number of records [logged] held when it was written, which is its
    place among them. *)
Record Server : Type := mkServer {
  world : World;
  journal : list (nat * (level * more_logmsg))
}.

Definition MS (A : Type) : Type := Server -> outcome A * Server.

Definition retS {A} (a : A) : MS A := fun sv => (Return a, sv).
Definition bindS {A B} (c : MS A) (k : A -> MS B) : MS B :=
  fun sv =>
    match c sv with
    | (Return a, sv') => k a sv'
    | (Raise e, sv') => (Raise e, sv')
    end.

(** A computation on the world, run inside the server *)
Definition in_world {A} (c : M A) : MS A :=
  fun sv =>
    match c (world sv) with
    | (r, w') => (r, mkServer w' (journal sv))
    end.

Definition log_more (l : level) (m : more_logmsg) : MS unit :=
  fun sv =>
    (Return tt,
     mkServer (world sv)
       (journal sv ++ [(List.length (logged (world sv)), (l, m))])).

Declare Scope server_scope.
Delimit Scope server_scope with server.
Notation "x <- c ;; k" := (bindS c (fun x => k))
  (at level 61, c at next level, right associativity) : server_scope.
Notation "c ;; k" := (bindS c (fun _ => k))
  (at level 61, right associativity) : server_scope.

(** The dictionary returned by [create_webrtc_offer] *)
Record offer : Type := mkOffer {
  offer_sdp : string;
  offer_modality : string;
  offer_mode : string;
  offer_webrtc_id : string
}.

(** The session description of [create_webrtc_offer], after [strip()] *)
Definition sdp_offer (id : string) : string :=
  String.concat newline
    [ "v=0";
      "o=- " ++ id ++ " 2 IN IP4 127.0.0.1";
      "s=-";
      "t=0 0";
      "a=group:BUNDLE audio";
      "a=extmap-allow-mixed";
      "a=msid-semantic: WMS";
      "m=audio 9 UDP/TLS/RTP/SAVPF 111";
      "c=IN IP4 0.0.0.0";
      "a=mid:audio";
      "a=sendrecv";
      "a=rtpmap:111 opus/48000/2";
      "a=fmtp:111 minptime=10;useinbandfec=1";
      "a=ssrc:1 cname:fastrtc-audio";
      "a=ssrc:1 msid:fastrtc-audio audio";
      "a=ssrc:1 mslabel:fastrtc-audio";
      "a=label:audio";
      "a=rtcp-mux" ].

Section Transport.

Variable clock : nat -> datetime.
Variable uuid4 : nat -> string.
Variable process : FastRTCStream -> list byte -> option string.

(** [ConnectionManager.connect], for a socket that accepted the
    connection; [websocket] is the list of the frames sent on it. *)
Definition connect (websocket : list frame) (client_id : string) : MS unit :=
  (in_world
     (c <- get_conn ;;
      put_conn (mkConn (PyDict.set (active_connections c) client_id websocket)
                       (connection_metadata c)) ;;
      connected <- utcnow clock ;;
      activity <- utcnow clock ;;
      c <- get_conn ;;
      put_conn (mkConn (active_connections c)
                  (PyDict.set (connection_metadata c) client_id
                     (mkMeta connected activity false))))%py ;;
   log_more INFO (LClientConnected client_id))%server.

(** [ConnectionManager.disconnect] *)
Definition disconnect (client_id : string) : MS unit :=
  (in_world
     (c <- get_conn ;;
      (if PyDict.mem (active_connections c) client_id
       then put_conn (mkConn (PyDict.del (active_connections c) client_id)
                             (connection_metadata c))
       else ret tt) ;;
      c <- get_conn ;;
      (if PyDict.mem (connection_metadata c) client_id
       then put_conn (mkConn (active_connections c)
                             (PyDict.del (connection_metadata c) client_id))
       else ret tt))%py ;;
   log_more INFO (LClientDisconnected client_id))%server.

(** [ConnectionManager.get_connection_count] *)
Definition get_connection_count : M Z :=
  c <- get_conn ;;
  ret (PyDict.len (active_connections c)).

(** [handle_audio_data]: the chunk goes to every stream that the
    statistics, taken once before the loop, show as active. *)
Definition handle_audio_data (client_id : string) (audio_data : list byte)
  : MS unit :=
  (in_world
     (c <- get_conn ;;
      (if PyDict.mem (connection_metadata c) client_id then
         now <- utcnow clock ;;
         c <- get_conn ;;
         match PyDict.get (connection_metadata c) client_id with
         | None => raise (KeyError client_id)
         | Some md =>
             put_conn (mkConn (active_connections c)
                         (PyDict.set (connection_metadata c) client_id
                            (mkMeta (connected_at md) now (audio_streaming md))))
         end
       else ret tt) ;;
      fastrtc_stats <- get_stats ;;
      for_each (stats_streams fastrtc_stats)
        (fun stream_info =>
           if st_is_active stream_info
           then process_audio clock process (st_webrtc_id stream_info) audio_data
           else ret tt))%py ;;
   log_more DEBUG (LReceivedAudio (List.length audio_data) client_id))%server.

(** [create_webrtc_offer] *)
Definition create_webrtc_offer (a_modality a_mode : string) : MS offer :=
  (id <- in_world (new_uuid uuid4) ;;
   let sdp := sdp_offer id in
   log_more INFO (LSdpOffer id) ;;
   retS (mkOffer sdp a_modality a_mode id))%server.

(** The dictionary that [POST /webrtc/offer] builds from a request and
    hands to [create_webrtc_answer] *)
Definition offer_data (sdp a_modality a_mode : string) : PyDict.t string :=
  [("sdp", sdp); ("modality", a_modality); ("mode", a_mode)].

End Transport.

Definition initial_server : Server := mkServer initial_world [].

(** A clock for a sweep at 12:40: [old] is created at 12:09, [recent] at
    12:11. *)
Definition late_sweep_clock : nat -> datetime :=
  fun k =>
    match k with
    | 0%nat | 1%nat => at_time 739000 12 9
    | 2%nat | 3%nat => at_time 739000 12 11
    | _ => at_time 739000 12 40
    end.

Definition late_sweep_world : World :=
  snd (create_all late_sweep_clock "audio" "send" ["old"; "recent"] initial_world).

Definition send_input_message (id : pyval) : PyDict.t pyval :=
  [("type", PyStr "send_input"); ("webrtc_id", id)].
Definition fetch_output_message (id : pyval) : PyDict.t pyval :=
  [("type", PyStr "fetch_output"); ("webrtc_id", id)].

(** Client [c1] sends twenty-nine chunks to stream [a], then stops it. *)
Definition sample_ops : list op :=
  (map (OpProcessAudio "a") (ten_chunks ++ ten_chunks ++ nine_chunks)
   ++ [OpControl "c1" (stop_message "a")])%list.

(** Stream [a] is active; stream [b] was created and not started. *)
Definition mixed_world : World :=
  snd (create_stream sample_clock "b" "audio" "send" active_world).
Definition mixed_server : Server := mkServer mixed_world [].

(** ** More notions used by the statements *)

(** Every stream of the registry satisfies [P]. *)
Definition all_streams (P : FastRTCStream -> Prop) (m : FastRTCManager) : Prop :=
  Forall (fun kv => P (snd kv)) (streams m).

(** A computation that keeps a property of the registry, whether it
    returns or raises. *)
Definition preserves {A} (I : FastRTCManager -> Prop) (c : M A) : Prop :=
  forall w, I (fastrtc_manager w) -> I (fastrtc_manager (snd (c w))).

(** Bytes waiting in the buffer of a stream *)
Definition buffered_bytes (s : FastRTCStream) : nat :=
  List.length (List.concat (audio_buffer s)).

(** Bytes that the log shows as processed for stream [id] *)
Definition record_bytes (id : string) (r : level * logmsg) : nat :=
  match snd r with
  | LProcessing n id' => if (id' =? id)%string then n else 0%nat
  | _ => 0%nat
  end.
Definition processed_bytes (id : string) (l : list (level * logmsg)) : nat :=
  list_sum (map (record_bytes id) l).

(** Number of active streams, as [get_stats] counts them *)
Definition active_count (m : FastRTCManager) : Z :=
  Z.of_nat (List.length (filter is_active (PyDict.values (streams m)))).

(** A stream between two calls: no flush in flight, fewer than ten
    chunks waiting. *)
Definition settled (s : FastRTCStream) : Prop :=
  processing s = false /\ (List.length (audio_buffer s) < 10)%nat.

(** * Properties *)

(** ** Dictionaries *)

Module PyDictFacts.
Import PyDict.
Section Facts.
Context {V : Type}.
Implicit Types (d : PyDict.t V) (k : string) (v : V).

Lemma get_set_same d k v : get (set d k v) k = Some v.
Proof.
  induction d as [|[k' v'] d IH]; simpl.
  - now rewrite String.eqb_refl.
  - destruct (String.eqb_spec k' k) as [->|Hne]; simpl.
    + now rewrite String.eqb_refl.
    + apply String.eqb_neq in Hne. now rewrite Hne.
Qed.

Lemma get_set_other d k k' v : k <> k' -> get (set d k v) k' = get d k'.
Proof.
  intros Hne. induction d as [|[k0 v0] d IH]; simpl.
  - apply String.eqb_neq in Hne. now rewrite Hne.
  - destruct (String.eqb_spec k0 k) as [->|Hne0]; simpl.
    + apply String.eqb_neq in Hne. now rewrite Hne.
    + now rewrite IH.
Qed.

Lemma set_get_id d k v : get d k = Some v -> set d k v = d.
Proof.
  induction d as [|[k0 v0] d IH]; simpl; [discriminate|].
  destruct (String.eqb_spec k0 k) as [->|Hne]; intros H.
  - now inversion H.
  - now rewrite IH.
Qed.

Lemma set_absent d k v : get d k = None -> set d k v = (d ++ [(k, v)])%list.
Proof.
  induction d as [|[k0 v0] d IH]; simpl; [reflexivity|].
  destruct (k0 =? k)%string; [discriminate|].
  intros H. now rewrite IH.
Qed.

Lemma keys_set_present d k v : mem d k = true -> keys (set d k v) = keys d.
Proof.
  unfold mem, keys. induction d as [|[k0 v0] d IH]; simpl; [discriminate|].
  destruct (String.eqb_spec k0 k) as [->|Hne]; simpl; intros H.
  - reflexivity.
  - now rewrite IH.
Qed.

Lemma get_None_keys d k : get d k = None <-> ~ In k (keys d).
Proof.
  unfold keys. induction d as [|[k0 v0] d IH]; simpl.
  - tauto.
  - destruct (String.eqb_spec k0 k) as [->|Hne].
    + split; [discriminate | intros H; exfalso; apply H; now left].
    + rewrite IH. tauto.
Qed.

Lemma get_Some_In d k v : get d k = Some v -> In (k, v) d.
Proof.
  induction d as [|[k0 v0] d IH]; simpl; [discriminate|].
  destruct (String.eqb_spec k0 k) as [->|Hne]; intros H.
  - inversion H. now left.
  - right. now apply IH.
Qed.

Lemma In_get_Some d k v : NoDup (keys d) -> In (k, v) d -> get d k = Some v.
Proof.
  unfold keys. induction d as [|[k0 v0] d IH]; simpl; [tauto|].
  intros Hnd [Heq|Hin].
  - inversion Heq; subst. now rewrite String.eqb_refl.
  - inversion Hnd as [|? ? Hnotin Hnd']; subst.
    destruct (String.eqb_spec k0 k) as [->|Hne].
    + exfalso. apply Hnotin. now apply (in_map fst) in Hin.
    + now apply IH.
Qed.

Lemma mem_true d k : mem d k = true <-> exists v, get d k = Some v.
Proof.
  unfold mem. destruct (get d k) as [v|].
  - split; [now exists v | reflexivity].
  - split; [discriminate | intros [v H]; discriminate].
Qed.

Lemma mem_false d k : mem d k = false <-> get d k = None.
Proof.
  unfold mem. destruct (get d k); split; congruence.
Qed.

Lemma get_del_same d k : get (del d k) k = None.
Proof.
  unfold del. induction d as [|[k0 v0] d IH]; simpl; [reflexivity|].
  destruct (String.eqb_spec k0 k) as [->|Hne]; simpl; [exact IH|].
  apply String.eqb_neq in Hne. now rewrite Hne.
Qed.

Lemma get_del_other d k k' : k <> k' -> get (del d k) k' = get d k'.
Proof.
  intros Hne. unfold del. induction d as [|[k0 v0] d IH]; simpl; [reflexivity|].
  destruct (String.eqb_spec k0 k) as [->|Hne0]; simpl.
  - rewrite IH. apply String.eqb_neq in Hne. now rewrite Hne.
  - now rewrite IH.
Qed.

Lemma del_absent d k : get d k = None -> del d k = d.
Proof.
  unfold del. induction d as [|[k0 v0] d IH]; simpl; [reflexivity|].
  destruct (k0 =? k)%string; simpl; [discriminate|].
  intros H. now rewrite IH.
Qed.

Lemma del_set d k v : del (set d k v) k = del d k.
Proof.
  unfold del. induction d as [|[k0 v0] d IH]; simpl.
  - now rewrite String.eqb_refl.
  - destruct (String.eqb_spec k0 k) as [->|Hne]; simpl.
    + now rewrite String.eqb_refl.
    + apply String.eqb_neq in Hne. rewrite Hne. simpl. now rewrite IH.
Qed.

Lemma len_set_present d k v : mem d k = true -> len (set d k v) = len d.
Proof.
  intros H. unfold len. f_equal.
  rewrite <- (length_map fst (set d k v)), <- (length_map fst d).
  change (map fst (set d k v)) with (keys (set d k v)).
  now rewrite keys_set_present.
Qed.

Lemma len_set_absent d k v : get d k = None -> len (set d k v) = len d + 1.
Proof.
  intros H. rewrite set_absent by assumption. unfold len.
  rewrite length_app. simpl. lia.
Qed.

Lemma len_del_le d k : len (del d k) <= len d.
Proof.
  unfold len, del. apply inj_le. apply filter_length_le.
Qed.

Lemma len_nonneg d : 0 <= len d.
Proof. unfold len. lia. Qed.

Lemma keys_del d k : keys (del d k) = filter (fun k' => negb (k' =? k)%string) (keys d).
Proof.
  unfold keys, del. induction d as [|[k0 v0] d IH]; simpl; [reflexivity|].
  destruct (k0 =? k)%string; simpl; now rewrite IH.
Qed.

Lemma NoDup_keys_set d k v : NoDup (keys d) -> NoDup (keys (set d k v)).
Proof.
  intros Hnd. destruct (get d k) as [v0|] eqn:Hg.
  - rewrite keys_set_present; [assumption|]. apply mem_true. now exists v0.
  - rewrite set_absent by assumption. unfold keys. rewrite map_app. simpl.
    apply NoDup_app; [assumption | repeat constructor; simpl; tauto |].
    intros a Ha [<-|[]]. now apply get_None_keys in Hg.
Qed.

Lemma NoDup_keys_del d k : NoDup (keys d) -> NoDup (keys (del d k)).
Proof.
  intros Hnd. rewrite keys_del. now apply NoDup_filter.
Qed.

End Facts.
End PyDictFacts.

(** ** Streams *)

Lemma valid_id_checks id :
  valid_id id -> ((id =? "")%string || (id =? "None")%string) = false.
Proof.
  intros [H1 H2]. apply String.eqb_neq in H1, H2. now rewrite H1, H2.
Qed.

Lemma invalid_id_checks id :
  ~ valid_id id -> ((id =? "")%string || (id =? "None")%string) = true.
Proof.
  intros H. unfold valid_id in H.
  destruct (String.eqb_spec id ""); [reflexivity|].
  destruct (String.eqb_spec id "None"); [reflexivity|].
  exfalso. apply H. now split.
Qed.

(** [_process_buffer] in closed form, by the outcome of the processing
    step on the combined payload. *)
Lemma process_buffer_eq process s w :
  _process_buffer process s w =
  match process (set_processing true s) (List.concat (audio_buffer s)) with
  | None =>
      (Return (set_processing false (set_audio_buffer [] s)),
       with_record DEBUG
         (LProcessing (List.length (List.concat (audio_buffer s))) (webrtc_id s)) w)
  | Some msg =>
      (Return (set_processing false s),
       with_record ERROR (LProcessingFailed (webrtc_id s) (Exception msg)) w)
  end.
Proof.
  unfold _process_buffer, try_except, bind, run_processing. simpl.
  destruct (process (set_processing true s) (List.concat (audio_buffer s)));
    reflexivity.
Qed.

(** With the processing step of the source, which only logs, every
    flush empties the buffer. *)
Lemma process_buffer_log_only s w :
  _process_buffer log_only s w =
  (Return (set_processing false (set_audio_buffer [] s)),
   with_record DEBUG
     (LProcessing (List.length (List.concat (audio_buffer s))) (webrtc_id s)) w).
Proof. now rewrite process_buffer_eq. Qed.

Lemma process_audio_data_inactive clock process s chunk w :
  is_active s = false ->
  process_audio_data clock process s chunk w = (Return s, w).
Proof.
  intros H. unfold process_audio_data. now rewrite H.
Qed.

Lemma process_audio_data_active clock process s chunk w :
  is_active s = true ->
  process_audio_data clock process s chunk w =
  let s1 := appended (clock (ticks w)) chunk s in
  if (Z.of_nat (List.length (audio_buffer s1)) >=? 10) && negb (processing s1)
  then _process_buffer process s1 (tick w)
  else (Return s1, tick w).
Proof.
  intros H. unfold process_audio_data. rewrite H. simpl.
  unfold bind, utcnow. simpl. fold (appended (clock (ticks w)) chunk s).
  destruct (_ && _); reflexivity.
Qed.

Lemma process_buffer_method process s : stream_method (_process_buffer process s) s.
Proof.
  intros w. rewrite process_buffer_eq.
  destruct (process _ _); eexists; eexists; (split; [reflexivity|]); now simpl.
Qed.

Lemma process_audio_data_method clock process s chunk :
  stream_method (process_audio_data clock process s chunk) s.
Proof.
  intros w. destruct (is_active s) eqn:Ha.
  - rewrite process_audio_data_active by assumption. cbv zeta.
    destruct (_ && _).
    + destruct (process_buffer_method process
                  (appended (clock (ticks w)) chunk s) (tick w))
        as (s' & w' & -> & Hid & Hm & Hc).
      exists s', w'. now rewrite Hid, Hm, Hc.
    + eexists; eexists; (split; [reflexivity|]); now simpl.
  - rewrite process_audio_data_inactive by assumption.
    now exists s, w.
Qed.

Lemma start_streaming_eq clock s w :
  start_streaming clock s w =
  (Return (set_last_activity (clock (ticks w)) (set_is_active true s)),
   with_record INFO (LStarted (webrtc_id s)) (tick w)).
Proof. reflexivity. Qed.

Lemma stop_streaming_eq s w :
  stop_streaming s w =
  (Return (set_is_active false s), with_record INFO (LStopped (webrtc_id s)) w).
Proof. reflexivity. Qed.

Lemma start_streaming_method clock s : stream_method (start_streaming clock s) s.
Proof.
  intros w. rewrite start_streaming_eq.
  eexists; eexists; (split; [reflexivity|]); now simpl.
Qed.

Lemma stop_streaming_method s : stream_method (stop_streaming s) s.
Proof.
  intros w. rewrite stop_streaming_eq. eexists; eexists; (split; [reflexivity|]); now simpl.
Qed.

(** ** The registry *)

Lemma geb_false a b : a < b -> (a >=? b) = false.
Proof. intros H. rewrite Z.geb_leb. now apply Z.leb_gt. Qed.

Lemma geb_true a b : b <= a -> (a >=? b) = true.
Proof. intros H. rewrite Z.geb_leb. now apply Z.leb_le. Qed.

Lemma with_manager_same w : with_manager (fastrtc_manager w) w = w.
Proof. now destruct w. Qed.

Lemma set_streams_same m : set_streams (streams m) m = m.
Proof. now destruct m. Qed.

Lemma get_stream_str id w :
  get_stream (PyStr id) w = (Return (PyDict.get (streams (fastrtc_manager w)) id), w).
Proof. reflexivity. Qed.

Lemma store_stream_present id s w :
  PyDict.mem (streams (fastrtc_manager w)) id = true ->
  store_stream id s w =
  (Return tt,
   with_manager (set_streams (PyDict.set (streams (fastrtc_manager w)) id s)
                   (fastrtc_manager w)) w).
Proof.
  intros H. unfold store_stream, bind, get_manager. now rewrite H.
Qed.

Lemma store_stream_absent id s w :
  PyDict.mem (streams (fastrtc_manager w)) id = false ->
  store_stream id s w = (Return tt, w).
Proof.
  intros H. unfold store_stream, bind, get_manager. now rewrite H.
Qed.

(** Storing back the state a stream already has changes nothing. *)
Lemma store_stream_same id s w :
  PyDict.get (streams (fastrtc_manager w)) id = Some s ->
  store_stream id s w = (Return tt, w).
Proof.
  intros H. rewrite store_stream_present.
  - rewrite PyDictFacts.set_get_id by assumption.
    now rewrite set_streams_same, with_manager_same.
  - apply PyDictFacts.mem_true. now exists s.
Qed.

Lemma process_audio_unknown clock process id chunk w :
  PyDict.get (streams (fastrtc_manager w)) id = None ->
  process_audio clock process id chunk w =
  (Return tt, with_record WARNING (LNotFound id) w).
Proof.
  intros H. unfold process_audio, bind. rewrite get_stream_str, H. reflexivity.
Qed.

(** A call on a registered stream: the method runs on the stream and
    the entry of the registry takes the state it leaves. *)
Lemma process_audio_known clock process id chunk w s s' w1 :
  PyDict.get (streams (fastrtc_manager w)) id = Some s ->
  process_audio_data clock process s chunk w = (Return s', w1) ->
  process_audio clock process id chunk w =
  (Return tt,
   with_manager (set_streams (PyDict.set (streams (fastrtc_manager w)) id s')
                   (fastrtc_manager w)) w1).
Proof.
  intros Hg Hp. unfold process_audio, bind. rewrite get_stream_str, Hg, Hp.
  destruct (process_audio_data_method clock process s chunk w)
    as (s2 & w2 & Heq & _ & Hm & _).
  rewrite Hp in Heq. inversion Heq; subst s2 w2.
  rewrite store_stream_present; rewrite Hm.
  - reflexivity.
  - apply PyDictFacts.mem_true. now exists s.
Qed.

Lemma process_audio_inactive clock process id chunk w s :
  PyDict.get (streams (fastrtc_manager w)) id = Some s ->
  is_active s = false ->
  process_audio clock process id chunk w = (Return tt, w).
Proof.
  intros Hg Ha.
  rewrite (process_audio_known clock process id chunk w s s w Hg)
    by now apply process_audio_data_inactive.
  rewrite PyDictFacts.set_get_id by assumption.
  now rewrite set_streams_same, with_manager_same.
Qed.

Lemma create_stream_success clock id modality mode w :
  valid_id id ->
  PyDict.len (streams (fastrtc_manager w)) < max_streams (fastrtc_manager w) ->
  PyDict.get (streams (fastrtc_manager w)) id = None ->
  let s := mkStream id modality mode false
                    (clock (ticks w)) (clock (S (ticks w))) [] false in
  create_stream clock id modality mode w =
  (Return s,
   with_record INFO (LCreated id)
     (with_manager
        (set_streams (streams (fastrtc_manager w) ++ [(id, s)])%list (fastrtc_manager w))
        (tick (tick w)))).
Proof.
  intros Hv Hlen Hg s. unfold create_stream, bind, get_manager.
  rewrite (valid_id_checks id Hv).
  rewrite geb_false by assumption.
  replace (PyDict.mem _ id) with false
    by (symmetry; now apply PyDictFacts.mem_false).
  simpl. rewrite PyDictFacts.set_absent by assumption. reflexivity.
Qed.

Lemma create_stream_invalid clock id modality mode w :
  ~ valid_id id ->
  create_stream clock id modality mode w =
  (Raise (ValueError "Invalid webrtc_id: cannot be None or empty"), w).
Proof.
  intros Hv. unfold create_stream, bind, get_manager.
  now rewrite (invalid_id_checks id Hv).
Qed.

Lemma create_stream_full clock id modality mode w :
  valid_id id ->
  max_streams (fastrtc_manager w) <= PyDict.len (streams (fastrtc_manager w)) ->
  create_stream clock id modality mode w =
  (Raise (ValueError "Maximum number of streams reached"), w).
Proof.
  intros Hv Hlen. unfold create_stream, bind, get_manager.
  rewrite (valid_id_checks id Hv).
  rewrite geb_true by assumption.
  reflexivity.
Qed.

Lemma create_stream_duplicate clock id modality mode w :
  valid_id id ->
  PyDict.len (streams (fastrtc_manager w)) < max_streams (fastrtc_manager w) ->
  PyDict.mem (streams (fastrtc_manager w)) id = true ->
  create_stream clock id modality mode w =
  (Raise (ValueError ("Stream " ++ id ++ " already exists")), w).
Proof.
  intros Hv Hlen Hm. unfold create_stream, bind, get_manager.
  rewrite (valid_id_checks id Hv).
  rewrite geb_false by assumption.
  now rewrite Hm.
Qed.

(** ** Flushing the buffer *)

(** An active stream takes a chunk: the call returns with the time of
    the call as [last_activity] and the chunk buffered, unless a flush
    emptied the buffer. *)
Lemma process_audio_data_accepts clock process s chunk w :
  is_active s = true ->
  exists s' w',
    process_audio_data clock process s chunk w = (Return s', w')
    /\ last_activity s' = clock (ticks w)
    /\ (audio_buffer s' = (audio_buffer s ++ [chunk])%list
        \/ audio_buffer s' = []).
Proof.
  intros Ha. rewrite process_audio_data_active by exact Ha. cbv zeta.
  destruct (_ && _).
  - rewrite process_buffer_eq.
    destruct (process (set_processing true (appended (clock (ticks w)) chunk s)) _);
      eexists; eexists; (split; [reflexivity|]); split;
      solve [reflexivity | simpl; tauto].
  - eexists; eexists; (split; [reflexivity|]); split;
      solve [reflexivity | simpl; tauto].
Qed.

(** C2, as the code has it.  [_process_buffer] never raises.  It runs
    the processing step with the guard [processing] set, on the
    concatenation of the buffered chunks in arrival order, and returns
    with the guard cleared and [is_active] as it was.  When the step
    returns, the buffer is empty afterwards and one debug record is
    logged; when the step raises, the failure is logged and absorbed and
    the buffer keeps its chunks.  In both cases an active stream accepts
    the next chunk. *)
Theorem flush_clears_guard_and_absorbs_failure
  (process : FastRTCStream -> list byte -> option string)
  (s : FastRTCStream) (w : World) :
  exists s' w',
    _process_buffer process s w = (Return s', w')
    /\ processing s' = false
    /\ is_active s' = is_active s
    /\ fastrtc_manager w' = fastrtc_manager w
    /\ match process (set_processing true s) (List.concat (audio_buffer s)) with
       | None =>
           audio_buffer s' = []
           /\ logged w' =
              (logged w ++
               [(DEBUG, LProcessing (List.length (List.concat (audio_buffer s)))
                                    (webrtc_id s))])%list
       | Some msg =>
           audio_buffer s' = audio_buffer s
           /\ logged w' =
              (logged w ++
               [(ERROR, LProcessingFailed (webrtc_id s) (Exception msg))])%list
       end
    /\ (forall clock chunk w1,
          is_active s = true ->
          exists s'' w2,
            process_audio_data clock process s' chunk w1 = (Return s'', w2)
            /\ last_activity s'' = clock (ticks w1)
            /\ (audio_buffer s'' = (audio_buffer s' ++ [chunk])%list
                \/ audio_buffer s'' = [])).
Proof.
  rewrite process_buffer_eq.
  destruct (process (set_processing true s) (List.concat (audio_buffer s)))
    as [msg|] eqn:Hp;
    eexists; eexists; (split; [reflexivity|]);
    (repeat split; try reflexivity).
  all: intros clock chunk w1 Ha;
    apply process_audio_data_accepts; exact Ha.
Qed.

Lemma flush_clears_guard_witness :
  is_active buffered_stream = true
  /\ exists s'' w2,
       process_audio_data sample_clock log_only
         (set_processing false (set_audio_buffer [] buffered_stream))
         chunk_a initial_world = (Return s'', w2)
       /\ audio_buffer s'' = [chunk_a].
Proof.
  split; [reflexivity|].
  destruct (flush_clears_guard_and_absorbs_failure log_only buffered_stream
              initial_world) as (s' & w' & Heq & _ & _ & _ & _ & Hnext).
  rewrite process_buffer_eq in Heq. simpl in Heq. inversion Heq; subst s' w'.
  destruct (Hnext sample_clock chunk_a initial_world eq_refl)
    as (s'' & w2 & Hrun & _ & _).
  exists s'', w2. split; [exact Hrun|].
  rewrite process_audio_data_active in Hrun by reflexivity.
  simpl in Hrun. inversion Hrun. reflexivity.
Defined.

(** C2 as stated fails: when the processing step raises, the buffer is
    not cleared. *)
Lemma flush_keeps_buffer_on_failure :
  fst (_process_buffer failing_step buffered_stream initial_world)
  = Return (set_processing false buffered_stream)
  /\ audio_buffer (set_processing false buffered_stream) = [chunk_a; chunk_b]
  /\ audio_buffer (set_processing false buffered_stream) <> [].
Proof.
  repeat split; discriminate.
Qed.

(** ** Creation *)

(** What [create_stream] returns when it returns *)
Lemma create_stream_returns clock id modality mode w s w' :
  create_stream clock id modality mode w = (Return s, w') ->
  s = mkStream id modality mode false (clock (ticks w)) (clock (S (ticks w)))
               [] false
  /\ PyDict.get (streams (fastrtc_manager w')) id = Some s.
Proof.
  unfold create_stream, bind, get_manager.
  destruct (_ || _); [discriminate|].
  destruct (_ >=? _); [discriminate|].
  destruct (PyDict.mem _ id); [discriminate|].
  simpl. intros H. inversion H; subst. split; [reflexivity|].
  simpl. apply PyDictFacts.get_set_same.
Qed.

(** C10. A stream that [create_stream] returns is not active, has an
    empty buffer and is not processing, and it is the stream the
    registry holds under the id; [create_stream] does return one for a
    valid, new id below the capacity.  On a stream that is not active
    [process_audio_data] changes nothing: the stream and the world,
    clock and log included, are as before, so the chunk is not buffered,
    [last_activity] is not updated and no flush runs; the same holds for
    [process_audio] on the id of such a stream. *)
Theorem new_stream_inactive_and_audio_discarded
  (clock : nat -> datetime)
  (process : FastRTCStream -> list byte -> option string) :
  (forall id modality mode w,
     valid_id id ->
     PyDict.len (streams (fastrtc_manager w)) < max_streams (fastrtc_manager w) ->
     PyDict.get (streams (fastrtc_manager w)) id = None ->
     exists s w', create_stream clock id modality mode w = (Return s, w'))
  /\ (forall id modality mode w s w',
        create_stream clock id modality mode w = (Return s, w') ->
        is_active s = false /\ audio_buffer s = [] /\ processing s = false
        /\ PyDict.get (streams (fastrtc_manager w')) id = Some s)
  /\ (forall s chunk w,
        is_active s = false ->
        process_audio_data clock process s chunk w = (Return s, w))
  /\ (forall id s chunk w,
        PyDict.get (streams (fastrtc_manager w)) id = Some s ->
        is_active s = false ->
        process_audio clock process id chunk w = (Return tt, w)).
Proof.
  split; [|split; [|split]].
  - intros id a_modality a_mode w Hv Hlen Hg.
    eexists; eexists. now apply create_stream_success.
  - intros id a_modality a_mode w s w' Hrun.
    apply create_stream_returns in Hrun. destruct Hrun as [-> Hget].
    now repeat split.
  - intros s chunk w. apply process_audio_data_inactive.
  - intros id s chunk w. apply process_audio_inactive.
Qed.

Lemma new_stream_inactive_witness :
  (exists s w',
     create_stream sample_clock "a" "audio" "send" initial_world = (Return s, w')
     /\ is_active s = false /\ audio_buffer s = [] /\ processing s = false
     /\ process_audio sample_clock log_only "a" chunk_a w' = (Return tt, w'))
  /\ process_audio_data sample_clock log_only idle_stream chunk_a initial_world
     = (Return idle_stream, initial_world).
Proof.
  destruct (new_stream_inactive_and_audio_discarded sample_clock log_only)
    as (Hcreate & Hnew & Hdata & Haudio).
  split.
  - destruct (Hcreate "a" "audio" "send" initial_world) as (s & w' & Heq).
    + split; discriminate.
    + reflexivity.
    + reflexivity.
    + exists s, w'. split; [exact Heq|].
      destruct (Hnew _ _ _ _ _ _ Heq) as (Ha & Hb & Hp & Hg).
      repeat split; try assumption.
      exact (Haudio "a" s chunk_a w' Hg Ha).
  - apply Hdata. reflexivity.
Defined.

(** C7, as the code has it.  [create_stream] checks in this order: an
    empty id or the id ["None"] is refused as invalid; then a registry
    that holds [max_streams] streams or more refuses the call; then an
    id that is present is refused as a duplicate.  Each refusal is a
    [ValueError] with its own message and leaves the world, so the size
    of the registry, unchanged.  Otherwise the call returns a new
    stream, not active, entered last in the registry under its id. *)
Theorem create_stream_checks_in_order
  (clock : nat -> datetime) (id a_modality a_mode : string) (w : World) :
  let m := fastrtc_manager w in
  (~ valid_id id ->
   create_stream clock id a_modality a_mode w =
   (Raise (ValueError "Invalid webrtc_id: cannot be None or empty"), w))
  /\ (valid_id id -> max_streams m <= PyDict.len (streams m) ->
      create_stream clock id a_modality a_mode w =
      (Raise (ValueError "Maximum number of streams reached"), w))
  /\ (valid_id id -> PyDict.len (streams m) < max_streams m ->
      PyDict.mem (streams m) id = true ->
      create_stream clock id a_modality a_mode w =
      (Raise (ValueError ("Stream " ++ id ++ " already exists")), w))
  /\ (valid_id id -> PyDict.len (streams m) < max_streams m ->
      PyDict.get (streams m) id = None ->
      exists s w',
        create_stream clock id a_modality a_mode w = (Return s, w')
        /\ streams (fastrtc_manager w') = (streams m ++ [(id, s)])%list
        /\ max_streams (fastrtc_manager w') = max_streams m
        /\ PyDict.get (streams (fastrtc_manager w')) id = Some s
        /\ PyDict.len (streams (fastrtc_manager w')) = PyDict.len (streams m) + 1
        /\ webrtc_id s = id /\ modality s = a_modality /\ mode s = a_mode
        /\ is_active s = false /\ audio_buffer s = [] /\ processing s = false).
Proof.
  intros m. subst m. repeat split.
  - apply create_stream_invalid.
  - apply create_stream_full.
  - apply create_stream_duplicate.
  - intros Hv Hlen Hg.
    pose proof (create_stream_success clock id a_modality a_mode w Hv Hlen Hg) as Heq.
    cbv zeta in Heq. eexists; eexists. split; [exact Heq|].
    pose proof (create_stream_returns _ _ _ _ _ _ _ Heq) as [_ Hget].
    repeat split; try reflexivity.
    + exact Hget.
    + simpl. unfold PyDict.len. rewrite length_app. simpl. lia.
Qed.

Lemma create_stream_checks_witness :
  create_stream sample_clock "" "audio" "send" initial_world =
    (Raise (ValueError "Invalid webrtc_id: cannot be None or empty"), initial_world)
  /\ create_stream sample_clock "fresh" "audio" "send" full_world =
    (Raise (ValueError "Maximum number of streams reached"), full_world)
  /\ (exists s w',
        create_stream sample_clock "a" "audio" "send" initial_world = (Return s, w')
        /\ create_stream sample_clock "a" "audio" "send" w' =
           (Raise (ValueError "Stream a already exists"), w')).
Proof.
  split; [|split].
  - apply (create_stream_checks_in_order sample_clock "" "audio" "send" initial_world).
    intros [H _]. now apply H.
  - apply (create_stream_checks_in_order sample_clock "fresh" "audio" "send" full_world).
    + split; discriminate.
    + vm_compute. discriminate.
  - destruct (create_stream_checks_in_order sample_clock "a" "audio" "send"
                initial_world) as (_ & _ & _ & Hok).
    destruct Hok as (s & w' & Heq & Hs & Hmax & Hg & Hlen & _).
    + split; discriminate.
    + reflexivity.
    + reflexivity.
    + exists s, w'. split; [exact Heq|].
      apply (create_stream_checks_in_order sample_clock "a" "audio" "send" w').
      * split; discriminate.
      * rewrite Hlen, Hmax. reflexivity.
      * apply PyDictFacts.mem_true. now exists s.
Defined.

(** C7 as stated fails: with the registry full, an id that is present
    is refused for the capacity, not as a duplicate. *)
Lemma create_duplicate_when_full :
  PyDict.mem (streams (fastrtc_manager full_world)) "s0" = true
  /\ PyDict.len (streams (fastrtc_manager full_world))
     = max_streams (fastrtc_manager full_world)
  /\ fst (create_stream sample_clock "s0" "audio" "send" full_world)
     = Raise (ValueError "Maximum number of streams reached")
  /\ fst (create_stream sample_clock "s0" "audio" "send" full_world)
     <> Raise (ValueError "Stream s0 already exists").
Proof.
  repeat split; try (vm_compute; reflexivity).
  vm_compute. discriminate.
Qed.

(** ** Appending audio *)

(** [process_audio] on an active, registered stream, in closed form. *)
Lemma process_audio_active clock process id chunk w s :
  PyDict.get (streams (fastrtc_manager w)) id = Some s ->
  is_active s = true ->
  let s1 := appended (clock (ticks w)) chunk s in
  let entry x :=
    set_streams (PyDict.set (streams (fastrtc_manager w)) id x) (fastrtc_manager w) in
  process_audio clock process id chunk w =
  (Return tt,
   if (Z.of_nat (List.length (audio_buffer s1)) >=? 10) && negb (processing s1)
   then match process (set_processing true s1) (List.concat (audio_buffer s1)) with
        | None =>
            with_manager (entry (set_processing false (set_audio_buffer [] s1)))
              (with_record DEBUG
                 (LProcessing (List.length (List.concat (audio_buffer s1)))
                              (webrtc_id s1)) (tick w))
        | Some msg =>
            with_manager (entry (set_processing false s1))
              (with_record ERROR
                 (LProcessingFailed (webrtc_id s1) (Exception msg)) (tick w))
        end
   else with_manager (entry s1) (tick w)).
Proof.
  intros Hg Ha s1 entry.
  pose proof (process_audio_data_active clock process s chunk w Ha) as Hd.
  cbv zeta in Hd. fold s1 in Hd.
  destruct (_ && _).
  - rewrite process_buffer_eq in Hd.
    destruct (process (set_processing true s1) (List.concat (audio_buffer s1)));
      now rewrite (process_audio_known _ _ _ _ _ _ _ _ Hg Hd).
  - now rewrite (process_audio_known _ _ _ _ _ _ _ _ Hg Hd).
Qed.

(** Chunks fed to an active stream whose buffer stays below ten chunks
    are buffered in arrival order, without any flush. *)
Lemma feed_below_threshold clock process id chunks :
  forall w s,
    PyDict.get (streams (fastrtc_manager w)) id = Some s ->
    is_active s = true ->
    processing s = false ->
    (List.length (audio_buffer s) + List.length chunks < 10)%nat ->
    exists s' w',
      feed clock process id chunks w = (Return tt, w')
      /\ PyDict.get (streams (fastrtc_manager w')) id = Some s'
      /\ audio_buffer s' = (audio_buffer s ++ chunks)%list
      /\ is_active s' = true
      /\ processing s' = false
      /\ webrtc_id s' = webrtc_id s
      /\ logged w' = logged w
      /\ ticks w' = (ticks w + List.length chunks)%nat.
Proof.
  unfold feed. induction chunks as [|c chunks IH]; intros w s Hg Ha Hp Hlen.
  - exists s, w. simpl. rewrite app_nil_r, Nat.add_0_r. now repeat split.
  - simpl for_each. unfold bind.
    rewrite (process_audio_active clock process id c w s Hg Ha). cbv zeta.
    replace (_ >=? 10) with false.
    2:{ symmetry. apply geb_false. unfold appended. simpl.
        rewrite length_app. simpl in *. lia. }
    simpl andb. cbv iota.
    set (s1 := appended (clock (ticks w)) c s).
    set (w1 := with_manager _ (tick w)).
    destruct (IH w1 s1) as (s' & w' & Hrun & Hg' & Hbuf & Ha' & Hp' & Hid & Hlog & Ht).
    + subst w1. simpl. apply PyDictFacts.get_set_same.
    + exact Ha.
    + exact Hp.
    + subst s1. unfold appended. simpl. rewrite length_app. simpl in *. lia.
    + exists s', w'. rewrite Hrun. repeat split; try assumption.
      * rewrite Hbuf. subst s1. unfold appended. simpl.
        now rewrite <- app_assoc.
      * rewrite Ht. subst w1. simpl. lia.
Qed.

Lemma for_each_app {A} (l1 l2 : list A) (body : A -> M unit) w :
  for_each (l1 ++ l2) body w =
  match for_each l1 body w with
  | (Return _, w') => for_each l2 body w'
  | (Raise e, w') => (Raise e, w')
  end.
Proof.
  revert w. induction l1 as [|x l1 IH]; intros w; simpl.
  - reflexivity.
  - unfold bind. destruct (body x w) as [[[]|e] w1]; [apply IH | reflexivity].
Qed.

Lemma flushes_app l1 l2 : flushes (l1 ++ l2) = (flushes l1 + flushes l2)%nat.
Proof. unfold flushes. now rewrite filter_app, length_app. Qed.

(** The tenth chunk fed to an active stream with an empty buffer runs
    one flush, on the ten chunks in arrival order. *)
Lemma feed_ten clock process id chunks w s :
  PyDict.get (streams (fastrtc_manager w)) id = Some s ->
  is_active s = true ->
  processing s = false ->
  audio_buffer s = [] ->
  List.length chunks = 10%nat ->
  exists seen s' w',
    feed clock process id chunks w = (Return tt, w')
    /\ PyDict.get (streams (fastrtc_manager w')) id = Some s'
    /\ audio_buffer seen = chunks
    /\ processing seen = true
    /\ webrtc_id seen = webrtc_id s
    /\ processing s' = false
    /\ match process seen (List.concat chunks) with
       | None =>
           audio_buffer s' = []
           /\ logged w' =
              (logged w ++
               [(DEBUG, LProcessing (List.length (List.concat chunks)) (webrtc_id s))])%list
       | Some msg =>
           audio_buffer s' = chunks
           /\ logged w' =
              (logged w ++
               [(ERROR, LProcessingFailed (webrtc_id s) (Exception msg))])%list
       end.
Proof.
  intros Hg Ha Hp Hb Hlen.
  destruct (exists_last (l := chunks)) as (front & c & ->).
  { intros ->. discriminate. }
  rewrite length_app in Hlen. simpl in Hlen.
  destruct (feed_below_threshold clock process id front w s Hg Ha Hp)
    as (s9 & w9 & Hrun & Hg9 & Hbuf & Ha9 & Hp9 & Hid & Hlog & Ht).
  { rewrite Hb. simpl. lia. }
  rewrite Hb in Hbuf. simpl in Hbuf.
  unfold feed in *. rewrite for_each_app, Hrun. simpl for_each. unfold bind.
  rewrite (process_audio_active clock process id c w9 s9 Hg9 Ha9). cbv zeta.
  set (s10 := appended (clock (ticks w9)) c s9).
  assert (Hbuf10 : audio_buffer s10 = (front ++ [c])%list)
    by (subst s10; unfold appended; simpl; now rewrite Hbuf).
  replace (_ >=? 10) with true.
  2:{ symmetry. apply geb_true. rewrite Hbuf10, length_app. simpl. lia. }
  replace (processing s10) with false by (symmetry; exact Hp9).
  simpl andb. cbv iota.
  exists (set_processing true s10). rewrite Hbuf10.
  destruct (process (set_processing true s10) (List.concat (front ++ [c])));
    eexists; eexists; (split; [reflexivity|]); simpl;
    rewrite PyDictFacts.get_set_same;
    (split; [reflexivity|]); repeat split; simpl;
    try assumption; try (now rewrite Hlog, Hid).
Qed.

(** C1, as the code has it.  [process_audio] never raises.  For an id
    that is not registered it logs the warning and changes nothing else.
    For a registered stream that is not active it changes nothing at
    all.  For a registered, active stream it sets [last_activity] to the
    time of the call and appends the chunk, and the chunk stays buffered
    unless a flush ran.  From an empty buffer on an active stream with no
    flush in flight, one to nine chunks leave the buffer holding them and
    log no flush; the tenth runs exactly one flush, after which the
    buffer is empty when the processing step returned, and still holds
    the ten chunks when it raised. *)
Theorem append_buffers_and_flushes_at_ten
  (clock : nat -> datetime)
  (process : FastRTCStream -> list byte -> option string) :
  (forall id chunk w,
     PyDict.get (streams (fastrtc_manager w)) id = None ->
     process_audio clock process id chunk w =
     (Return tt, with_record WARNING (LNotFound id) w))
  /\ (forall id chunk w s,
        PyDict.get (streams (fastrtc_manager w)) id = Some s ->
        is_active s = false ->
        process_audio clock process id chunk w = (Return tt, w))
  /\ (forall id chunk w s,
        PyDict.get (streams (fastrtc_manager w)) id = Some s ->
        is_active s = true ->
        exists s' w',
          process_audio clock process id chunk w = (Return tt, w')
          /\ PyDict.get (streams (fastrtc_manager w')) id = Some s'
          /\ last_activity s' = clock (ticks w)
          /\ (audio_buffer s' = (audio_buffer s ++ [chunk])%list
              \/ (audio_buffer s' = []
                  /\ flushes (logged w') = S (flushes (logged w)))))
  /\ (forall id chunks w s,
        PyDict.get (streams (fastrtc_manager w)) id = Some s ->
        is_active s = true ->
        processing s = false ->
        audio_buffer s = [] ->
        (0 < List.length chunks < 10)%nat ->
        exists s' w',
          feed clock process id chunks w = (Return tt, w')
          /\ PyDict.get (streams (fastrtc_manager w')) id = Some s'
          /\ audio_buffer s' = chunks
          /\ audio_buffer s' <> []
          /\ logged w' = logged w)
  /\ (forall id chunks w s,
        PyDict.get (streams (fastrtc_manager w)) id = Some s ->
        is_active s = true ->
        processing s = false ->
        audio_buffer s = [] ->
        List.length chunks = 10%nat ->
        exists seen s' w',
          feed clock process id chunks w = (Return tt, w')
          /\ PyDict.get (streams (fastrtc_manager w')) id = Some s'
          /\ audio_buffer seen = chunks
          /\ processing seen = true
          /\ flushes (logged w') = S (flushes (logged w))
          /\ match process seen (List.concat chunks) with
             | None => audio_buffer s' = []
             | Some _ => audio_buffer s' = chunks
             end).
Proof.
  split; [|split; [|split; [|split]]].
  - intros id chunk w. apply process_audio_unknown.
  - intros id chunk w s. apply process_audio_inactive.
  - intros id chunk w s Hg Ha.
    rewrite (process_audio_active clock process id chunk w s Hg Ha). cbv zeta.
    destruct (_ && _).
    + destruct (process _ _); eexists; eexists; (split; [reflexivity|]); simpl;
        rewrite PyDictFacts.get_set_same; (split; [reflexivity|]);
        (split; [reflexivity|]).
      * left. reflexivity.
      * right. split; [reflexivity|]. rewrite flushes_app. simpl.
        unfold flushes at 2. simpl. lia.
    + eexists; eexists; (split; [reflexivity|]); simpl;
        rewrite PyDictFacts.get_set_same; (split; [reflexivity|]);
        (split; [reflexivity|]).
      left. reflexivity.
  - intros id chunks w s Hg Ha Hp Hb Hlen.
    destruct (feed_below_threshold clock process id chunks w s Hg Ha Hp)
      as (s' & w' & Hrun & Hg' & Hbuf & _ & _ & _ & Hlog & _).
    { rewrite Hb. simpl. lia. }
    rewrite Hb in Hbuf. simpl in Hbuf.
    exists s', w'. repeat split; try assumption.
    rewrite Hbuf. intros ->. simpl in Hlen. lia.
  - intros id chunks w s Hg Ha Hp Hb Hlen.
    destruct (feed_ten clock process id chunks w s Hg Ha Hp Hb Hlen)
      as (seen & s' & w' & Hrun & Hg' & Hseen & Hps & _ & _ & Hout).
    exists seen, s', w'. repeat split; try assumption.
    + destruct (process seen (List.concat chunks)); destruct Hout as [_ ->];
        rewrite flushes_app; unfold flushes at 2; simpl; lia.
    + destruct (process seen (List.concat chunks)); now destruct Hout.
Qed.

Lemma append_buffers_witness :
  process_audio sample_clock log_only "ghost" chunk_a initial_world
    = (Return tt, with_record WARNING (LNotFound "ghost") initial_world)
  /\ process_audio sample_clock log_only "a" chunk_a created_world
     = (Return tt, created_world)
  /\ (exists s' w',
        process_audio sample_clock log_only "a" chunk_a active_world = (Return tt, w')
        /\ PyDict.get (streams (fastrtc_manager w')) "a" = Some s'
        /\ last_activity s' = sample_clock (ticks active_world))
  /\ (exists s' w',
        feed sample_clock log_only "a" nine_chunks active_world = (Return tt, w')
        /\ PyDict.get (streams (fastrtc_manager w')) "a" = Some s'
        /\ audio_buffer s' = nine_chunks
        /\ logged w' = logged active_world)
  /\ (exists s' w',
        feed sample_clock log_only "a" ten_chunks active_world = (Return tt, w')
        /\ PyDict.get (streams (fastrtc_manager w')) "a" = Some s'
        /\ audio_buffer s' = []
        /\ flushes (logged w') = S (flushes (logged active_world))).
Proof.
  destruct (append_buffers_and_flushes_at_ten sample_clock log_only)
    as (Hunknown & Hidle & Hactive & Hbelow & Hten).
  split; [|split; [|split; [|split]]].
  - apply Hunknown. reflexivity.
  - eapply Hidle; reflexivity.
  - destruct (Hactive "a" chunk_a active_world _ eq_refl eq_refl)
      as (s' & w' & Hrun & Hg & Hla & _).
    exists s', w'. now repeat split.
  - destruct (Hbelow "a" nine_chunks active_world _ eq_refl eq_refl eq_refl eq_refl)
      as (s' & w' & Hrun & Hg & Hbuf & _ & Hlog).
    + simpl. lia.
    + exists s', w'. now repeat split.
  - destruct (Hten "a" ten_chunks active_world _ eq_refl eq_refl eq_refl eq_refl eq_refl)
      as (seen & s' & w' & Hrun & Hg & _ & _ & Hfl & Hout).
    exists s', w'. now repeat split.
Defined.

(** C1 as stated fails: a chunk for a registered stream that was not
    started is not appended and [last_activity] stays as it was. *)
Lemma append_to_unstarted_stream_is_dropped :
  PyDict.mem (streams (fastrtc_manager created_world)) "a" = true
  /\ process_audio sample_clock log_only "a" chunk_a created_world
     = (Return tt, created_world)
  /\ option_map audio_buffer
       (PyDict.get (streams (fastrtc_manager created_world)) "a") = Some []
  /\ option_map audio_buffer
       (PyDict.get (streams (fastrtc_manager created_world)) "a")
     <> Some [chunk_a]
  /\ option_map last_activity
       (PyDict.get (streams (fastrtc_manager created_world)) "a")
     <> Some (sample_clock (ticks created_world)).
Proof.
  repeat split; try reflexivity; vm_compute; discriminate.
Qed.

(** ** Removal *)

Lemma remove_stream_absent id w :
  PyDict.get (streams (fastrtc_manager w)) id = None ->
  remove_stream id w = (Return tt, w).
Proof.
  intros H. unfold remove_stream, bind, get_manager.
  replace (PyDict.mem _ id) with false
    by (symmetry; now apply PyDictFacts.mem_false).
  reflexivity.
Qed.

(** Removing a registered stream stops it, then deletes its entry. *)
Lemma remove_stream_present id w s :
  PyDict.get (streams (fastrtc_manager w)) id = Some s ->
  remove_stream id w =
  (Return tt,
   with_record INFO (LRemoved id)
     (with_manager
        (set_streams (PyDict.del (streams (fastrtc_manager w)) id) (fastrtc_manager w))
        (with_record INFO (LStopped (webrtc_id s)) w))).
Proof.
  intros H.
  assert (Hm : PyDict.mem (streams (fastrtc_manager w)) id = true)
    by (apply PyDictFacts.mem_true; now exists s).
  unfold remove_stream, bind, get_manager. rewrite Hm, H, stop_streaming_eq.
  rewrite store_stream_present by exact Hm. simpl.
  rewrite PyDictFacts.del_set. reflexivity.
Qed.

Lemma remove_fastrtc_stream_absent id w :
  PyDict.get (streams (fastrtc_manager w)) id = None ->
  remove_fastrtc_stream id w =
  (Return (RespMessage "success" (PyStr ("Stream " ++ id ++ " removed"))), w).
Proof.
  intros H. unfold remove_fastrtc_stream, try_except, bind.
  now rewrite remove_stream_absent.
Qed.

(** X26.  [DELETE /fastrtc/streams/{id}] on a registered id answers with the
    success body; the stream is stopped, then deleted, and the other
    streams are left as they were. *)
Lemma remove_fastrtc_stream_present id w s :
  PyDict.get (streams (fastrtc_manager w)) id = Some s ->
  exists w',
    remove_fastrtc_stream id w =
    (Return (RespMessage "success" (PyStr ("Stream " ++ id ++ " removed"))), w')
    /\ PyDict.get (streams (fastrtc_manager w')) id = None
    /\ (forall id', id <> id' ->
          PyDict.get (streams (fastrtc_manager w')) id'
          = PyDict.get (streams (fastrtc_manager w)) id')
    /\ logged w' =
       (logged w ++ [(INFO, LStopped (webrtc_id s)); (INFO, LRemoved id)])%list.
Proof.
  intros H. unfold remove_fastrtc_stream, try_except, bind.
  rewrite (remove_stream_present id w s H).
  eexists. split; [reflexivity|]. simpl. repeat split.
  - apply PyDictFacts.get_del_same.
  - intros id' Hne. now apply PyDictFacts.get_del_other.
  - now rewrite <- app_assoc.
Qed.

(** C3, where the code departs from it.  [DELETE /fastrtc/streams/ghost]
    on a registry that does not hold [ghost] answers with the success
    body and changes nothing, and so does removing [a] a second time:
    [remove_stream] skips an absent id without raising, so the 404 of
    the handler is never produced. *)
Theorem remove_absent_reports_success :
  remove_fastrtc_stream "ghost" initial_world
  = (Return (RespMessage "success" (PyStr "Stream ghost removed")), initial_world)
  /\ PyDict.get (streams (fastrtc_manager created_world)) "a" <> None
  /\ PyDict.get
       (streams (fastrtc_manager (snd (remove_fastrtc_stream "a" created_world))))
       "a" = None
  /\ fst (remove_fastrtc_stream "a" (snd (remove_fastrtc_stream "a" created_world)))
     = Return (RespMessage "success" (PyStr "Stream a removed")).
Proof.
  repeat split; try reflexivity. vm_compute. discriminate.
Qed.

(** ** Dispatch *)

Lemma py_eq_str_true v s : py_eq_str v s = true <-> v = PyStr s.
Proof.
  destruct v; simpl; try (split; [discriminate | intros H; discriminate]).
  rewrite String.eqb_eq. split; [now intros -> | now inversion 1].
Qed.

(** A message whose tag is none of the recognised ones gets the error
    response that names the tag, and nothing changes. *)
Lemma unknown_tag_reported (message : PyDict.t pyval) w :
  (forall t, In t recognised_tags -> get_default message "type" PyNone <> PyStr t) ->
  handle_fastrtc_message message w =
  (Return (Some (RespMessage "error"
                   (PyStr ("Unknown message type: "
                           ++ py_str (get_default message "type" PyNone))))), w).
Proof.
  intros H. unfold handle_fastrtc_message.
  set (tag := get_default message "type" PyNone) in *.
  assert (Hno : forall t, In t recognised_tags -> py_eq_str tag t = false).
  { intros t Ht. destruct (py_eq_str tag t) eqn:E; [|reflexivity].
    apply py_eq_str_true in E. now apply H in Ht. }
  rewrite !Hno by (simpl; tauto). reflexivity.
Qed.

(** C6, where the code departs from it.  A [send_input] or
    [fetch_output] message without a [webrtc_id] falls through the
    handler, which returns [None]: there is no result object and no
    status; and a [webrtc_id] that is not hashable makes the lookup
    raise.  The unknown tag [bogus] does get its error response. *)
Theorem dispatch_without_id_returns_none :
  handle_fastrtc_message [("type", PyStr "send_input")] initial_world
  = (Return None, initial_world)
  /\ handle_fastrtc_message [("type", PyStr "fetch_output"); ("webrtc_id", PyStr "")]
       initial_world
     = (Return None, initial_world)
  /\ handle_fastrtc_message
       [("type", PyStr "send_input"); ("webrtc_id", PyOther false true "['a']")]
       initial_world
     = (Raise (TypeError "unhashable type"), initial_world)
  /\ handle_fastrtc_message [("type", PyStr "bogus")] initial_world
     = (Return (Some (RespMessage "error" (PyStr "Unknown message type: bogus"))),
        initial_world).
Proof.
  repeat split.
Qed.

(** X5.  Every run of the handler ends in one of three ways: a response
    whose status is [success], [error] or [warning]; no response, for a
    [send_input] or [fetch_output] message whose [webrtc_id] is missing
    or falsy; or the [TypeError] of a lookup with an unhashable id. *)
Lemma dispatch_outcomes (message : PyDict.t pyval) w :
  let tag := get_default message "type" PyNone in
  let id := get_default message "webrtc_id" PyNone in
  (exists r w',
     handle_fastrtc_message message w = (Return (Some r), w')
     /\ In (resp_status r) ["success"; "error"; "warning"])
  \/ (handle_fastrtc_message message w = (Return None, w)
      /\ (tag = PyStr "send_input" \/ tag = PyStr "fetch_output")
      /\ py_truthy id = false)
  \/ (handle_fastrtc_message message w = (Raise (TypeError "unhashable type"), w)
      /\ (tag = PyStr "send_input" \/ tag = PyStr "fetch_output")
      /\ py_hashable id = false).
Proof.
  intros tag id. unfold handle_fastrtc_message. fold tag. fold id.
  destruct (py_eq_str tag "send_input") eqn:E1.
  { apply py_eq_str_true in E1.
    destruct (py_truthy id) eqn:Ht; [|right; left; tauto].
    unfold bind, get_stream, get_manager.
    destruct (py_hashable id) eqn:Hh; simpl; [|right; right; tauto].
    left. destruct id; simpl; try (eexists; eexists; split; [reflexivity|simpl; tauto]).
    destruct (PyDict.get _ _); eexists; eexists; (split; [reflexivity|simpl; tauto]). }
  destruct (py_eq_str tag "fetch_output") eqn:E2.
  { apply py_eq_str_true in E2.
    destruct (py_truthy id) eqn:Ht; [|right; left; tauto].
    unfold bind, get_stream, get_manager.
    destruct (py_hashable id) eqn:Hh; simpl; [|right; right; tauto].
    left. destruct id; simpl; try (eexists; eexists; split; [reflexivity|simpl; tauto]).
    destruct (PyDict.get _ _); eexists; eexists; (split; [reflexivity|simpl; tauto]). }
  left.
  destruct (py_eq_str tag "stopword");
    [eexists; eexists; split; [reflexivity|simpl; tauto]|].
  destruct (py_eq_str tag "error");
    [eexists; eexists; split; [reflexivity|simpl; tauto]|].
  destruct (py_eq_str tag "warning");
    [eexists; eexists; split; [reflexivity|simpl; tauto]|].
  destruct (py_eq_str tag "log");
    eexists; eexists; (split; [reflexivity|simpl; tauto]).
Qed.

(** ** Offer and answer *)

Lemma create_webrtc_answer_raises clock uuid4 offer w e w' :
  create_stream clock (uuid4 (uuids w))
    (get_default offer "modality" "audio") (get_default offer "mode" "send")
    (draw w) = (Raise e, w') ->
  create_webrtc_answer clock uuid4 offer w = (Raise e, w').
Proof.
  intros H. unfold create_webrtc_answer, bind, new_uuid. now rewrite H.
Qed.

Lemma try_except_returns {A} (c : M A) (h : exn -> M A) :
  (forall e w, exists r w', h e w = (Return r, w')) ->
  forall w, exists r w', try_except c h w = (Return r, w').
Proof.
  intros Hh w. unfold try_except.
  destruct (c w) as [[a|e] w1]; [now exists a, w1 | apply Hh].
Qed.

(** [POST /webrtc/offer] always answers with a response body. *)
Lemma webrtc_offer_returns clock uuid4 sdp a_modality a_mode w :
  exists r w', webrtc_offer clock uuid4 sdp a_modality a_mode w = (Return r, w').
Proof.
  unfold webrtc_offer. apply try_except_returns.
  intros e w0. eexists; eexists; reflexivity.
Qed.

Lemma str_in_true s l : str_in s l = true <-> In s l.
Proof.
  unfold str_in. rewrite existsb_exists. split.
  - intros (x & Hin & Heq). apply String.eqb_eq in Heq. now subst.
  - intros Hin. exists s. split; [assumption | apply String.eqb_refl].
Qed.

(** C5, as the code has it.  When the registry refuses the new id,
    [create_webrtc_answer] does not return a result: the [ValueError] of
    [create_stream], with its message, leaves the call, and the registry
    is unchanged.  The typed failure is built by its caller,
    [POST /webrtc/offer], which always returns a response: status
    [failed] with error [concurrency_limit_reached] and the limit when
    the registry is full, and with error [stream_creation_failed] and
    the message of the [ValueError] when the id is already present. *)
Theorem answer_raises_offer_reports
  (clock : nat -> datetime) (uuid4 : nat -> string) (w : World) :
  let m := fastrtc_manager w in
  let id := uuid4 (uuids w) in
  (forall offer,
     valid_id id -> max_streams m <= PyDict.len (streams m) ->
     create_webrtc_answer clock uuid4 offer w =
     (Raise (ValueError "Maximum number of streams reached"), draw w))
  /\ (forall offer,
        valid_id id -> PyDict.len (streams m) < max_streams m ->
        PyDict.mem (streams m) id = true ->
        create_webrtc_answer clock uuid4 offer w =
        (Raise (ValueError ("Stream " ++ id ++ " already exists")), draw w))
  /\ (forall sdp a_modality a_mode,
        exists r w', webrtc_offer clock uuid4 sdp a_modality a_mode w = (Return r, w'))
  /\ (forall sdp a_modality a_mode,
        In a_modality ["audio"; "video"; "audio-video"] ->
        In a_mode ["send"; "receive"; "send-receive"] ->
        max_streams m <= PyDict.len (streams m) ->
        webrtc_offer clock uuid4 sdp a_modality a_mode w =
        (Return (OfferLimitReached (max_streams m)), w))
  /\ (forall sdp a_modality a_mode,
        In a_modality ["audio"; "video"; "audio-video"] ->
        In a_mode ["send"; "receive"; "send-receive"] ->
        valid_id id -> PyDict.len (streams m) < max_streams m ->
        PyDict.mem (streams m) id = true ->
        exists w',
          webrtc_offer clock uuid4 sdp a_modality a_mode w =
          (Return (OfferCreationFailed ("Stream " ++ id ++ " already exists")), w')
          /\ fastrtc_manager w' = m).
Proof.
  intros m id. subst m id. split; [|split; [|split; [|split]]].
  - intros offer Hv Hlen. apply create_webrtc_answer_raises.
    now apply create_stream_full.
  - intros offer Hv Hlen Hm. apply create_webrtc_answer_raises.
    now apply create_stream_duplicate.
  - intros. apply webrtc_offer_returns.
  - intros sdp a_modality a_mode Hmod Hmode Hlen.
    apply str_in_true in Hmod, Hmode.
    unfold webrtc_offer, try_except, bind. rewrite Hmod, Hmode. simpl.
    now rewrite geb_true.
  - intros sdp a_modality a_mode Hmod Hmode Hv Hlen Hm.
    apply str_in_true in Hmod, Hmode.
    unfold webrtc_offer, try_except, bind. rewrite Hmod, Hmode. simpl.
    rewrite geb_false by assumption.
    unfold try_except_ValueError, bind.
    rewrite (create_webrtc_answer_raises clock uuid4 _ w _ (draw w))
      by now apply create_stream_duplicate.
    simpl. eexists. split; reflexivity.
Qed.

Lemma answer_raises_offer_reports_witness :
  create_webrtc_answer sample_clock sample_uuid audio_offer full_world
    = (Raise (ValueError "Maximum number of streams reached"), draw full_world)
  /\ create_webrtc_answer sample_clock colliding_uuid audio_offer created_world
     = (Raise (ValueError "Stream a already exists"), draw created_world)
  /\ webrtc_offer sample_clock sample_uuid "v=0" "audio" "send" full_world
     = (Return (OfferLimitReached 100), full_world)
  /\ (exists w',
        webrtc_offer sample_clock colliding_uuid "v=0" "audio" "send" created_world
        = (Return (OfferCreationFailed "Stream a already exists"), w')
        /\ fastrtc_manager w' = fastrtc_manager created_world).
Proof.
  destruct (answer_raises_offer_reports sample_clock sample_uuid full_world)
    as (Hfull & _ & _ & Hlimit & _).
  destruct (answer_raises_offer_reports sample_clock colliding_uuid created_world)
    as (_ & Hdup & _ & _ & Hfailed).
  split; [|split; [|split]].
  - apply Hfull; [split; discriminate | vm_compute; discriminate].
  - apply Hdup; [split; discriminate | reflexivity | reflexivity].
  - apply (Hlimit "v=0" "audio" "send");
      [simpl; tauto | simpl; tauto | vm_compute; discriminate].
  - apply (Hfailed "v=0" "audio" "send");
      [simpl; tauto | simpl; tauto | split; discriminate
      | reflexivity | reflexivity].
Defined.

(** C5 as stated fails: with the registry full, and with an id that is
    already registered, [create_webrtc_answer] raises. *)
Lemma answer_raises_when_registry_refuses :
  fst (create_webrtc_answer sample_clock sample_uuid audio_offer full_world)
  = Raise (ValueError "Maximum number of streams reached")
  /\ fst (create_webrtc_answer sample_clock colliding_uuid audio_offer created_world)
     = Raise (ValueError "Stream a already exists").
Proof.
  split; vm_compute; reflexivity.
Qed.

(** ** Starting and stopping *)

Lemma set_audio_streaming_present client_id b w md :
  PyDict.get (connection_metadata (manager w)) client_id = Some md ->
  set_audio_streaming client_id b w =
  (Return tt,
   with_conn (mkConn (active_connections (manager w))
                (PyDict.set (connection_metadata (manager w)) client_id
                   (mkMeta (connected_at md) (conn_last_activity md) b))) w).
Proof.
  intros H. unfold set_audio_streaming, bind, get_conn. now rewrite H.
Qed.

(** Sending a frame returns, leaves the registry and the log alone and
    appends the frame to the socket of a connected client. *)
Lemma send_personal_message_effect fr client_id w :
  exists w',
    send_personal_message fr client_id w = (Return tt, w')
    /\ fastrtc_manager w' = fastrtc_manager w
    /\ logged w' = logged w
    /\ ticks w' = ticks w
    /\ (forall ws,
          PyDict.get (active_connections (manager w)) client_id = Some ws ->
          PyDict.get (active_connections (manager w')) client_id
          = Some (ws ++ [fr])%list).
Proof.
  unfold send_personal_message, bind, get_conn.
  destruct (PyDict.get (active_connections (manager w)) client_id) as [ws|] eqn:E.
  - eexists. split; [reflexivity|]. simpl. repeat split.
    intros ws' H. inversion H; subst. apply PyDictFacts.get_set_same.
  - exists w. repeat split. intros ws H. discriminate.
Qed.

(** The part of a control message that calls a method on the stream the
    message names. *)
Lemma call_on_named_stream (method : FastRTCStream -> M FastRTCStream) id w :
  id <> "" ->
  (stream <- get_stream (PyStr id) ;;
   match stream with
   | Some stream => stream <- method stream ;; store_stream (key_of (PyStr id)) stream
   | None => ret tt
   end) w =
  match PyDict.get (streams (fastrtc_manager w)) id with
  | Some s =>
      match method s w with
      | (Return s', w1) => store_stream id s' w1
      | (Raise e, w1) => (Raise e, w1)
      end
  | None => (Return tt, w)
  end.
Proof.
  intros _. unfold bind. rewrite get_stream_str.
  destruct (PyDict.get (streams (fastrtc_manager w)) id); reflexivity.
Qed.

Lemma start_message_effect clock client_id (message : PyDict.t pyval) id w md :
  PyDict.get (connection_metadata (manager w)) client_id = Some md ->
  get_default message "type" PyNone = PyStr "start_streaming" ->
  get_default message "webrtc_id" PyNone = PyStr id ->
  id <> "" ->
  exists w' t,
    handle_control_message clock client_id message w = (Return tt, w')
    /\ fastrtc_manager w' =
       match PyDict.get (streams (fastrtc_manager w)) id with
       | Some s =>
           set_streams
             (PyDict.set (streams (fastrtc_manager w)) id
                (set_last_activity (clock (ticks w)) (set_is_active true s)))
             (fastrtc_manager w)
       | None => fastrtc_manager w
       end
    /\ (forall ws,
          PyDict.get (active_connections (manager w)) client_id = Some ws ->
          PyDict.get (active_connections (manager w')) client_id
          = Some (ws ++ [StreamingStarted client_id t])%list).
Proof.
  intros Hmd Htag Hid Hne. unfold handle_control_message.
  rewrite Htag, Hid.
  change (py_eq_str (PyStr "start_streaming") "start_streaming") with true.
  cbv iota.
  assert (Htruthy : py_truthy (PyStr id) = true).
  { simpl. apply String.eqb_neq in Hne. now rewrite Hne. }
  rewrite Htruthy.
  unfold bind at 1. rewrite (set_audio_streaming_present _ _ _ _ Hmd).
  set (w0 := with_conn _ w).
  unfold bind at 1. rewrite (call_on_named_stream _ id w0 Hne).
  change (fastrtc_manager w0) with (fastrtc_manager w).
  destruct (PyDict.get (streams (fastrtc_manager w)) id) as [s|] eqn:Hg.
  - rewrite start_streaming_eq.
    rewrite store_stream_present
      by (simpl; apply PyDictFacts.mem_true; now exists s).
    set (w1 := with_manager _ _).
    unfold bind, utcnow.
    destruct (send_personal_message_effect
                (StreamingStarted client_id (clock (ticks w1))) client_id (tick w1))
      as (w2 & -> & Hm & _ & _ & Hws).
    eexists; eexists. split; [reflexivity|]. split.
    + simpl. rewrite Hm. reflexivity.
    + intros ws H. simpl. apply Hws. exact H.
  - unfold bind, utcnow.
    destruct (send_personal_message_effect
                (StreamingStarted client_id (clock (ticks w0))) client_id (tick w0))
      as (w2 & -> & Hm & _ & _ & Hws).
    eexists; eexists. split; [reflexivity|]. split.
    + simpl. rewrite Hm. reflexivity.
    + intros ws H. simpl. apply Hws. exact H.
Qed.

Lemma stop_message_effect clock client_id (message : PyDict.t pyval) id w md :
  PyDict.get (connection_metadata (manager w)) client_id = Some md ->
  get_default message "type" PyNone = PyStr "stop_streaming" ->
  get_default message "webrtc_id" PyNone = PyStr id ->
  id <> "" ->
  exists w' t,
    handle_control_message clock client_id message w = (Return tt, w')
    /\ fastrtc_manager w' =
       match PyDict.get (streams (fastrtc_manager w)) id with
       | Some s =>
           set_streams
             (PyDict.set (streams (fastrtc_manager w)) id (set_is_active false s))
             (fastrtc_manager w)
       | None => fastrtc_manager w
       end
    /\ (forall ws,
          PyDict.get (active_connections (manager w)) client_id = Some ws ->
          PyDict.get (active_connections (manager w')) client_id
          = Some (ws ++ [StreamingStopped client_id t])%list).
Proof.
  intros Hmd Htag Hid Hne. unfold handle_control_message.
  rewrite Htag, Hid.
  change (py_eq_str (PyStr "stop_streaming") "start_streaming") with false.
  change (py_eq_str (PyStr "stop_streaming") "stop_streaming") with true.
  cbv iota.
  assert (Htruthy : py_truthy (PyStr id) = true).
  { simpl. apply String.eqb_neq in Hne. now rewrite Hne. }
  rewrite Htruthy.
  unfold bind at 1. rewrite (set_audio_streaming_present _ _ _ _ Hmd).
  set (w0 := with_conn _ w).
  unfold bind at 1. rewrite (call_on_named_stream _ id w0 Hne).
  change (fastrtc_manager w0) with (fastrtc_manager w).
  destruct (PyDict.get (streams (fastrtc_manager w)) id) as [s|] eqn:Hg.
  - rewrite stop_streaming_eq.
    rewrite store_stream_present
      by (simpl; apply PyDictFacts.mem_true; now exists s).
    set (w1 := with_manager _ _).
    unfold bind, utcnow.
    destruct (send_personal_message_effect
                (StreamingStopped client_id (clock (ticks w1))) client_id (tick w1))
      as (w2 & -> & Hm & _ & _ & Hws).
    eexists; eexists. split; [reflexivity|]. split.
    + simpl. rewrite Hm. reflexivity.
    + intros ws H. simpl. apply Hws. exact H.
  - unfold bind, utcnow.
    destruct (send_personal_message_effect
                (StreamingStopped client_id (clock (ticks w0))) client_id (tick w0))
      as (w2 & -> & Hm & _ & _ & Hws).
    eexists; eexists. split; [reflexivity|]. split.
    + simpl. rewrite Hm. reflexivity.
    + intros ws H. simpl. apply Hws. exact H.
Qed.

Lemma set_is_active_same s : set_is_active (is_active s) s = s.
Proof. now destruct s. Qed.

(** C9, as the code has it.  For a connected client and a non-empty
    [webrtc_id], a [start_streaming] message returns normally and leaves
    the named stream active, with [last_activity] set to the time of the
    call, whatever its state was; a [stop_streaming] message returns
    normally and leaves the named stream inactive, and changes nothing
    in the registry when it was inactive already.  When the id is not
    registered neither message fails: the registry is unchanged and the
    client still gets its [streaming_started] or [streaming_stopped]
    frame. *)
Theorem start_stop_set_activity
  (clock : nat -> datetime) (client_id : string) (message : PyDict.t pyval)
  (id : string) (w : World) (md : conn_meta) :
  PyDict.get (connection_metadata (manager w)) client_id = Some md ->
  get_default message "webrtc_id" PyNone = PyStr id ->
  id <> "" ->
  (get_default message "type" PyNone = PyStr "start_streaming" ->
   exists w' t,
     handle_control_message clock client_id message w = (Return tt, w')
     /\ match PyDict.get (streams (fastrtc_manager w)) id with
        | Some s =>
            exists s',
              PyDict.get (streams (fastrtc_manager w')) id = Some s'
              /\ is_active s' = true
              /\ s' = set_last_activity (clock (ticks w)) (set_is_active true s)
        | None => fastrtc_manager w' = fastrtc_manager w
        end
     /\ (forall ws,
           PyDict.get (active_connections (manager w)) client_id = Some ws ->
           PyDict.get (active_connections (manager w')) client_id
           = Some (ws ++ [StreamingStarted client_id t])%list))
  /\ (get_default message "type" PyNone = PyStr "stop_streaming" ->
      exists w' t,
        handle_control_message clock client_id message w = (Return tt, w')
        /\ match PyDict.get (streams (fastrtc_manager w)) id with
           | Some s =>
               exists s',
                 PyDict.get (streams (fastrtc_manager w')) id = Some s'
                 /\ is_active s' = false
                 /\ s' = set_is_active false s
                 /\ (is_active s = false ->
                     fastrtc_manager w' = fastrtc_manager w)
           | None => fastrtc_manager w' = fastrtc_manager w
           end
        /\ (forall ws,
              PyDict.get (active_connections (manager w)) client_id = Some ws ->
              PyDict.get (active_connections (manager w')) client_id
              = Some (ws ++ [StreamingStopped client_id t])%list)).
Proof.
  intros Hmd Hid Hne. split; intros Htag.
  - destruct (start_message_effect clock client_id message id w md Hmd Htag Hid Hne)
      as (w' & t & Hrun & Hm & Hws).
    exists w', t. split; [exact Hrun|]. split; [|exact Hws].
    destruct (PyDict.get (streams (fastrtc_manager w)) id) as [s|]; [|exact Hm].
    eexists. rewrite Hm. simpl. rewrite PyDictFacts.get_set_same.
    repeat split.
  - destruct (stop_message_effect clock client_id message id w md Hmd Htag Hid Hne)
      as (w' & t & Hrun & Hm & Hws).
    exists w', t. split; [exact Hrun|]. split; [|exact Hws].
    destruct (PyDict.get (streams (fastrtc_manager w)) id) as [s|] eqn:Hg;
      [|exact Hm].
    eexists. rewrite Hm. simpl. rewrite PyDictFacts.get_set_same.
    repeat split. intros Hidle.
    rewrite <- Hidle, set_is_active_same.
    rewrite PyDictFacts.set_get_id by exact Hg. apply set_streams_same.
Qed.

Lemma start_stop_witness :
  (exists w' s',
     handle_control_message sample_clock "c1" (start_message "a") created_world
     = (Return tt, w')
     /\ PyDict.get (streams (fastrtc_manager w')) "a" = Some s'
     /\ is_active s' = true)
  /\ (exists w' s',
        handle_control_message sample_clock "c1" (stop_message "a") active_world
        = (Return tt, w')
        /\ PyDict.get (streams (fastrtc_manager w')) "a" = Some s'
        /\ is_active s' = false).
Proof.
  split.
  - destruct (start_stop_set_activity sample_clock "c1" (start_message "a") "a"
                created_world (mkMeta 0 0 false) eq_refl eq_refl)
      as [Hstart _]; [discriminate|].
    destruct (Hstart eq_refl) as (w' & t & Hrun & Hs & _).
    simpl in Hs. destruct Hs as (s' & Hg & Ha & _).
    now exists w', s'.
  - destruct (start_stop_set_activity sample_clock "c1" (stop_message "a") "a"
                active_world (mkMeta 0 0 true) eq_refl eq_refl)
      as [_ Hstop]; [discriminate|].
    destruct (Hstop eq_refl) as (w' & t & Hrun & Hs & _).
    simpl in Hs. destruct Hs as (s' & Hg & Ha & _).
    now exists w', s'.
Defined.

(** C9 as stated fails: [start_streaming] and [stop_streaming] for an
    id that is not registered do not fail; the client is told that
    streaming started, or stopped. *)
Lemma start_on_absent_id_reports_started :
  PyDict.get (streams (fastrtc_manager one_client_world)) "ghost" = None
  /\ fst (handle_control_message sample_clock "c1" (start_message "ghost")
            one_client_world) = Return tt
  /\ PyDict.get
       (active_connections
          (manager (snd (handle_control_message sample_clock "c1"
                           (start_message "ghost") one_client_world)))) "c1"
     = Some [StreamingStarted "c1" (sample_clock 0)]
  /\ fst (handle_control_message sample_clock "c1" (stop_message "ghost")
            one_client_world) = Return tt
  /\ PyDict.get
       (active_connections
          (manager (snd (handle_control_message sample_clock "c1"
                           (stop_message "ghost") one_client_world)))) "c1"
     = Some [StreamingStopped "c1" (sample_clock 0)].
Proof.
  repeat split.
Qed.

(** ** The idle sweep *)

Lemma dt_replace_minute_back t m :
  0 <= m <= dt_minute t ->
  dt_replace_minute t (dt_minute t - m) = Return (minutes_before t m).
Proof.
  intros H. unfold dt_replace_minute, minutes_before.
  assert (Hb : 0 <= dt_minute t < 60)
    by (unfold dt_minute; apply Z.mod_pos_bound; lia).
  replace ((0 <=? dt_minute t - m) && (dt_minute t - m <=? 59)) with true.
  - f_equal. ring.
  - symmetry. apply andb_true_iff. split; apply Z.leb_le; lia.
Qed.

Lemma dt_replace_minute_fails t m :
  dt_minute t < m ->
  dt_replace_minute t (dt_minute t - m)
  = Raise (ValueError "minute must be in 0..59").
Proof.
  intros H. unfold dt_replace_minute.
  replace (0 <=? dt_minute t - m) with false
    by (symmetry; apply Z.leb_gt; lia).
  reflexivity.
Qed.

(** The sweep raises, before it looks at any stream, whenever the minute
    of the hour is smaller than the threshold. *)
Lemma cleanup_raises clock minutes w :
  dt_minute (clock (ticks w)) < minutes ->
  cleanup_inactive_streams clock minutes w
  = (Raise (ValueError "minute must be in 0..59"), tick w).
Proof.
  intros H. unfold cleanup_inactive_streams, bind, utcnow, lift.
  now rewrite dt_replace_minute_fails.
Qed.

Lemma remove_stream_effect id w :
  exists w',
    remove_stream id w = (Return tt, w')
    /\ streams (fastrtc_manager w') = PyDict.del (streams (fastrtc_manager w)) id
    /\ max_streams (fastrtc_manager w') = max_streams (fastrtc_manager w)
    /\ manager w' = manager w
    /\ ticks w' = ticks w.
Proof.
  destruct (PyDict.get (streams (fastrtc_manager w)) id) as [s|] eqn:Hg.
  - rewrite (remove_stream_present id w s Hg). eexists. now repeat split.
  - rewrite (remove_stream_absent id w Hg). exists w.
    rewrite PyDictFacts.del_absent by exact Hg. now repeat split.
Qed.

Lemma remove_each_effect ids :
  forall w, exists w',
    for_each ids remove_stream w = (Return tt, w')
    /\ streams (fastrtc_manager w')
       = fold_left PyDict.del ids (streams (fastrtc_manager w))
    /\ max_streams (fastrtc_manager w') = max_streams (fastrtc_manager w)
    /\ manager w' = manager w
    /\ ticks w' = ticks w.
Proof.
  induction ids as [|id ids IH]; intros w; simpl.
  - exists w. now repeat split.
  - unfold bind.
    destruct (remove_stream_effect id w) as (w1 & -> & Hs & Hmax & Hc & Ht).
    destruct (IH w1) as (w' & Hrun & Hs' & Hmax' & Hc' & Ht').
    exists w'. rewrite Hrun, Hs', Hs, Hmax', Hmax, Hc', Hc, Ht', Ht.
    now repeat split.
Qed.

Lemma get_fold_del {V} ids : forall (d : PyDict.t V) k,
  PyDict.get (fold_left PyDict.del ids d) k
  = if str_in k ids then None else PyDict.get d k.
Proof.
  unfold str_in. induction ids as [|a ids IH]; intros d k; simpl.
  - reflexivity.
  - rewrite IH. destruct (String.eqb_spec k a) as [->|Hne]; simpl.
    + rewrite PyDictFacts.get_del_same. now destruct (existsb _ ids).
    + rewrite PyDictFacts.get_del_other by congruence. reflexivity.
Qed.

Lemma str_in_filtered_keys {V} (f : string * V -> bool) (d : PyDict.t V) k :
  NoDup (PyDict.keys d) ->
  str_in k (map fst (filter f d))
  = match PyDict.get d k with Some v => f (k, v) | None => false end.
Proof.
  unfold str_in, PyDict.keys.
  induction d as [|[k0 v0] d IH]; simpl; intros Hnd; [reflexivity|].
  inversion Hnd as [|? ? Hnotin Hnd']; subst.
  destruct (String.eqb_spec k0 k) as [->|Hne].
  - assert (Hnone : PyDict.get d k = None)
      by now apply PyDictFacts.get_None_keys.
    specialize (IH Hnd'). rewrite Hnone in IH.
    destruct (f (k, v0)); simpl; [now rewrite String.eqb_refl | exact IH].
  - destruct (f (k0, v0)); simpl; [|now apply IH].
    replace (k =? k0)%string with false
      by (symmetry; apply String.eqb_neq; congruence).
    now apply IH.
Qed.

(** When the minute of the hour is at least the threshold, the sweep
    returns and the registry keeps exactly the streams whose
    [last_activity] is not older than the threshold. *)
Lemma cleanup_removes_stale clock minutes w :
  0 <= minutes <= dt_minute (clock (ticks w)) ->
  NoDup (PyDict.keys (streams (fastrtc_manager w))) ->
  exists w',
    cleanup_inactive_streams clock minutes w = (Return tt, w')
    /\ forall id,
         PyDict.get (streams (fastrtc_manager w')) id
         = match PyDict.get (streams (fastrtc_manager w)) id with
           | Some s =>
               if last_activity s <? minutes_before (clock (ticks w)) minutes
               then None else Some s
           | None => None
           end.
Proof.
  intros Hmin Hnd. unfold cleanup_inactive_streams, bind, utcnow, lift, get_manager.
  rewrite dt_replace_minute_back by exact Hmin.
  set (cutoff := minutes_before (clock (ticks w)) minutes).
  change (fastrtc_manager (tick w)) with (fastrtc_manager w).
  set (ids := map fst (filter _ (streams (fastrtc_manager w)))).
  destruct (remove_each_effect ids (tick w)) as (w1 & -> & Hs & _).
  simpl in Hs.
  assert (Hget : forall id,
             PyDict.get (streams (fastrtc_manager w1)) id
             = match PyDict.get (streams (fastrtc_manager w)) id with
               | Some s => if last_activity s <? cutoff then None else Some s
               | None => None
               end).
  { intros id. rewrite Hs, get_fold_del. subst ids.
    rewrite str_in_filtered_keys by exact Hnd.
    destruct (PyDict.get (streams (fastrtc_manager w)) id); reflexivity. }
  destruct ids; eexists; (split; [reflexivity|]); exact Hget.
Qed.

(** C4, where the code departs from it.  At 12:10 the registry holds
    [old], last active 31 minutes earlier, and [recent], last active 29
    minutes earlier.  The sweep with the 30-minute threshold asks for
    minute [10 - 30] of the hour and raises [ValueError]; nothing is
    removed. *)
Theorem sweep_fails_before_half_past :
  dt_minute (sweep_clock (ticks sweep_world)) = 10
  /\ option_map last_activity
       (PyDict.get (streams (fastrtc_manager sweep_world)) "old")
     = Some (minutes_before (sweep_clock (ticks sweep_world)) 31)
  /\ option_map last_activity
       (PyDict.get (streams (fastrtc_manager sweep_world)) "recent")
     = Some (minutes_before (sweep_clock (ticks sweep_world)) 29)
  /\ cleanup_inactive_streams sweep_clock 30 sweep_world
     = (Raise (ValueError "minute must be in 0..59"), tick sweep_world)
  /\ PyDict.keys (streams (fastrtc_manager (tick sweep_world))) = ["old"; "recent"].
Proof.
  repeat split; vm_compute; reflexivity.
Qed.

(** ** The invariant of the registry *)

Lemma registry_ok_ext m m' :
  streams m' = streams m -> max_streams m' = max_streams m ->
  registry_ok m -> registry_ok m'.
Proof. unfold registry_ok. intros -> ->. tauto. Qed.

Lemma Forall_set {V} (P : string * V -> Prop) (d : PyDict.t V) k v :
  Forall P d -> P (k, v) -> Forall P (PyDict.set d k v).
Proof.
  intros Hd Hkv. induction d as [|[k0 v0] d IH]; simpl.
  - now constructor.
  - inversion Hd; subst. destruct (k0 =? k)%string; constructor; auto.
Qed.

Lemma len_set_le {V} (d : PyDict.t V) k v :
  PyDict.len (PyDict.set d k v) <= PyDict.len d + 1.
Proof.
  destruct (PyDict.get d k) eqn:Hg.
  - rewrite PyDictFacts.len_set_present; [lia|].
    apply PyDictFacts.mem_true. eauto.
  - rewrite PyDictFacts.len_set_absent by assumption. lia.
Qed.

Lemma registry_ok_update m id s s' :
  registry_ok m ->
  PyDict.get (streams m) id = Some s ->
  webrtc_id s' = id ->
  registry_ok (set_streams (PyDict.set (streams m) id s') m).
Proof.
  intros (Hnd & Hids & Hlen) Hg Hid. repeat split; simpl.
  - now apply PyDictFacts.NoDup_keys_set.
  - now apply Forall_set.
  - rewrite PyDictFacts.len_set_present; [assumption|].
    apply PyDictFacts.mem_true. eauto.
Qed.

Lemma registry_ok_insert m id s :
  registry_ok m ->
  PyDict.len (streams m) < max_streams m ->
  webrtc_id s = id ->
  registry_ok (set_streams (PyDict.set (streams m) id s) m).
Proof.
  intros (Hnd & Hids & Hlen) Hroom Hid. repeat split; simpl.
  - now apply PyDictFacts.NoDup_keys_set.
  - now apply Forall_set.
  - pose proof (len_set_le (streams m) id s). lia.
Qed.

Lemma registry_ok_delete m id :
  registry_ok m -> registry_ok (set_streams (PyDict.del (streams m) id) m).
Proof.
  intros (Hnd & Hids & Hlen). repeat split; simpl.
  - now apply PyDictFacts.NoDup_keys_del.
  - unfold PyDict.del. apply Forall_forall. intros kv Hin.
    apply filter_In in Hin. destruct Hin as [Hin _].
    revert kv Hin. now apply Forall_forall.
  - pose proof (PyDictFacts.len_del_le (streams m) id). lia.
Qed.

(** Ids are unique among the streams of a registry that satisfies the
    invariant. *)
Lemma registry_ok_unique_ids m :
  registry_ok m -> NoDup (map webrtc_id (PyDict.values (streams m))).
Proof.
  intros (Hnd & Hids & _). unfold PyDict.values, PyDict.keys in *.
  rewrite map_map.
  replace (map (fun kv => webrtc_id (snd kv)) (streams m))
    with (map fst (streams m)); [assumption|].
  apply map_ext_in. intros kv Hin. symmetry.
  revert kv Hin. now apply Forall_forall.
Qed.

Section Keeps.
Variable clock : nat -> datetime.
Variable uuid4 : nat -> string.
Variable process : FastRTCStream -> list byte -> option string.

Lemma keeps_bind {A B} (c : M A) (k : A -> M B) :
  keeps_registry c -> (forall a, keeps_registry (k a)) ->
  keeps_registry (bind c k).
Proof.
  intros Hc Hk w Hw. unfold bind. destruct (Hc w Hw) as [Hok Hmax].
  destruct (c w) as [[a|e] w1]; simpl in *; [|now split].
  destruct (Hk a w1 Hok) as [Hok' Hmax']. split; [assumption | congruence].
Qed.

Lemma keeps_try_except {A} (c : M A) (h : exn -> M A) :
  keeps_registry c -> (forall e, keeps_registry (h e)) ->
  keeps_registry (try_except c h).
Proof.
  intros Hc Hh w Hw. unfold try_except. destruct (Hc w Hw) as [Hok Hmax].
  destruct (c w) as [[a|e] w1]; simpl in *; [now split|].
  destruct (Hh e w1 Hok) as [Hok' Hmax']. split; [assumption | congruence].
Qed.

Lemma keeps_try_except_ValueError {A} (c : M A) (h : string -> M A) :
  keeps_registry c -> (forall msg, keeps_registry (h msg)) ->
  keeps_registry (try_except_ValueError c h).
Proof.
  intros Hc Hh w Hw. unfold try_except_ValueError.
  destruct (Hc w Hw) as [Hok Hmax].
  destruct (c w) as [[a|[]] w1]; simpl in *; try (now split).
  destruct (Hh msg w1 Hok) as [Hok' Hmax']. split; [assumption | congruence].
Qed.

(** A computation that leaves [fastrtc_manager] as it is *)
Lemma keeps_same_manager {A} (c : M A) :
  (forall w, fastrtc_manager (snd (c w)) = fastrtc_manager w) ->
  keeps_registry c.
Proof. intros H w Hw. now rewrite H. Qed.

Lemma keeps_unchanged {A} (o : outcome A) w :
  registry_ok (fastrtc_manager w) ->
  registry_ok (fastrtc_manager (snd (o, w)))
  /\ max_streams (fastrtc_manager (snd (o, w))) = max_streams (fastrtc_manager w).
Proof. now split. Qed.

Lemma keeps_ret {A} (a : A) : keeps_registry (ret a).
Proof. now apply keeps_same_manager. Qed.

Lemma keeps_raise {A} e : keeps_registry (@raise A e).
Proof. now apply keeps_same_manager. Qed.

Lemma keeps_lift {A} (o : outcome A) : keeps_registry (lift o).
Proof. now apply keeps_same_manager. Qed.

Lemma keeps_log l m : keeps_registry (log l m).
Proof. now apply keeps_same_manager. Qed.

Lemma keeps_utcnow : keeps_registry (utcnow clock).
Proof. now apply keeps_same_manager. Qed.

Lemma keeps_new_uuid : keeps_registry (new_uuid uuid4).
Proof. now apply keeps_same_manager. Qed.

Lemma keeps_get_manager : keeps_registry get_manager.
Proof. now apply keeps_same_manager. Qed.

Lemma keeps_get_stats : keeps_registry get_stats.
Proof. now apply keeps_same_manager. Qed.

Lemma keeps_get_stream key : keeps_registry (get_stream key).
Proof.
  apply keeps_same_manager. intros w. unfold get_stream, bind, get_manager.
  destruct (py_hashable key); simpl; [|reflexivity]. now destruct key.
Qed.

Lemma keeps_set_audio_streaming client_id b :
  keeps_registry (set_audio_streaming client_id b).
Proof.
  apply keeps_same_manager. intros w. unfold set_audio_streaming, bind, get_conn.
  now destruct (PyDict.get _ _).
Qed.

Lemma keeps_send_personal_message fr client_id :
  keeps_registry (send_personal_message fr client_id).
Proof.
  apply keeps_same_manager. intros w. unfold send_personal_message, bind, get_conn.
  now destruct (PyDict.get _ _).
Qed.

Lemma keeps_create_stream id a_modality a_mode :
  keeps_registry (create_stream clock id a_modality a_mode).
Proof.
  intros w Hw. unfold create_stream, bind, get_manager.
  destruct (_ || _); [now apply keeps_unchanged|].
  destruct (Z.geb_spec (PyDict.len (streams (fastrtc_manager w)))
              (max_streams (fastrtc_manager w))) as [Hfull|Hroom];
    [now apply keeps_unchanged|].
  destruct (PyDict.mem _ id); [now apply keeps_unchanged|]. simpl.
  split; [now apply registry_ok_insert | reflexivity].
Qed.

Lemma keeps_remove_stream id : keeps_registry (remove_stream id).
Proof.
  intros w Hw.
  destruct (remove_stream_effect id w) as (w' & -> & Hs & Hmax & _). simpl.
  split; [|exact Hmax].
  apply (registry_ok_ext (set_streams (PyDict.del (streams (fastrtc_manager w)) id)
                            (fastrtc_manager w)));
    [exact Hs | exact Hmax | now apply registry_ok_delete].
Qed.

Lemma keeps_for_each {A} (l : list A) (body : A -> M unit) :
  (forall x, keeps_registry (body x)) -> keeps_registry (for_each l body).
Proof.
  intros Hb. induction l as [|x l IH]; simpl.
  - apply keeps_ret.
  - apply keeps_bind; [apply Hb | intros _; exact IH].
Qed.

(** Calling a method on the stream found under a key and storing the
    state it leaves keeps the invariant. *)
Lemma keeps_method_call key (method : FastRTCStream -> M FastRTCStream)
      (otherwise : M unit) :
  (forall s, stream_method (method s) s) ->
  keeps_registry otherwise ->
  keeps_registry
    (stream <- get_stream key ;;
     match stream with
     | Some stream => stream <- method stream ;; store_stream (key_of key) stream
     | None => otherwise
     end).
Proof.
  intros Hmethod Hother w Hw. unfold bind at 1.
  unfold get_stream, bind, get_manager.
  destruct (py_hashable key); simpl; [|now split].
  destruct key as [| | |id|]; simpl; try (now apply Hother).
  destruct (PyDict.get (streams (fastrtc_manager w)) id) as [s|] eqn:Hg;
    [|now apply Hother].
  destruct (Hmethod s w) as (s' & w1 & -> & Hid & Hm & _).
  rewrite store_stream_present
    by (rewrite Hm; apply PyDictFacts.mem_true; now exists s).
  simpl. rewrite Hm. split; [|reflexivity].
  apply (registry_ok_update _ id s s' Hw Hg).
  rewrite Hid. destruct Hw as (_ & Hids & _).
  apply PyDictFacts.get_Some_In in Hg.
  now apply (proj1 (Forall_forall _ _) Hids (id, s)).
Qed.

Lemma keeps_process_audio id chunk :
  keeps_registry (process_audio clock process id chunk).
Proof.
  unfold process_audio.
  apply (keeps_method_call (PyStr id)
           (fun s => process_audio_data clock process s chunk)).
  - intros s. apply process_audio_data_method.
  - apply keeps_log.
Qed.

Lemma keeps_cleanup minutes :
  keeps_registry (cleanup_inactive_streams clock minutes).
Proof.
  unfold cleanup_inactive_streams.
  apply keeps_bind; [apply keeps_utcnow | intros now].
  apply keeps_bind; [apply keeps_lift | intros cutoff].
  apply keeps_bind; [apply keeps_get_manager | intros m].
  apply keeps_bind.
  - apply keeps_for_each. intros id. apply keeps_remove_stream.
  - intros _. destruct (map fst _); [apply keeps_ret | apply keeps_log].
Qed.

Lemma keeps_handle_control_message client_id message :
  keeps_registry (handle_control_message clock client_id message).
Proof.
  unfold handle_control_message.
  destruct (py_eq_str _ "start_streaming").
  { apply keeps_bind; [apply keeps_set_audio_streaming | intros _].
    apply keeps_bind.
    - destruct (py_truthy _); [|apply keeps_ret].
      apply keeps_method_call; [apply start_streaming_method | apply keeps_ret].
    - intros _. apply keeps_bind; [apply keeps_utcnow | intros now].
      apply keeps_bind; [apply keeps_send_personal_message | intros _].
      apply keeps_log. }
  destruct (py_eq_str _ "stop_streaming").
  { apply keeps_bind; [apply keeps_set_audio_streaming | intros _].
    apply keeps_bind.
    - destruct (py_truthy _); [|apply keeps_ret].
      apply keeps_method_call; [apply stop_streaming_method | apply keeps_ret].
    - intros _. apply keeps_bind; [apply keeps_utcnow | intros now].
      apply keeps_bind; [apply keeps_send_personal_message | intros _].
      apply keeps_log. }
  destruct (py_eq_str _ "ping").
  { apply keeps_bind; [apply keeps_utcnow | intros now].
    apply keeps_send_personal_message. }
  apply keeps_log.
Qed.

Lemma keeps_handle_fastrtc_message message :
  keeps_registry (handle_fastrtc_message message).
Proof.
  unfold handle_fastrtc_message.
  repeat first
    [ apply keeps_ret | apply keeps_log | apply keeps_get_stream
    | apply keeps_bind; [|intros ?]
    | match goal with
      | |- keeps_registry (if ?b then _ else _) => destruct b
      | |- keeps_registry (match ?x with _ => _ end) => destruct x
      end ].
Qed.

Lemma keeps_create_webrtc_answer offer :
  keeps_registry (create_webrtc_answer clock uuid4 offer).
Proof.
  unfold create_webrtc_answer.
  repeat first
    [ apply keeps_ret | apply keeps_log | apply keeps_utcnow
    | apply keeps_new_uuid | apply keeps_create_stream
    | apply keeps_bind; [|intros ?] ].
Qed.

Lemma keeps_webrtc_offer sdp a_modality a_mode :
  keeps_registry (webrtc_offer clock uuid4 sdp a_modality a_mode).
Proof.
  unfold webrtc_offer.
  apply keeps_try_except;
    [|intros e; apply keeps_bind; [apply keeps_log | intros _; apply keeps_ret]].
  destruct (negb _); [apply keeps_raise|].
  destruct (negb _); [apply keeps_raise|].
  apply keeps_bind; [apply keeps_get_stats | intros st].
  destruct (_ >=? _); [apply keeps_ret|].
  apply keeps_bind.
  - apply keeps_try_except_ValueError.
    + apply keeps_bind; [apply keeps_create_webrtc_answer | intros a; apply keeps_ret].
    + intros msg. apply keeps_bind; [apply keeps_log | intros _; apply keeps_ret].
  - intros r. destruct r; try apply keeps_ret.
    apply keeps_bind; [apply keeps_log | intros _; apply keeps_ret].
Qed.

Lemma keeps_remove_fastrtc_stream id :
  keeps_registry (remove_fastrtc_stream id).
Proof.
  unfold remove_fastrtc_stream.
  apply keeps_try_except; [|intros e; apply keeps_raise].
  apply keeps_bind; [apply keeps_remove_stream | intros _; apply keeps_ret].
Qed.

Lemma keeps_exec o : keeps_registry (exec clock uuid4 process o).
Proof.
  destruct o; simpl.
  - apply keeps_bind; [apply keeps_create_stream | intros _; apply keeps_ret].
  - apply keeps_remove_stream.
  - apply keeps_process_audio.
  - apply keeps_cleanup.
  - apply keeps_handle_control_message.
  - apply keeps_bind; [apply keeps_handle_fastrtc_message | intros _; apply keeps_ret].
  - apply keeps_bind; [apply keeps_create_webrtc_answer | intros _; apply keeps_ret].
  - apply keeps_bind; [apply keeps_webrtc_offer | intros _; apply keeps_ret].
  - apply keeps_bind; [apply keeps_remove_fastrtc_stream | intros _; apply keeps_ret].
Qed.

Lemma run_keeps ops :
  forall w,
    registry_ok (fastrtc_manager w) ->
    registry_ok (fastrtc_manager (run clock uuid4 process ops w))
    /\ max_streams (fastrtc_manager (run clock uuid4 process ops w))
       = max_streams (fastrtc_manager w).
Proof.
  unfold run. induction ops as [|o ops IH]; intros w Hw; simpl.
  - now split.
  - destruct (keeps_exec o w Hw) as [Hok Hmax].
    destruct (IH _ Hok) as [Hok' Hmax']. split; [assumption | congruence].
Qed.

End Keeps.

Lemma initial_registry_ok : registry_ok (fastrtc_manager initial_world).
Proof.
  repeat split; simpl; [constructor | constructor | discriminate].
Qed.

(** Distinct, valid, new ids that fit below the capacity are all
    created, in order. *)
Lemma create_all_succeeds clock a_modality a_mode ids :
  forall w,
    NoDup ids ->
    Forall valid_id ids ->
    (forall id, In id ids -> PyDict.get (streams (fastrtc_manager w)) id = None) ->
    PyDict.len (streams (fastrtc_manager w)) + Z.of_nat (List.length ids)
      <= max_streams (fastrtc_manager w) ->
    exists w',
      create_all clock a_modality a_mode ids w = (Return tt, w')
      /\ PyDict.keys (streams (fastrtc_manager w'))
         = (PyDict.keys (streams (fastrtc_manager w)) ++ ids)%list
      /\ max_streams (fastrtc_manager w') = max_streams (fastrtc_manager w).
Proof.
  induction ids as [|id ids IH]; intros w Hnd Hv Hnew Hroom.
  - exists w. simpl. rewrite app_nil_r. now repeat split.
  - inversion Hnd as [|? ? Hnotin Hnd']; subst.
    inversion Hv as [|? ? Hvid Hv']; subst.
    simpl List.length in Hroom. simpl create_all. unfold bind.
    rewrite create_stream_success;
      [ | exact Hvid | lia | apply Hnew; now left ].
    cbv zeta.
    set (s := mkStream id a_modality a_mode false _ _ [] false).
    set (w1 := with_record INFO (LCreated id) _).
    destruct (IH w1 Hnd' Hv') as (w' & Hrun & Hkeys & Hmax).
    + intros id' Hin. subst w1. simpl.
      rewrite <- PyDictFacts.set_absent by (apply Hnew; now left).
      rewrite PyDictFacts.get_set_other by (intros ->; contradiction).
      apply Hnew. now right.
    + subst w1. simpl. unfold PyDict.len in *. rewrite length_app. simpl. lia.
    + exists w'. split; [exact Hrun|]. split; [|exact Hmax].
      rewrite Hkeys. subst w1. simpl. unfold PyDict.keys.
      rewrite map_app. simpl. now rewrite <- app_assoc.
Qed.

(** C8.  Every entry point keeps the registry well formed: ids are
    unique, every stream is held under its own id, the size is at most
    [max_streams], and [max_streams] does not change.  So in every world
    reached from the initial one the ids are unique and there are at
    most 100 streams.  From the empty registry, creating any list of
    distinct valid ids no longer than the capacity succeeds, and once
    [max_streams] streams are held the next create of a valid id fails
    with the capacity error and changes nothing. *)
Theorem registry_unique_and_bounded
  (clock : nat -> datetime) (uuid4 : nat -> string)
  (process : FastRTCStream -> list byte -> option string) :
  (forall o w,
     registry_ok (fastrtc_manager w) ->
     registry_ok (fastrtc_manager (snd (exec clock uuid4 process o w)))
     /\ max_streams (fastrtc_manager (snd (exec clock uuid4 process o w)))
        = max_streams (fastrtc_manager w))
  /\ (forall ops,
        let m := fastrtc_manager (run clock uuid4 process ops initial_world) in
        NoDup (PyDict.keys (streams m))
        /\ NoDup (map webrtc_id (PyDict.values (streams m)))
        /\ PyDict.len (streams m) <= 100
        /\ max_streams m = 100)
  /\ (forall a_modality a_mode ids w,
        streams (fastrtc_manager w) = [] ->
        NoDup ids ->
        Forall valid_id ids ->
        Z.of_nat (List.length ids) <= max_streams (fastrtc_manager w) ->
        exists w',
          create_all clock a_modality a_mode ids w = (Return tt, w')
          /\ PyDict.keys (streams (fastrtc_manager w')) = ids
          /\ (Z.of_nat (List.length ids) = max_streams (fastrtc_manager w) ->
              forall id b_modality b_mode,
                valid_id id ->
                create_stream clock id b_modality b_mode w' =
                (Raise (ValueError "Maximum number of streams reached"), w'))).
Proof.
  split; [|split].
  - intros o w. apply keeps_exec.
  - intros ops m.
    destruct (run_keeps clock uuid4 process ops initial_world initial_registry_ok)
      as [Hok Hmax].
    fold m in Hok, Hmax. pose proof (registry_ok_unique_ids m Hok) as Huniq.
    destruct Hok as (Hnd & _ & Hlen). simpl in Hmax.
    repeat split; try assumption. lia.
  - intros a_modality a_mode ids w Hempty Hnd Hv Hlen.
    destruct (create_all_succeeds clock a_modality a_mode ids w Hnd Hv)
      as (w' & Hrun & Hkeys & Hmax).
    + intros id _. now rewrite Hempty.
    + rewrite Hempty. simpl. exact Hlen.
    + rewrite Hempty in Hkeys. simpl in Hkeys.
      exists w'. split; [exact Hrun|]. split; [exact Hkeys|].
      intros Hfull id b_modality b_mode Hid.
      apply create_stream_full; [exact Hid|].
      rewrite Hmax, <- Hfull. unfold PyDict.len.
      rewrite <- (length_map fst (streams (fastrtc_manager w'))).
      change (map fst (streams (fastrtc_manager w')))
        with (PyDict.keys (streams (fastrtc_manager w'))).
      rewrite Hkeys. lia.
Qed.

Lemma registry_unique_and_bounded_witness :
  registry_ok
    (fastrtc_manager
       (snd (exec sample_clock sample_uuid log_only
               (OpCreate "a" "audio" "send") initial_world)))
  /\ (exists w',
        create_all sample_clock "audio" "send" ["a"; "b"] small_world = (Return tt, w')
        /\ PyDict.keys (streams (fastrtc_manager w')) = ["a"; "b"]
        /\ create_stream sample_clock "c" "audio" "send" w' =
           (Raise (ValueError "Maximum number of streams reached"), w')).
Proof.
  destruct (registry_unique_and_bounded sample_clock sample_uuid log_only)
    as (Hstep & _ & Hfill).
  split.
  - apply Hstep. repeat split; simpl.
    + constructor.
    + constructor.
    + discriminate.
  - destruct (Hfill "audio" "send" ["a"; "b"] small_world) as (w' & Hrun & Hkeys & Hnext).
    + reflexivity.
    + repeat constructor; simpl; intuition discriminate.
    + repeat constructor; discriminate.
    + simpl. discriminate.
    + exists w'. split; [exact Hrun|]. split; [exact Hkeys|].
      apply Hnext; [reflexivity | split; discriminate].
Defined.

(** * Further properties of the code *)

(** ** The idle sweep, at any minute of the hour *)

Lemma dt_replace_minute_in_range t m :
  0 <= dt_minute t - m <= 59 ->
  dt_replace_minute t (dt_minute t - m) = Return (minutes_before t m).
Proof.
  intros H. unfold dt_replace_minute, minutes_before.
  replace ((0 <=? dt_minute t - m) && (dt_minute t - m <=? 59)) with true.
  - f_equal. ring.
  - symmetry. apply andb_true_iff. split; apply Z.leb_le; lia.
Qed.


Lemma cleanup_in_range clock minutes w :
  0 <= dt_minute (clock (ticks w)) - minutes <= 59 ->
  exists w',
    cleanup_inactive_streams clock minutes w = (Return tt, w')
    /\ streams (fastrtc_manager w')
       = fold_left PyDict.del
           (map fst
              (filter (fun kv => last_activity (snd kv)
                                 <? minutes_before (clock (ticks w)) minutes)
                      (streams (fastrtc_manager w))))
           (streams (fastrtc_manager w))
    /\ max_streams (fastrtc_manager w') = max_streams (fastrtc_manager w)
    /\ manager w' = manager w.
Proof.
  intros Hmin. unfold cleanup_inactive_streams, bind, utcnow, lift, get_manager.
  rewrite dt_replace_minute_in_range by exact Hmin.
  change (fastrtc_manager (tick w)) with (fastrtc_manager w).
  set (ids := map fst (filter _ (streams (fastrtc_manager w)))).
  destruct (remove_each_effect ids (tick w)) as (w1 & -> & Hs & Hmax & Hc & _).
  simpl in Hs, Hmax, Hc.
  destruct ids; eexists; (split; [reflexivity|]); simpl; now repeat split.
Qed.

Lemma registry_ok_fold_del ids : forall d n,
  registry_ok (mkManager d n) -> registry_ok (mkManager (fold_left PyDict.del ids d) n).
Proof.
  induction ids as [|id ids IH]; intros d n H; simpl; [exact H|].
  apply IH. exact (registry_ok_delete (mkManager d n) id H).
Qed.

(** X1.  When the minute of the hour minus the threshold is a minute of the
    hour, the sweep returns; it removes every stream last active before
    the cutoff [now - threshold], keeps every other stream as it was,
    adds none, and leaves the registry well formed and the connections
    alone. *)
Theorem sweep_removes_exactly_idle
  (clock : nat -> datetime) (minutes : Z) (w : World) :
  0 <= dt_minute (clock (ticks w)) - minutes <= 59 ->
  registry_ok (fastrtc_manager w) ->
  exists w',
    cleanup_inactive_streams clock minutes w = (Return tt, w')
    /\ (forall id s,
          PyDict.get (streams (fastrtc_manager w)) id = Some s ->
          last_activity s < minutes_before (clock (ticks w)) minutes ->
          PyDict.get (streams (fastrtc_manager w')) id = None)
    /\ (forall id s,
          PyDict.get (streams (fastrtc_manager w)) id = Some s ->
          minutes_before (clock (ticks w)) minutes <= last_activity s ->
          PyDict.get (streams (fastrtc_manager w')) id = Some s)
    /\ (forall id,
          PyDict.get (streams (fastrtc_manager w)) id = None ->
          PyDict.get (streams (fastrtc_manager w')) id = None)
    /\ registry_ok (fastrtc_manager w')
    /\ manager w' = manager w.
Proof.
  intros Hmin Hok.
  destruct (cleanup_in_range clock minutes w Hmin) as (w' & Hrun & Hs & Hmax & Hc).
  set (cutoff := minutes_before (clock (ticks w)) minutes) in *.
  assert (Hget : forall id,
             PyDict.get (streams (fastrtc_manager w')) id
             = match PyDict.get (streams (fastrtc_manager w)) id with
               | Some s => if last_activity s <? cutoff then None else Some s
               | None => None
               end).
  { intros id. rewrite Hs, get_fold_del.
    rewrite str_in_filtered_keys by exact (proj1 Hok).
    destruct (PyDict.get (streams (fastrtc_manager w)) id); reflexivity. }
  exists w'. split; [exact Hrun|].
  split; [|split; [|split; [|split]]].
  - intros id s Hg Hold. rewrite Hget, Hg.
    now replace (last_activity s <? cutoff) with true
      by (symmetry; apply Z.ltb_lt; exact Hold).
  - intros id s Hg Hnew. rewrite Hget, Hg.
    now replace (last_activity s <? cutoff) with false
      by (symmetry; apply Z.ltb_ge; exact Hnew).
  - intros id Hg. now rewrite Hget, Hg.
  - apply (registry_ok_ext
             (mkManager (fold_left PyDict.del
                           (map fst
                              (filter (fun kv => last_activity (snd kv) <? cutoff)
                                      (streams (fastrtc_manager w))))
                           (streams (fastrtc_manager w)))
                        (max_streams (fastrtc_manager w))));
      [exact Hs | exact Hmax |].
    apply registry_ok_fold_del. now destruct (fastrtc_manager w).
  - exact Hc.
Qed.

Lemma sweep_removes_exactly_idle_witness :
  exists w',
    cleanup_inactive_streams late_sweep_clock 30 late_sweep_world = (Return tt, w')
    /\ PyDict.get (streams (fastrtc_manager w')) "old" = None
    /\ PyDict.mem (streams (fastrtc_manager w')) "recent" = true.
Proof.
  destruct (sweep_removes_exactly_idle late_sweep_clock 30 late_sweep_world)
    as (w' & Hrun & Hold & Hkeep & _).
  - vm_compute. split; discriminate.
  - repeat split.
    + vm_compute. repeat constructor; simpl; intuition discriminate.
    + vm_compute. repeat constructor.
    + vm_compute. discriminate.
  - exists w'. split; [exact Hrun|]. split.
    + eapply Hold; [vm_compute; reflexivity | vm_compute; reflexivity].
    + apply PyDictFacts.mem_true. eexists.
      eapply Hkeep; [vm_compute; reflexivity | vm_compute; discriminate].
Defined.



(** ** Dispatch of protocol messages *)

(** X3.  [handle_fastrtc_message] only reads: whatever the message, the
    registry, the connections, the clock and the uuid generator are as
    before; it writes at most one record to the log. *)
Theorem dispatch_reads_only (message : PyDict.t pyval) (w : World) :
  fastrtc_manager (snd (handle_fastrtc_message message w)) = fastrtc_manager w
  /\ manager (snd (handle_fastrtc_message message w)) = manager w
  /\ ticks (snd (handle_fastrtc_message message w)) = ticks w
  /\ uuids (snd (handle_fastrtc_message message w)) = uuids w
  /\ (logged (snd (handle_fastrtc_message message w)) = logged w
      \/ exists r,
           logged (snd (handle_fastrtc_message message w))
           = (logged w ++ [r])%list).
Proof.
  unfold handle_fastrtc_message.
  set (tag := get_default message "type" PyNone).
  set (id := get_default message "webrtc_id" PyNone).
  assert (Hlookup : forall (k : option FastRTCStream -> M (option response)),
             (forall o w0, exists r, k o w0 = (Return r, w0)
                                     \/ exists rec, k o w0 = (Return r, with_record (fst rec) (snd rec) w0)) ->
             let w' := snd ((stream <- get_stream id ;; k stream) w) in
             fastrtc_manager w' = fastrtc_manager w /\ manager w' = manager w
             /\ ticks w' = ticks w /\ uuids w' = uuids w
             /\ (logged w' = logged w \/ exists r, logged w' = (logged w ++ [r])%list)).
  { intros k Hk. unfold bind, get_stream, get_manager.
    destruct (py_hashable id); simpl; [|now repeat split; try left].
    assert (Hcase : forall o,
               let w' := snd (k o w) in
               fastrtc_manager w' = fastrtc_manager w /\ manager w' = manager w
               /\ ticks w' = ticks w /\ uuids w' = uuids w
               /\ (logged w' = logged w
                   \/ exists r, logged w' = (logged w ++ [r])%list)).
    { intros o. destruct (Hk o w) as (r & [-> | ([l m] & ->)]); simpl.
      - repeat split. now left.
      - repeat split. right. now exists (l, m). }
    destruct id; simpl; apply Hcase. }
  destruct (py_eq_str tag "send_input").
  { destruct (py_truthy id); [|simpl; repeat split; now left].
    apply Hlookup. intros [s|] w0.
    - eexists. right. exists (INFO, LInput id). reflexivity.
    - eexists. left. reflexivity. }
  destruct (py_eq_str tag "fetch_output").
  { destruct (py_truthy id); [|simpl; repeat split; now left].
    apply Hlookup. intros [s|] w0; eexists; left; reflexivity. }
  destruct (py_eq_str tag "stopword");
    [simpl; repeat split; right; eexists; reflexivity|].
  destruct (py_eq_str tag "error");
    [simpl; repeat split; right; eexists; reflexivity|].
  destruct (py_eq_str tag "warning");
    [simpl; repeat split; right; eexists; reflexivity|].
  destruct (py_eq_str tag "log");
    [simpl; repeat split; right; eexists; reflexivity|].
  simpl. repeat split. now left.
Qed.

(** X4.  [send_input] and [fetch_output] look the stream up by the string id
    of the message.  For a registered id, [send_input] answers
    [success] and [fetch_output] answers with the status of the stream
    as [get_status] gives it; for a non-empty id that is not registered
    both answer [error], "Stream not found" -- and so does any truthy,
    hashable id that is not a string (a number, [true]), whatever the
    registry holds. *)
Theorem dispatch_looks_up_stream (message : PyDict.t pyval) (w : World) :
  let tag := get_default message "type" PyNone in
  let key := get_default message "webrtc_id" PyNone in
  (forall id s,
     key = PyStr id -> id <> "" ->
     PyDict.get (streams (fastrtc_manager w)) id = Some s ->
     (tag = PyStr "send_input" ->
      handle_fastrtc_message message w =
      (Return (Some (RespMessage "success" (PyStr "Input processed"))),
       with_record INFO (LInput key) w))
     /\ (tag = PyStr "fetch_output" ->
         handle_fastrtc_message message w =
         (Return (Some (RespOutput "success" key (get_status s))), w)))
  /\ (forall id,
        key = PyStr id -> id <> "" ->
        PyDict.get (streams (fastrtc_manager w)) id = None ->
        tag = PyStr "send_input" \/ tag = PyStr "fetch_output" ->
        handle_fastrtc_message message w =
        (Return (Some (RespMessage "error" (PyStr "Stream not found"))), w))
  /\ (py_truthy key = true -> py_hashable key = true ->
      (forall id, key <> PyStr id) ->
      tag = PyStr "send_input" \/ tag = PyStr "fetch_output" ->
      handle_fastrtc_message message w =
      (Return (Some (RespMessage "error" (PyStr "Stream not found"))), w)).
Proof.
  intros tag key. unfold handle_fastrtc_message. fold tag. fold key.
  assert (Htruthy : forall id, id <> "" -> py_truthy (PyStr id) = true).
  { intros id Hne. simpl. apply String.eqb_neq in Hne. now rewrite Hne. }
  split; [|split].
  - intros id s Hkey Hne Hg. split; intros Htag; rewrite Htag, Hkey.
    + change (py_eq_str (PyStr "send_input") "send_input") with true. cbv iota.
      rewrite (Htruthy id Hne). unfold bind. rewrite get_stream_str, Hg.
      reflexivity.
    + change (py_eq_str (PyStr "fetch_output") "send_input") with false.
      change (py_eq_str (PyStr "fetch_output") "fetch_output") with true.
      cbv iota. rewrite (Htruthy id Hne). unfold bind.
      rewrite get_stream_str, Hg. reflexivity.
  - intros id Hkey Hne Hg [Htag|Htag]; rewrite Htag, Hkey.
    + change (py_eq_str (PyStr "send_input") "send_input") with true. cbv iota.
      rewrite (Htruthy id Hne). unfold bind. rewrite get_stream_str, Hg.
      reflexivity.
    + change (py_eq_str (PyStr "fetch_output") "send_input") with false.
      change (py_eq_str (PyStr "fetch_output") "fetch_output") with true.
      cbv iota. rewrite (Htruthy id Hne). unfold bind.
      rewrite get_stream_str, Hg. reflexivity.
  - intros Ht Hh Hnot Htag.
    assert (Hnone : get_stream key w = (Return None, w)).
    { unfold get_stream, bind, get_manager. rewrite Hh. simpl.
      destruct key; try reflexivity. now destruct (Hnot s). }
    destruct Htag as [Htag|Htag]; rewrite Htag.
    + change (py_eq_str (PyStr "send_input") "send_input") with true. cbv iota.
      rewrite Ht. unfold bind. now rewrite Hnone.
    + change (py_eq_str (PyStr "fetch_output") "send_input") with false.
      change (py_eq_str (PyStr "fetch_output") "fetch_output") with true.
      cbv iota. rewrite Ht. unfold bind. now rewrite Hnone.
Qed.

Lemma dispatch_looks_up_stream_witness :
  (exists st,
     handle_fastrtc_message (fetch_output_message (PyStr "a")) created_world
     = (Return (Some (RespOutput "success" (PyStr "a") st)), created_world)
     /\ st_is_active st = false /\ st_buffer_size st = 0)
  /\ handle_fastrtc_message (send_input_message (PyStr "a")) created_world
     = (Return (Some (RespMessage "success" (PyStr "Input processed"))),
        with_record INFO (LInput (PyStr "a")) created_world)
  /\ handle_fastrtc_message (send_input_message (PyStr "ghost")) created_world
     = (Return (Some (RespMessage "error" (PyStr "Stream not found"))), created_world)
  /\ handle_fastrtc_message (fetch_output_message (PyInt 5)) created_world
     = (Return (Some (RespMessage "error" (PyStr "Stream not found"))), created_world).
Proof.
  split; [|split; [|split]].
  - destruct (dispatch_looks_up_stream (fetch_output_message (PyStr "a")) created_world)
      as (Hfound & _ & _).
    eexists. split.
    + eapply Hfound; [reflexivity | discriminate | vm_compute; reflexivity | reflexivity].
    + split; reflexivity.
  - destruct (dispatch_looks_up_stream (send_input_message (PyStr "a")) created_world)
      as (Hfound & _ & _).
    eapply Hfound; [reflexivity | discriminate | vm_compute; reflexivity | reflexivity].
  - destruct (dispatch_looks_up_stream (send_input_message (PyStr "ghost")) created_world)
      as (_ & Habsent & _).
    apply (Habsent "ghost"); [reflexivity | discriminate | reflexivity | now left].
  - destruct (dispatch_looks_up_stream (fetch_output_message (PyInt 5)) created_world)
      as (_ & _ & Hother).
    apply Hother; [reflexivity | reflexivity | discriminate | now right].
Defined.

(** X6.  The status that [fetch_output] returns follows the buffer: after an
    active stream with an empty buffer took fewer than ten chunks, the
    status shows that many chunks waiting, the stream active and no
    flush in flight. *)
Theorem fetch_output_reports_buffer
  (clock : nat -> datetime)
  (process : FastRTCStream -> list byte -> option string)
  (id : string) (chunks : list (list byte)) (w : World) (s : FastRTCStream) :
  id <> "" ->
  PyDict.get (streams (fastrtc_manager w)) id = Some s ->
  is_active s = true ->
  processing s = false ->
  audio_buffer s = [] ->
  (List.length chunks < 10)%nat ->
  exists w' st,
    feed clock process id chunks w = (Return tt, w')
    /\ handle_fastrtc_message (fetch_output_message (PyStr id)) w'
       = (Return (Some (RespOutput "success" (PyStr id) st)), w')
    /\ st_webrtc_id st = webrtc_id s
    /\ st_buffer_size st = Z.of_nat (List.length chunks)
    /\ st_is_active st = true
    /\ st_processing st = false.
Proof.
  intros Hne Hg Ha Hp Hb Hlen.
  destruct (feed_below_threshold clock process id chunks w s Hg Ha Hp)
    as (s' & w' & Hrun & Hg' & Hbuf & Ha' & Hp' & Hid & _).
  { rewrite Hb. simpl. lia. }
  rewrite Hb in Hbuf. simpl in Hbuf.
  exists w', (get_status s'). split; [exact Hrun|]. split.
  - unfold handle_fastrtc_message, fetch_output_message, get_default. simpl.
    replace (negb (id =? "")%string) with true
      by (symmetry; apply negb_true_iff; now apply String.eqb_neq).
    unfold bind. rewrite get_stream_str, Hg'. reflexivity.
  - simpl. rewrite Hbuf. now repeat split.
Qed.

Lemma fetch_output_reports_buffer_witness :
  exists w' st,
    feed sample_clock log_only "a" nine_chunks active_world = (Return tt, w')
    /\ handle_fastrtc_message (fetch_output_message (PyStr "a")) w'
       = (Return (Some (RespOutput "success" (PyStr "a") st)), w')
    /\ st_buffer_size st = 9.
Proof.
  destruct (fetch_output_reports_buffer sample_clock log_only "a" nine_chunks
              active_world
              (mkStream "a" "audio" "send" true (sample_clock 0) (sample_clock 2)
                 [] false))
    as (w' & st & Hrun & Hfetch & _ & Hsize & _).
  - discriminate.
  - vm_compute. reflexivity.
  - reflexivity.
  - reflexivity.
  - reflexivity.
  - simpl. lia.
  - exists w', st. now repeat split.
Defined.

(** ** What happens to the bytes of the chunks *)

Lemma processed_bytes_app id l1 l2 :
  processed_bytes id (l1 ++ l2) = (processed_bytes id l1 + processed_bytes id l2)%nat.
Proof. unfold processed_bytes. now rewrite map_app, list_sum_app. Qed.

Lemma buffered_bytes_appended now chunk s :
  buffered_bytes (appended now chunk s)
  = (buffered_bytes s + List.length chunk)%nat.
Proof.
  unfold buffered_bytes, appended. simpl.
  rewrite concat_app, length_app. simpl. now rewrite app_nil_r.
Qed.

(** One call of [process_audio] on an active stream moves bytes from
    the buffer to the processed ones or leaves them in the buffer, and
    adds the bytes of the chunk. *)
Lemma process_audio_conserves clock process id chunk w s :
  PyDict.get (streams (fastrtc_manager w)) id = Some s ->
  is_active s = true ->
  webrtc_id s = id ->
  exists s' w',
    process_audio clock process id chunk w = (Return tt, w')
    /\ PyDict.get (streams (fastrtc_manager w')) id = Some s'
    /\ is_active s' = true
    /\ webrtc_id s' = id
    /\ (processed_bytes id (logged w') + buffered_bytes s'
        = processed_bytes id (logged w) + buffered_bytes s + List.length chunk)%nat.
Proof.
  intros Hg Ha Hid.
  rewrite (process_audio_active clock process id chunk w s Hg Ha). cbv zeta.
  pose proof (buffered_bytes_appended (clock (ticks w)) chunk s) as Hbytes.
  set (s1 := appended (clock (ticks w)) chunk s) in *.
  destruct (_ && _).
  - destruct (process (set_processing true s1) (List.concat (audio_buffer s1))).
    + eexists; eexists. split; [reflexivity|]. simpl.
      rewrite PyDictFacts.get_set_same. split; [reflexivity|].
      split; [exact Ha|]. split; [exact Hid|].
      rewrite processed_bytes_app. unfold processed_bytes at 2. simpl.
      change (buffered_bytes (set_processing false s1)) with (buffered_bytes s1).
      lia.
    + eexists; eexists. split; [reflexivity|]. simpl.
      rewrite PyDictFacts.get_set_same. split; [reflexivity|].
      split; [exact Ha|]. split; [exact Hid|].
      rewrite processed_bytes_app. unfold processed_bytes at 2.
      cbn [map list_sum]. unfold record_bytes at 1. cbn [snd].
      change (webrtc_id s1) with (webrtc_id s). rewrite Hid, String.eqb_refl.
      change (buffered_bytes (set_processing false (set_audio_buffer [] s1)))
        with 0%nat.
      unfold buffered_bytes, s1, appended in *. simpl in *. lia.
  - eexists; eexists. split; [reflexivity|]. simpl.
    rewrite PyDictFacts.get_set_same. split; [reflexivity|].
    split; [exact Ha|]. split; [exact Hid|]. lia.
Qed.

(** X7.  No byte is lost for an active stream: whatever the processing step
    does, after any sequence of chunks the bytes logged as processed for
    the stream plus the bytes waiting in its buffer have grown by
    exactly the bytes of the chunks. *)
Theorem no_byte_lost
  (clock : nat -> datetime)
  (process : FastRTCStream -> list byte -> option string)
  (id : string) (chunks : list (list byte)) :
  forall (w : World) (s : FastRTCStream),
    PyDict.get (streams (fastrtc_manager w)) id = Some s ->
    is_active s = true ->
    webrtc_id s = id ->
    exists s' w',
      feed clock process id chunks w = (Return tt, w')
      /\ PyDict.get (streams (fastrtc_manager w')) id = Some s'
      /\ (processed_bytes id (logged w') + buffered_bytes s'
          = processed_bytes id (logged w) + buffered_bytes s
            + List.length (List.concat chunks))%nat.
Proof.
  unfold feed. induction chunks as [|c chunks IH]; intros w s Hg Ha Hid.
  - exists s, w. simpl. repeat split; [assumption | lia].
  - simpl for_each. unfold bind.
    destruct (process_audio_conserves clock process id c w s Hg Ha Hid)
      as (s1 & w1 & -> & Hg1 & Ha1 & Hid1 & Hsum1).
    destruct (IH w1 s1 Hg1 Ha1 Hid1) as (s' & w' & Hrun & Hg' & Hsum).
    exists s', w'. split; [exact Hrun|]. split; [exact Hg'|].
    simpl List.concat. rewrite length_app. lia.
Qed.

Lemma no_byte_lost_witness :
  exists s' w',
    feed sample_clock log_only "a" (ten_chunks ++ nine_chunks) active_world
    = (Return tt, w')
    /\ PyDict.get (streams (fastrtc_manager w')) "a" = Some s'
    /\ (processed_bytes "a" (logged w') + buffered_bytes s' = 36)%nat.
Proof.
  destruct (no_byte_lost sample_clock log_only "a" (ten_chunks ++ nine_chunks)
              active_world
              (mkStream "a" "audio" "send" true (sample_clock 0) (sample_clock 2)
                 [] false))
    as (s' & w' & Hrun & Hg & Hsum).
  - vm_compute. reflexivity.
  - reflexivity.
  - reflexivity.
  - exists s', w'. split; [exact Hrun|]. split; [exact Hg|]. exact Hsum.
Defined.



(** ** Properties that every stream of the registry keeps *)

Lemma preserves_bind {A B} I (c : M A) (k : A -> M B) :
  preserves I c -> (forall a, preserves I (k a)) -> preserves I (bind c k).
Proof.
  intros Hc Hk w Hw. unfold bind. specialize (Hc w Hw).
  destruct (c w) as [[a|e] w1]; simpl in *; [now apply Hk | exact Hc].
Qed.

Lemma preserves_try_except {A} I (c : M A) (h : exn -> M A) :
  preserves I c -> (forall e, preserves I (h e)) -> preserves I (try_except c h).
Proof.
  intros Hc Hh w Hw. unfold try_except. specialize (Hc w Hw).
  destruct (c w) as [[a|e] w1]; simpl in *; [exact Hc | now apply Hh].
Qed.

Lemma preserves_try_except_ValueError {A} I (c : M A) (h : string -> M A) :
  preserves I c -> (forall msg, preserves I (h msg)) ->
  preserves I (try_except_ValueError c h).
Proof.
  intros Hc Hh w Hw. unfold try_except_ValueError. specialize (Hc w Hw).
  destruct (c w) as [[a|[]] w1]; simpl in *; try exact Hc. now apply Hh.
Qed.

Lemma preserves_same_manager {A} I (c : M A) :
  (forall w, fastrtc_manager (snd (c w)) = fastrtc_manager w) -> preserves I c.
Proof. intros H w Hw. now rewrite H. Qed.

Lemma preserves_for_each {A} I (l : list A) (body : A -> M unit) :
  (forall x, preserves I (body x)) -> preserves I (for_each l body).
Proof.
  intros Hb. induction l as [|x l IH]; simpl.
  - now apply preserves_same_manager.
  - apply preserves_bind; [apply Hb | intros _; exact IH].
Qed.

Lemma get_stream_same_manager key w :
  fastrtc_manager (snd (get_stream key w)) = fastrtc_manager w.
Proof.
  unfold get_stream, bind, get_manager.
  destruct (py_hashable key); simpl; [|reflexivity]. now destruct key.
Qed.

Lemma set_audio_streaming_same_manager client_id b w :
  fastrtc_manager (snd (set_audio_streaming client_id b w)) = fastrtc_manager w.
Proof.
  unfold set_audio_streaming, bind, get_conn. now destruct (PyDict.get _ _).
Qed.

Lemma send_personal_message_same_manager fr client_id w :
  fastrtc_manager (snd (send_personal_message fr client_id w)) = fastrtc_manager w.
Proof.
  unfold send_personal_message, bind, get_conn. now destruct (PyDict.get _ _).
Qed.

Lemma handle_fastrtc_message_same_manager message w :
  fastrtc_manager (snd (handle_fastrtc_message message w)) = fastrtc_manager w.
Proof.
  assert (H : preserves (fun m => m = fastrtc_manager w)
                (handle_fastrtc_message message)).
  { unfold handle_fastrtc_message.
    repeat first
      [ apply preserves_same_manager; intros ?;
        first [reflexivity | apply get_stream_same_manager]
      | apply preserves_bind; [|intros ?]
      | match goal with
        | |- preserves _ (if ?b then _ else _) => destruct b
        | |- preserves _ (match ?x with _ => _ end) => destruct x
        end ]. }
  exact (H w eq_refl).
Qed.

Section StreamInvariant.
Variable clock : nat -> datetime.
Variable uuid4 : nat -> string.
Variable process : FastRTCStream -> list byte -> option string.
Variable P : FastRTCStream -> Prop.

Hypothesis P_new :
  forall id a_modality a_mode t1 t2,
    P (mkStream id a_modality a_mode false t1 t2 [] false).
Hypothesis P_start :
  forall s t, P s -> P (set_last_activity t (set_is_active true s)).
Hypothesis P_stop : forall s, P s -> P (set_is_active false s).
Hypothesis P_audio :
  forall s chunk w s' w',
    P s -> process_audio_data clock process s chunk w = (Return s', w') -> P s'.

Lemma streams_keep_create_stream id a_modality a_mode :
  preserves (all_streams P) (create_stream clock id a_modality a_mode).
Proof.
  intros w Hw. unfold create_stream, bind, get_manager.
  destruct (_ || _); [exact Hw|].
  destruct (_ >=? _); [exact Hw|].
  destruct (PyDict.mem _ id); [exact Hw|]. simpl.
  unfold all_streams. simpl. apply Forall_set; [exact Hw | apply P_new].
Qed.

Lemma streams_keep_remove_stream id :
  preserves (all_streams P) (remove_stream id).
Proof.
  intros w Hw.
  destruct (remove_stream_effect id w) as (w' & -> & Hs & _). simpl.
  unfold all_streams in *. rewrite Hs. unfold PyDict.del.
  apply Forall_forall. intros kv Hin. apply filter_In in Hin.
  destruct Hin as [Hin _]. revert kv Hin. now apply Forall_forall.
Qed.

(** Calling a method that keeps [P] on the stream found under a key *)
Lemma streams_keep_method_call key (method : FastRTCStream -> M FastRTCStream)
      (otherwise : M unit) :
  (forall s w, P s ->
     exists s' w',
       method s w = (Return s', w') /\ P s'
       /\ fastrtc_manager w' = fastrtc_manager w) ->
  preserves (all_streams P) otherwise ->
  preserves (all_streams P)
    (stream <- get_stream key ;;
     match stream with
     | Some stream => stream <- method stream ;; store_stream (key_of key) stream
     | None => otherwise
     end).
Proof.
  intros Hmethod Hother w Hw. unfold bind at 1.
  unfold get_stream, bind, get_manager.
  destruct (py_hashable key); simpl; [|exact Hw].
  destruct key as [| | |id|]; simpl; try (now apply Hother).
  destruct (PyDict.get (streams (fastrtc_manager w)) id) as [s|] eqn:Hg;
    [|now apply Hother].
  assert (Hs : P s).
  { apply PyDictFacts.get_Some_In in Hg.
    exact (proj1 (Forall_forall _ _) Hw (id, s) Hg). }
  destruct (Hmethod s w Hs) as (s' & w1 & -> & Hs' & Hm).
  rewrite store_stream_present
    by (rewrite Hm; apply PyDictFacts.mem_true; now exists s).
  simpl. rewrite Hm. unfold all_streams. simpl.
  apply Forall_set; [exact Hw | exact Hs'].
Qed.

Lemma streams_keep_process_audio id chunk :
  preserves (all_streams P) (process_audio clock process id chunk).
Proof.
  unfold process_audio.
  apply (streams_keep_method_call (PyStr id)
           (fun s => process_audio_data clock process s chunk)).
  - intros s w Hs.
    destruct (process_audio_data_method clock process s chunk w)
      as (s' & w' & Heq & _ & Hm & _).
    exists s', w'. split; [exact Heq|]. split; [|exact Hm].
    exact (P_audio s chunk w s' w' Hs Heq).
  - now apply preserves_same_manager.
Qed.

Lemma streams_keep_cleanup minutes :
  preserves (all_streams P) (cleanup_inactive_streams clock minutes).
Proof.
  unfold cleanup_inactive_streams.
  apply preserves_bind; [now apply preserves_same_manager | intros now].
  apply preserves_bind; [now apply preserves_same_manager | intros cutoff].
  apply preserves_bind; [now apply preserves_same_manager | intros m].
  apply preserves_bind.
  - apply preserves_for_each. intros id. apply streams_keep_remove_stream.
  - intros _. destruct (map fst _); now apply preserves_same_manager.
Qed.

Lemma streams_keep_control client_id message :
  preserves (all_streams P) (handle_control_message clock client_id message).
Proof.
  unfold handle_control_message.
  assert (Hreply : forall fr l,
             preserves (all_streams P)
               (now <- utcnow clock ;;
                send_personal_message (fr now) client_id ;; log INFO l)).
  { intros fr l.
    apply preserves_bind; [now apply preserves_same_manager | intros now].
    apply preserves_bind; [|intros _; now apply preserves_same_manager].
    apply preserves_same_manager. apply send_personal_message_same_manager. }
  destruct (py_eq_str _ "start_streaming").
  { apply preserves_bind;
      [apply preserves_same_manager; apply set_audio_streaming_same_manager
      | intros _].
    apply preserves_bind; [|intros _; apply Hreply].
    destruct (py_truthy _); [|now apply preserves_same_manager].
    apply streams_keep_method_call; [|now apply preserves_same_manager].
    intros s w Hs. rewrite start_streaming_eq.
    eexists; eexists. split; [reflexivity|]. split; [now apply P_start|reflexivity]. }
  destruct (py_eq_str _ "stop_streaming").
  { apply preserves_bind;
      [apply preserves_same_manager; apply set_audio_streaming_same_manager
      | intros _].
    apply preserves_bind; [|intros _; apply Hreply].
    destruct (py_truthy _); [|now apply preserves_same_manager].
    apply streams_keep_method_call; [|now apply preserves_same_manager].
    intros s w Hs. rewrite stop_streaming_eq.
    eexists; eexists. split; [reflexivity|]. split; [now apply P_stop|reflexivity]. }
  destruct (py_eq_str _ "ping").
  { apply preserves_bind; [now apply preserves_same_manager | intros now].
    apply preserves_same_manager. apply send_personal_message_same_manager. }
  now apply preserves_same_manager.
Qed.

Lemma streams_keep_answer offer_dict :
  preserves (all_streams P) (create_webrtc_answer clock uuid4 offer_dict).
Proof.
  unfold create_webrtc_answer.
  apply preserves_bind; [now apply preserves_same_manager | intros id].
  apply preserves_bind; [apply streams_keep_create_stream | intros _].
  apply preserves_bind; [now apply preserves_same_manager | intros _].
  apply preserves_bind; now (intros; apply preserves_same_manager).
Qed.

Lemma streams_keep_offer sdp a_modality a_mode :
  preserves (all_streams P) (webrtc_offer clock uuid4 sdp a_modality a_mode).
Proof.
  unfold webrtc_offer.
  apply preserves_try_except;
    [|intros e; apply preserves_bind;
      now (intros; apply preserves_same_manager)].
  destruct (negb _); [now apply preserves_same_manager|].
  destruct (negb _); [now apply preserves_same_manager|].
  apply preserves_bind; [now apply preserves_same_manager | intros st].
  destruct (_ >=? _); [now apply preserves_same_manager|].
  apply preserves_bind.
  - apply preserves_try_except_ValueError.
    + apply preserves_bind;
        [apply streams_keep_answer | intros a; now apply preserves_same_manager].
    + intros msg. apply preserves_bind; now (intros; apply preserves_same_manager).
  - intros r. destruct r; now apply preserves_same_manager.
Qed.

Lemma streams_keep_exec o :
  preserves (all_streams P) (exec clock uuid4 process o).
Proof.
  destruct o; simpl.
  - apply preserves_bind;
      [apply streams_keep_create_stream | intros _; now apply preserves_same_manager].
  - apply streams_keep_remove_stream.
  - apply streams_keep_process_audio.
  - apply streams_keep_cleanup.
  - apply streams_keep_control.
  - apply preserves_bind; [|intros _; now apply preserves_same_manager].
    apply preserves_same_manager. intros w.
    apply handle_fastrtc_message_same_manager.
  - apply preserves_bind;
      [apply streams_keep_answer | intros _; now apply preserves_same_manager].
  - apply preserves_bind;
      [apply streams_keep_offer | intros _; now apply preserves_same_manager].
  - apply preserves_bind; [|intros _; now apply preserves_same_manager].
    unfold remove_fastrtc_stream.
    apply preserves_try_except; [|intros e; now apply preserves_same_manager].
    apply preserves_bind;
      [apply streams_keep_remove_stream | intros _; now apply preserves_same_manager].
Qed.

Lemma streams_keep_run ops :
  forall w,
    all_streams P (fastrtc_manager w) ->
    all_streams P (fastrtc_manager (run clock uuid4 process ops w)).
Proof.
  unfold run. induction ops as [|o ops IH]; intros w Hw; simpl.
  - exact Hw.
  - apply IH. now apply streams_keep_exec.
Qed.

End StreamInvariant.

(** X9.  No flush is ever left in flight.  From a world whose streams all
    have [processing] false, every sequence of calls leads to such a
    world, whatever the processing step does.  So the test
    [not self.processing] of [process_audio_data] never holds a flush
    back: in such a world an append that brings an active stream to ten
    chunks or more always runs one. *)
Theorem guard_clear_between_calls
  (clock : nat -> datetime) (uuid4 : nat -> string)
  (process : FastRTCStream -> list byte -> option string)
  (ops : list op) (w : World) :
  all_streams (fun s => processing s = false) (fastrtc_manager w) ->
  let w1 := run clock uuid4 process ops w in
  all_streams (fun s => processing s = false) (fastrtc_manager w1)
  /\ (forall id s chunk,
        PyDict.get (streams (fastrtc_manager w1)) id = Some s ->
        is_active s = true ->
        (10 <= List.length (audio_buffer s) + 1)%nat ->
        flushes (logged (snd (process_audio clock process id chunk w1)))
        = S (flushes (logged w1))).
Proof.
  intros Hw w1.
  assert (Hall : all_streams (fun s => processing s = false) (fastrtc_manager w1)).
  { apply streams_keep_run; [reflexivity | now intros | now intros | | exact Hw].
    intros s chunk w0 s' w' Hs Hrun.
    destruct (is_active s) eqn:Ha.
    - rewrite process_audio_data_active in Hrun by exact Ha. cbv zeta in Hrun.
      destruct (_ && _).
      + rewrite process_buffer_eq in Hrun.
        destruct (process _ _); inversion Hrun; reflexivity.
      + inversion Hrun. exact Hs.
    - rewrite process_audio_data_inactive in Hrun by exact Ha.
      inversion Hrun; subst. exact Hs. }
  split; [exact Hall|].
  intros id s chunk Hg Ha Hlen.
  assert (Hp : processing s = false).
  { apply PyDictFacts.get_Some_In in Hg.
    exact (proj1 (Forall_forall _ _) Hall (id, s) Hg). }
  rewrite (process_audio_active clock process id chunk w1 s Hg Ha). cbv zeta.
  replace (_ >=? 10) with true.
  2:{ symmetry. apply geb_true. unfold appended. simpl.
      rewrite length_app. simpl. lia. }
  replace (processing (appended (clock (ticks w1)) chunk s)) with false
    by (symmetry; exact Hp).
  simpl andb. cbv iota.
  destruct (process _ _); simpl; rewrite flushes_app;
    unfold flushes at 2; simpl; lia.
Qed.

Lemma guard_clear_witness :
  all_streams (fun s => processing s = false)
    (fastrtc_manager (run sample_clock sample_uuid failing_step sample_ops active_world)).
Proof.
  apply (guard_clear_between_calls sample_clock sample_uuid failing_step
           sample_ops active_world).
  vm_compute. repeat constructor.
Defined.

(** X10.  With a processing step that never raises, no stream is ever left
    with ten chunks or more: from a world whose streams are all settled
    (no flush in flight, fewer than ten chunks waiting) every sequence
    of calls leads to such a world. *)
Theorem buffer_below_ten_between_calls
  (clock : nat -> datetime) (uuid4 : nat -> string)
  (process : FastRTCStream -> list byte -> option string)
  (ops : list op) (w : World) :
  (forall s payload, process s payload = None) ->
  all_streams settled (fastrtc_manager w) ->
  all_streams settled (fastrtc_manager (run clock uuid4 process ops w)).
Proof.
  intros Hok Hw.
  apply streams_keep_run; try exact Hw.
  - intros. split; [reflexivity | simpl; lia].
  - intros s t Hs. exact Hs.
  - intros s Hs. exact Hs.
  - intros s chunk w0 s' w' [Hp Hlen] Hrun.
    destruct (is_active s) eqn:Ha.
    + rewrite process_audio_data_active in Hrun by exact Ha. cbv zeta in Hrun.
      destruct (Z.geb_spec
                  (Z.of_nat (List.length
                               (audio_buffer (appended (clock (ticks w0)) chunk s))))
                  10) as [Hfull|Hroom].
      * replace (processing (appended (clock (ticks w0)) chunk s)) with false
          in Hrun by (symmetry; exact Hp).
        simpl andb in Hrun. cbv iota in Hrun.
        rewrite process_buffer_eq, Hok in Hrun. inversion Hrun.
        split; [reflexivity | simpl; lia].
      * simpl andb in Hrun. cbv iota in Hrun. inversion Hrun.
        split; [exact Hp | lia].
    + rewrite process_audio_data_inactive in Hrun by exact Ha.
      inversion Hrun; subst. now split.
Qed.

Lemma buffer_below_ten_witness :
  all_streams settled
    (fastrtc_manager (run sample_clock sample_uuid log_only sample_ops active_world)).
Proof.
  apply (buffer_below_ten_between_calls sample_clock sample_uuid log_only
           sample_ops active_world).
  - reflexivity.
  - vm_compute. repeat constructor.
Defined.

(** ** Removing and creating again *)

Lemma len_del_present {V} (d : PyDict.t V) k v :
  PyDict.get d k = Some v -> PyDict.len (PyDict.del d k) < PyDict.len d.
Proof.
  unfold PyDict.len, PyDict.del.
  induction d as [|[k0 v0] d IH]; simpl; [discriminate|].
  destruct (String.eqb_spec k0 k) as [->|Hne]; simpl; intros H.
  - pose proof (filter_length_le (fun kv : string * V => negb (fst kv =? k)%string) d).
    lia.
  - specialize (IH H). simpl List.length. lia.
Qed.

(** X11.  [remove_stream] never raises.  It removes the entry of the id it is
    given and no other, leaves the connections alone, changes nothing at
    all when the id is not registered, and a second removal of the same
    id changes nothing. *)
Theorem remove_stream_only_named_id (id : string) (w : World) :
  exists w',
    remove_stream id w = (Return tt, w')
    /\ PyDict.get (streams (fastrtc_manager w')) id = None
    /\ (forall id', id <> id' ->
          PyDict.get (streams (fastrtc_manager w')) id'
          = PyDict.get (streams (fastrtc_manager w)) id')
    /\ manager w' = manager w
    /\ (PyDict.get (streams (fastrtc_manager w)) id = None -> w' = w)
    /\ remove_stream id w' = (Return tt, w').
Proof.
  destruct (remove_stream_effect id w) as (w' & Hrun & Hs & _ & Hc & _).
  exists w'. split; [exact Hrun|].
  assert (Hgone : PyDict.get (streams (fastrtc_manager w')) id = None)
    by (rewrite Hs; apply PyDictFacts.get_del_same).
  split; [exact Hgone|]. split; [|split; [exact Hc|split]].
  - intros id' Hne. rewrite Hs. now apply PyDictFacts.get_del_other.
  - intros Habsent. rewrite (remove_stream_absent id w Habsent) in Hrun.
    now inversion Hrun.
  - now apply remove_stream_absent.
Qed.

(** X12.  An id is free again as soon as its stream is removed: while the
    registry is within its capacity, removing a registered stream and
    creating one under the same valid id succeeds, and the new stream
    starts afresh -- inactive, with an empty buffer -- whatever the old
    one held. *)
Theorem removed_id_can_be_created_again
  (clock : nat -> datetime) (id a_modality a_mode : string)
  (w : World) (s : FastRTCStream) :
  valid_id id ->
  PyDict.get (streams (fastrtc_manager w)) id = Some s ->
  PyDict.len (streams (fastrtc_manager w)) <= max_streams (fastrtc_manager w) ->
  exists w1 s' w2,
    remove_stream id w = (Return tt, w1)
    /\ create_stream clock id a_modality a_mode w1 = (Return s', w2)
    /\ PyDict.get (streams (fastrtc_manager w2)) id = Some s'
    /\ audio_buffer s' = []
    /\ is_active s' = false
    /\ processing s' = false.
Proof.
  intros Hv Hg Hlen.
  destruct (remove_stream_effect id w) as (w1 & Hrun & Hs & Hmax & _).
  assert (Hroom : PyDict.len (streams (fastrtc_manager w1))
                  < max_streams (fastrtc_manager w1)).
  { rewrite Hs, Hmax. pose proof (len_del_present _ _ _ Hg). lia. }
  assert (Hfree : PyDict.get (streams (fastrtc_manager w1)) id = None)
    by (rewrite Hs; apply PyDictFacts.get_del_same).
  pose proof (create_stream_success clock id a_modality a_mode w1 Hv Hroom Hfree)
    as Hcreate.
  cbv zeta in Hcreate.
  eexists; eexists; eexists. split; [exact Hrun|]. split; [exact Hcreate|].
  simpl. rewrite <- PyDictFacts.set_absent by exact Hfree.
  rewrite PyDictFacts.get_set_same. now repeat split.
Qed.

Lemma removed_id_can_be_created_again_witness :
  exists w1 s' w2,
    remove_stream "a"
      (snd (feed sample_clock log_only "a" nine_chunks active_world))
    = (Return tt, w1)
    /\ create_stream sample_clock "a" "video" "receive" w1 = (Return s', w2)
    /\ audio_buffer s' = [].
Proof.
  destruct (removed_id_can_be_created_again sample_clock "a" "video" "receive"
              (snd (feed sample_clock log_only "a" nine_chunks active_world))
              (mkStream "a" "audio" "send" true (sample_clock 0) (sample_clock 12)
                 nine_chunks false))
    as (w1 & s' & w2 & Hrm & Hcr & _ & Hbuf & _).
  - split; discriminate.
  - vm_compute. reflexivity.
  - vm_compute. discriminate.
  - exists w1, s', w2. now repeat split.
Defined.

(** ** Control messages and the connection of the client *)

Lemma send_personal_message_metadata fr client_id w :
  connection_metadata (manager (snd (send_personal_message fr client_id w)))
  = connection_metadata (manager w).
Proof.
  unfold send_personal_message, bind, get_conn. now destruct (PyDict.get _ _).
Qed.

Lemma send_personal_message_returns fr client_id w :
  fst (send_personal_message fr client_id w) = Return tt.
Proof.
  unfold send_personal_message, bind, get_conn. now destruct (PyDict.get _ _).
Qed.

(** The call of a method on the stream a control message names returns
    and leaves the connections alone, when the key can be looked up. *)
Lemma named_call_keeps_connections key (method : FastRTCStream -> M FastRTCStream) w :
  py_hashable key = true ->
  (forall s, stream_method (method s) s) ->
  exists w1,
    (if py_truthy key then
       stream <- get_stream key ;;
       match stream with
       | Some stream => stream <- method stream ;; store_stream (key_of key) stream
       | None => ret tt
       end
     else ret tt) w = (Return tt, w1)
    /\ manager w1 = manager w.
Proof.
  intros Hh Hmethod. destruct (py_truthy key); [|now exists w].
  unfold bind at 1. unfold get_stream, bind, get_manager. rewrite Hh. simpl.
  destruct key as [| | |id|]; simpl; try (now exists w).
  destruct (PyDict.get (streams (fastrtc_manager w)) id) as [s|]; [|now exists w].
  destruct (Hmethod s w) as (s' & w1 & -> & _ & Hm & Hc).
  unfold store_stream, bind, get_manager.
  destruct (PyDict.mem _ id); eexists; (split; [reflexivity|]); simpl; exact Hc.
Qed.

Lemma start_message_flag clock client_id (message : PyDict.t pyval) w md :
  PyDict.get (connection_metadata (manager w)) client_id = Some md ->
  py_hashable (get_default message "webrtc_id" PyNone) = true ->
  get_default message "type" PyNone = PyStr "start_streaming" ->
  exists w',
    handle_control_message clock client_id message w = (Return tt, w')
    /\ PyDict.get (connection_metadata (manager w')) client_id
       = Some (mkMeta (connected_at md) (conn_last_activity md) true).
Proof.
  intros Hmd Hh Htag. unfold handle_control_message. rewrite Htag.
  change (py_eq_str (PyStr "start_streaming") "start_streaming") with true.
  cbv iota. unfold bind at 1.
  rewrite (set_audio_streaming_present _ _ _ _ Hmd).
  set (w0 := with_conn _ w). unfold bind at 1.
  destruct (named_call_keeps_connections
              (get_default message "webrtc_id" PyNone)
              (start_streaming clock) w0 Hh (start_streaming_method clock))
    as (w1 & -> & Hc).
  unfold bind, utcnow.
  pose proof (send_personal_message_metadata
                (StreamingStarted client_id (clock (ticks w1))) client_id (tick w1))
    as Hmeta.
  pose proof (send_personal_message_returns
                (StreamingStarted client_id (clock (ticks w1))) client_id (tick w1))
    as Hret.
  destruct (send_personal_message _ client_id (tick w1)) as [r w2].
  simpl in Hret, Hmeta. subst r. eexists. split; [reflexivity|].
  simpl. rewrite Hmeta. simpl. rewrite Hc. subst w0. simpl.
  apply PyDictFacts.get_set_same.
Qed.

Lemma stop_message_flag clock client_id (message : PyDict.t pyval) w md :
  PyDict.get (connection_metadata (manager w)) client_id = Some md ->
  py_hashable (get_default message "webrtc_id" PyNone) = true ->
  get_default message "type" PyNone = PyStr "stop_streaming" ->
  exists w',
    handle_control_message clock client_id message w = (Return tt, w')
    /\ PyDict.get (connection_metadata (manager w')) client_id
       = Some (mkMeta (connected_at md) (conn_last_activity md) false).
Proof.
  intros Hmd Hh Htag. unfold handle_control_message. rewrite Htag.
  change (py_eq_str (PyStr "stop_streaming") "start_streaming") with false.
  change (py_eq_str (PyStr "stop_streaming") "stop_streaming") with true.
  cbv iota. unfold bind at 1.
  rewrite (set_audio_streaming_present _ _ _ _ Hmd).
  set (w0 := with_conn _ w). unfold bind at 1.
  destruct (named_call_keeps_connections
              (get_default message "webrtc_id" PyNone)
              stop_streaming w0 Hh stop_streaming_method)
    as (w1 & -> & Hc).
  unfold bind, utcnow.
  pose proof (send_personal_message_metadata
                (StreamingStopped client_id (clock (ticks w1))) client_id (tick w1))
    as Hmeta.
  pose proof (send_personal_message_returns
                (StreamingStopped client_id (clock (ticks w1))) client_id (tick w1))
    as Hret.
  destruct (send_personal_message _ client_id (tick w1)) as [r w2].
  simpl in Hret, Hmeta. subst r. eexists. split; [reflexivity|].
  simpl. rewrite Hmeta. simpl. rewrite Hc. subst w0. simpl.
  apply PyDictFacts.get_set_same.
Qed.

(** X14.  A [start_streaming] or [stop_streaming] message sets the
    [audio_streaming] flag of the connection it comes from, whether or
    not it names a registered stream (or any stream at all), and
    returns. *)
Theorem control_message_sets_connection_flag
  (clock : nat -> datetime) (client_id : string) (message : PyDict.t pyval)
  (w : World) (md : conn_meta) :
  PyDict.get (connection_metadata (manager w)) client_id = Some md ->
  py_hashable (get_default message "webrtc_id" PyNone) = true ->
  (get_default message "type" PyNone = PyStr "start_streaming" ->
   exists w',
     handle_control_message clock client_id message w = (Return tt, w')
     /\ PyDict.get (connection_metadata (manager w')) client_id
        = Some (mkMeta (connected_at md) (conn_last_activity md) true))
  /\ (get_default message "type" PyNone = PyStr "stop_streaming" ->
      exists w',
        handle_control_message clock client_id message w = (Return tt, w')
        /\ PyDict.get (connection_metadata (manager w')) client_id
           = Some (mkMeta (connected_at md) (conn_last_activity md) false)).
Proof.
  intros Hmd Hh. split; intros Htag.
  - now apply start_message_flag.
  - now apply stop_message_flag.
Qed.

Lemma control_message_sets_connection_flag_witness :
  (exists w',
     handle_control_message sample_clock "c1" (start_message "ghost") one_client_world
     = (Return tt, w')
     /\ PyDict.get (connection_metadata (manager w')) "c1" = Some (mkMeta 0 0 true))
  /\ (exists w',
        handle_control_message sample_clock "c1" [("type", PyStr "stop_streaming")]
          active_world = (Return tt, w')
        /\ PyDict.get (connection_metadata (manager w')) "c1"
           = Some (mkMeta 0 0 false)).
Proof.
  split.
  - apply (control_message_sets_connection_flag sample_clock "c1"
             (start_message "ghost") one_client_world (mkMeta 0 0 false));
      reflexivity.
  - apply (control_message_sets_connection_flag sample_clock "c1"
             [("type", PyStr "stop_streaming")] active_world (mkMeta 0 0 true));
      reflexivity.
Defined.

(** X15.  A [start_streaming] or [stop_streaming] message from a client that
    has no connection metadata raises [KeyError] at once: nothing is
    changed, the stream it names is neither started nor stopped, and no
    reply is sent. *)
Theorem control_from_unknown_client_raises
  (clock : nat -> datetime) (client_id : string) (message : PyDict.t pyval)
  (w : World) :
  PyDict.get (connection_metadata (manager w)) client_id = None ->
  get_default message "type" PyNone = PyStr "start_streaming"
  \/ get_default message "type" PyNone = PyStr "stop_streaming" ->
  handle_control_message clock client_id message w = (Raise (KeyError client_id), w).
Proof.
  intros Hmd [Htag|Htag]; unfold handle_control_message; rewrite Htag.
  - change (py_eq_str (PyStr "start_streaming") "start_streaming") with true.
    cbv iota. unfold bind at 1. unfold set_audio_streaming, bind, get_conn.
    now rewrite Hmd.
  - change (py_eq_str (PyStr "stop_streaming") "start_streaming") with false.
    change (py_eq_str (PyStr "stop_streaming") "stop_streaming") with true.
    cbv iota. unfold bind at 1. unfold set_audio_streaming, bind, get_conn.
    now rewrite Hmd.
Qed.

Lemma control_from_unknown_client_witness :
  handle_control_message sample_clock "nobody" (start_message "a") created_world
  = (Raise (KeyError "nobody"), created_world).
Proof.
  apply control_from_unknown_client_raises; [reflexivity | now left].
Defined.

(** X16.  Only [start_streaming] and [stop_streaming] touch anything but the
    socket and the log: a control message of any other type returns and
    leaves the registry and the connection metadata as they were; [ping]
    sends [pong] to a connected client, and an unknown type sends
    nothing. *)
Theorem other_control_messages_change_nothing
  (clock : nat -> datetime) (client_id : string) (message : PyDict.t pyval)
  (w : World) :
  let tag := get_default message "type" PyNone in
  tag <> PyStr "start_streaming" ->
  tag <> PyStr "stop_streaming" ->
  exists w',
    handle_control_message clock client_id message w = (Return tt, w')
    /\ fastrtc_manager w' = fastrtc_manager w
    /\ connection_metadata (manager w') = connection_metadata (manager w)
    /\ (tag = PyStr "ping" ->
        forall ws,
          PyDict.get (active_connections (manager w)) client_id = Some ws ->
          PyDict.get (active_connections (manager w')) client_id
          = Some (ws ++ [Pong (clock (ticks w))])%list)
    /\ (tag <> PyStr "ping" ->
        w' = with_record WARNING (LUnknownControl client_id tag) w).
Proof.
  intros tag Hstart Hstop. unfold handle_control_message. fold tag.
  replace (py_eq_str tag "start_streaming") with false
    by (symmetry; destruct (py_eq_str tag "start_streaming") eqn:E;
        [apply py_eq_str_true in E; contradiction | reflexivity]).
  replace (py_eq_str tag "stop_streaming") with false
    by (symmetry; destruct (py_eq_str tag "stop_streaming") eqn:E;
        [apply py_eq_str_true in E; contradiction | reflexivity]).
  destruct (py_eq_str tag "ping") eqn:Eping.
  - apply py_eq_str_true in Eping. unfold bind, utcnow.
    destruct (send_personal_message_effect (Pong (clock (ticks w))) client_id (tick w))
      as (w' & Hrun & Hm & _ & _ & Hws).
    pose proof (send_personal_message_metadata
                  (Pong (clock (ticks w))) client_id (tick w)) as Hmeta.
    rewrite Hrun in *. simpl in Hmeta.
    exists w'. split; [reflexivity|]. split; [exact Hm|]. split; [exact Hmeta|].
    split; [intros _; exact Hws | intros Hno; contradiction].
  - eexists. split; [reflexivity|]. repeat split.
    intros Hp. rewrite Hp in Eping. discriminate.
Qed.

Lemma other_control_messages_witness :
  exists w',
    handle_control_message sample_clock "c1" [("type", PyStr "ping")] active_world
    = (Return tt, w')
    /\ fastrtc_manager w' = fastrtc_manager active_world.
Proof.
  destruct (other_control_messages_change_nothing sample_clock "c1"
              [("type", PyStr "ping")] active_world)
    as (w' & Hrun & Hm & _); [discriminate | discriminate |].
  now exists w'.
Defined.

(** X13.  Stopping a stream does not flush or discard what it has buffered.
    After [stop_streaming] the chunks sent to the stream are dropped
    (the call changes nothing), and after the next [start_streaming] the
    stream is active again with the buffer it had before it was
    stopped. *)
Theorem stop_keeps_buffered_audio
  (clock : nat -> datetime)
  (process : FastRTCStream -> list byte -> option string)
  (client_id id : string) (chunk : list byte)
  (w : World) (md : conn_meta) (s : FastRTCStream) :
  PyDict.get (connection_metadata (manager w)) client_id = Some md ->
  id <> "" ->
  PyDict.get (streams (fastrtc_manager w)) id = Some s ->
  exists w1 w2 s2,
    handle_control_message clock client_id (stop_message id) w = (Return tt, w1)
    /\ process_audio clock process id chunk w1 = (Return tt, w1)
    /\ handle_control_message clock client_id (start_message id) w1 = (Return tt, w2)
    /\ PyDict.get (streams (fastrtc_manager w2)) id = Some s2
    /\ audio_buffer s2 = audio_buffer s
    /\ processing s2 = processing s
    /\ is_active s2 = true.
Proof.
  intros Hmd Hne Hg.
  destruct (stop_message_effect clock client_id (stop_message id) id w md
              Hmd eq_refl eq_refl Hne) as (w1 & t1 & Hstop & Hm1 & _).
  rewrite Hg in Hm1.
  destruct (stop_message_flag clock client_id (stop_message id) w md
              Hmd eq_refl eq_refl) as (w1' & Hstop' & Hmd1).
  rewrite Hstop in Hstop'. inversion Hstop'; subst w1'.
  assert (Hg1 : PyDict.get (streams (fastrtc_manager w1)) id
                = Some (set_is_active false s))
    by (rewrite Hm1; simpl; apply PyDictFacts.get_set_same).
  destruct (start_message_effect clock client_id (start_message id) id w1 _
              Hmd1 eq_refl eq_refl Hne) as (w2 & t2 & Hstart & Hm2 & _).
  rewrite Hg1 in Hm2.
  exists w1, w2. eexists.
  split; [exact Hstop|]. split.
  { now apply (process_audio_inactive clock process id chunk w1 _ Hg1). }
  split; [exact Hstart|]. split.
  { rewrite Hm2. simpl. apply PyDictFacts.get_set_same. }
  now repeat split.
Qed.

Lemma stop_keeps_buffered_audio_witness :
  exists w1 w2 s2,
    handle_control_message sample_clock "c1" (stop_message "a")
      (snd (feed sample_clock log_only "a" nine_chunks active_world))
    = (Return tt, w1)
    /\ process_audio sample_clock log_only "a" chunk_a w1 = (Return tt, w1)
    /\ handle_control_message sample_clock "c1" (start_message "a") w1 = (Return tt, w2)
    /\ PyDict.get (streams (fastrtc_manager w2)) "a" = Some s2
    /\ audio_buffer s2 = nine_chunks.
Proof.
  destruct (stop_keeps_buffered_audio sample_clock log_only "c1" "a" chunk_a
              (snd (feed sample_clock log_only "a" nine_chunks active_world))
              (mkMeta 0 0 true)
              (mkStream "a" "audio" "send" true (sample_clock 0) (sample_clock 12)
                 nine_chunks false))
    as (w1 & w2 & s2 & Hstop & Hdrop & Hstart & Hg & Hbuf & _).
  - vm_compute. reflexivity.
  - discriminate.
  - vm_compute. reflexivity.
  - exists w1, w2, s2. now repeat split.
Defined.

(** ** Statistics *)

Lemma filter_length_le_Z {A} (f : A -> bool) (l : list A) :
  0 <= Z.of_nat (List.length (filter f l)) <= Z.of_nat (List.length l).
Proof. pose proof (filter_length_le f l). lia. Qed.

(** X17.  [get_stats] changes nothing and describes the registry: one status
    per stream in the order of creation, [total_streams] their number,
    [active_streams] the number of those that are active, which lies
    between zero and the total; the status of every registered stream is
    in the list.  In a well-formed registry the ids of the list are the
    keys of the registry and the total is within [max_streams]. *)
Theorem stats_describe_registry (w : World) :
  exists st,
    get_stats w = (Return st, w)
    /\ total_streams st = Z.of_nat (List.length (stats_streams st))
    /\ active_streams st = active_count (fastrtc_manager w)
    /\ 0 <= active_streams st <= total_streams st
    /\ stats_max_streams st = max_streams (fastrtc_manager w)
    /\ (forall id s,
          PyDict.get (streams (fastrtc_manager w)) id = Some s ->
          In (get_status s) (stats_streams st))
    /\ (registry_ok (fastrtc_manager w) ->
        map st_webrtc_id (stats_streams st)
        = PyDict.keys (streams (fastrtc_manager w))
        /\ total_streams st <= stats_max_streams st).
Proof.
  eexists. split; [reflexivity|]. simpl.
  unfold PyDict.len, PyDict.values, active_count.
  split; [now rewrite !length_map|]. split; [reflexivity|].
  split.
  { pose proof (filter_length_le_Z is_active
                  (PyDict.values (streams (fastrtc_manager w)))) as H.
    unfold PyDict.values in H. rewrite length_map in H. exact H. }
  split; [reflexivity|]. split.
  - intros id s Hg. apply PyDictFacts.get_Some_In in Hg.
    apply in_map. now apply (in_map snd) in Hg.
  - intros (_ & Hids & Hlen). split; [|exact Hlen].
    rewrite !map_map. unfold PyDict.keys. apply map_ext_in.
    intros kv Hin. simpl. now apply (proj1 (Forall_forall _ _) Hids kv).
Qed.

Lemma stats_describe_registry_witness :
  exists st,
    get_stats active_world = (Return st, active_world)
    /\ total_streams st = 1
    /\ active_streams st = 1
    /\ map st_webrtc_id (stats_streams st) = ["a"].
Proof.
  destruct (stats_describe_registry active_world)
    as (st & Hrun & Htotal & Hactive & _ & _ & _ & Hok).
  exists st. split; [exact Hrun|].
  split; [rewrite Htotal; inversion Hrun; reflexivity|].
  split; [rewrite Hactive; reflexivity|].
  apply Hok. repeat split.
  - vm_compute. repeat constructor. simpl. tauto.
  - vm_compute. repeat constructor.
  - vm_compute. discriminate.
Defined.

Lemma active_count_update m id s s' :
  PyDict.get (streams m) id = Some s ->
  active_count (set_streams (PyDict.set (streams m) id s') m)
  = active_count m - (if is_active s then 1 else 0)
    + (if is_active s' then 1 else 0).
Proof.
  unfold active_count, PyDict.values. simpl.
  induction (streams m) as [|[k0 v0] d IH]; simpl; [discriminate|].
  destruct (String.eqb_spec k0 id) as [->|Hne]; intros H.
  - inversion H; subst v0. simpl.
    destruct (is_active s), (is_active s'); simpl List.length; lia.
  - specialize (IH H). simpl.
    destruct (is_active v0); simpl List.length; lia.
Qed.

(** X18.  The number of active streams follows the control messages: for a
    connected client and a registered stream, [start_streaming] adds
    one to it unless the stream was active already, and
    [stop_streaming] takes one off unless the stream was inactive
    already. *)
Theorem control_messages_move_active_count
  (clock : nat -> datetime) (client_id id : string)
  (w : World) (md : conn_meta) (s : FastRTCStream) :
  PyDict.get (connection_metadata (manager w)) client_id = Some md ->
  id <> "" ->
  PyDict.get (streams (fastrtc_manager w)) id = Some s ->
  (exists w',
     handle_control_message clock client_id (start_message id) w = (Return tt, w')
     /\ active_count (fastrtc_manager w')
        = active_count (fastrtc_manager w) + (if is_active s then 0 else 1))
  /\ (exists w',
        handle_control_message clock client_id (stop_message id) w = (Return tt, w')
        /\ active_count (fastrtc_manager w')
           = active_count (fastrtc_manager w) - (if is_active s then 1 else 0)).
Proof.
  intros Hmd Hne Hg. split.
  - destruct (start_message_effect clock client_id (start_message id) id w md
                Hmd eq_refl eq_refl Hne) as (w' & t & Hrun & Hm & _).
    rewrite Hg in Hm. exists w'. split; [exact Hrun|].
    rewrite Hm, (active_count_update _ id s _ Hg). simpl.
    destruct (is_active s); lia.
  - destruct (stop_message_effect clock client_id (stop_message id) id w md
                Hmd eq_refl eq_refl Hne) as (w' & t & Hrun & Hm & _).
    rewrite Hg in Hm. exists w'. split; [exact Hrun|].
    rewrite Hm, (active_count_update _ id s _ Hg). simpl.
    destruct (is_active s); lia.
Qed.

Lemma control_messages_move_active_count_witness :
  active_count (fastrtc_manager created_world) = 0
  /\ (exists w',
        handle_control_message sample_clock "c1" (start_message "a") created_world
        = (Return tt, w')
        /\ active_count (fastrtc_manager w') = 1).
Proof.
  split; [reflexivity|].
  destruct (control_messages_move_active_count sample_clock "c1" "a" created_world
              (mkMeta 0 0 false)
              (mkStream "a" "audio" "send" false (sample_clock 0) (sample_clock 1)
                 [] false))
    as [(w' & Hrun & Hcount) _].
  - reflexivity.
  - discriminate.
  - reflexivity.
  - exists w'. split; [exact Hrun | exact Hcount].
Defined.

(** ** Offers and answers *)

Lemma create_webrtc_answer_success clock uuid4 offer_dict w :
  let id := uuid4 (uuids w) in
  let a_modality := get_default offer_dict "modality" "audio" in
  let a_mode := get_default offer_dict "mode" "send" in
  valid_id id ->
  PyDict.len (streams (fastrtc_manager w)) < max_streams (fastrtc_manager w) ->
  PyDict.get (streams (fastrtc_manager w)) id = None ->
  let s := mkStream id a_modality a_mode false
                    (clock (ticks w)) (clock (S (ticks w))) [] false in
  create_webrtc_answer clock uuid4 offer_dict w =
  (Return (mkAnswer "success" (sdp_answer id) id a_modality a_mode
                    (clock (S (S (ticks w))))),
   tick (with_record INFO (LSdpAnswer id)
           (with_record INFO (LCreated id)
              (with_manager
                 (set_streams (streams (fastrtc_manager w) ++ [(id, s)])%list
                              (fastrtc_manager w))
                 (tick (tick (draw w))))))).
Proof.
  intros id a_modality a_mode Hv Hlen Hg s. subst id a_modality a_mode s.
  pose proof (create_stream_success clock (uuid4 (uuids w))
                (get_default offer_dict "modality" "audio")
                (get_default offer_dict "mode" "send") (draw w) Hv Hlen Hg) as H.
  cbv zeta in H.
  unfold create_webrtc_answer, bind, new_uuid. rewrite H. reflexivity.
Qed.

(** X19.  When the registry accepts the id, [create_webrtc_answer] returns a
    [success] answer whose id is the uuid it drew -- whatever the offer
    holds -- whose modality and mode are those of the offer, or [audio]
    and [send] when the offer has none, and whose session description is
    the one written for that id; and the registry then holds, under that
    id, a stream with that modality and mode that is not active yet. *)
Theorem answer_registers_drawn_id
  (clock : nat -> datetime) (uuid4 : nat -> string)
  (offer_dict : PyDict.t string) (w : World) :
  valid_id (uuid4 (uuids w)) ->
  PyDict.len (streams (fastrtc_manager w)) < max_streams (fastrtc_manager w) ->
  PyDict.get (streams (fastrtc_manager w)) (uuid4 (uuids w)) = None ->
  exists a w' s,
    create_webrtc_answer clock uuid4 offer_dict w = (Return a, w')
    /\ ans_status a = "success"
    /\ ans_webrtc_id a = uuid4 (uuids w)
    /\ ans_sdp a = sdp_answer (ans_webrtc_id a)
    /\ meta_modality a = get_default offer_dict "modality" "audio"
    /\ meta_mode a = get_default offer_dict "mode" "send"
    /\ PyDict.get (streams (fastrtc_manager w')) (ans_webrtc_id a) = Some s
    /\ webrtc_id s = ans_webrtc_id a
    /\ modality s = meta_modality a
    /\ mode s = meta_mode a
    /\ is_active s = false
    /\ PyDict.len (streams (fastrtc_manager w'))
       = PyDict.len (streams (fastrtc_manager w)) + 1.
Proof.
  intros Hv Hlen Hg.
  pose proof (create_webrtc_answer_success clock uuid4 offer_dict w Hv Hlen Hg)
    as Hrun.
  cbv zeta in Hrun.
  eexists; eexists; eexists. split; [exact Hrun|]. simpl.
  rewrite <- PyDictFacts.set_absent by exact Hg.
  rewrite PyDictFacts.get_set_same.
  rewrite PyDictFacts.len_set_absent by exact Hg.
  now repeat split.
Qed.

Lemma answer_registers_drawn_id_witness :
  exists a w' s,
    create_webrtc_answer sample_clock sample_uuid
      [("webrtc_id", "from-the-offer"); ("mode", "receive")] created_world
    = (Return a, w')
    /\ ans_webrtc_id a = "uuid-0"
    /\ meta_modality a = "audio"
    /\ meta_mode a = "receive"
    /\ PyDict.get (streams (fastrtc_manager w')) "uuid-0" = Some s
    /\ is_active s = false.
Proof.
  destruct (answer_registers_drawn_id sample_clock sample_uuid
              [("webrtc_id", "from-the-offer"); ("mode", "receive")] created_world)
    as (a & w' & s & Hrun & _ & Hid & _ & Hmod & Hmode & Hg & _ & _ & _ & Ha & _).
  - split; discriminate.
  - reflexivity.
  - reflexivity.
  - exists a, w', s. rewrite Hid in Hg. now repeat split.
Defined.

(** X20.  A request whose modality or mode is not one of the accepted words
    never gets the 400 that the handler raises for it: the handler
    catches its own [HTTPException] and answers [failed] with
    [internal_server_error]; no uuid is drawn and the registry is
    untouched. *)
Theorem offer_with_invalid_words
  (clock : nat -> datetime) (uuid4 : nat -> string)
  (sdp a_modality a_mode : string) (w : World) :
  (~ In a_modality ["audio"; "video"; "audio-video"] ->
   webrtc_offer clock uuid4 sdp a_modality a_mode w =
   (Return (OfferInternalError (HTTPException 400 "Invalid modality")),
    with_record ERROR (LOfferError (HTTPException 400 "Invalid modality")) w))
  /\ (In a_modality ["audio"; "video"; "audio-video"] ->
      ~ In a_mode ["send"; "receive"; "send-receive"] ->
      webrtc_offer clock uuid4 sdp a_modality a_mode w =
      (Return (OfferInternalError (HTTPException 400 "Invalid mode")),
       with_record ERROR (LOfferError (HTTPException 400 "Invalid mode")) w)).
Proof.
  split.
  - intros Hmod. unfold webrtc_offer, try_except.
    replace (str_in a_modality ["audio"; "video"; "audio-video"]) with false.
    + reflexivity.
    + symmetry. destruct (str_in a_modality _) eqn:E; [|reflexivity].
      apply str_in_true in E. contradiction.
  - intros Hmod Hmode. unfold webrtc_offer, try_except.
    apply str_in_true in Hmod. rewrite Hmod.
    replace (str_in a_mode ["send"; "receive"; "send-receive"]) with false.
    + reflexivity.
    + symmetry. destruct (str_in a_mode _) eqn:E; [|reflexivity].
      apply str_in_true in E. contradiction.
Qed.

Lemma offer_with_invalid_words_witness :
  webrtc_offer sample_clock sample_uuid "v=0" "Audio" "send" created_world =
    (Return (OfferInternalError (HTTPException 400 "Invalid modality")),
     with_record ERROR (LOfferError (HTTPException 400 "Invalid modality"))
       created_world)
  /\ webrtc_offer sample_clock sample_uuid "v=0" "video" "" created_world =
     (Return (OfferInternalError (HTTPException 400 "Invalid mode")),
      with_record ERROR (LOfferError (HTTPException 400 "Invalid mode"))
        created_world).
Proof.
  split.
  - apply offer_with_invalid_words. simpl. intuition discriminate.
  - apply offer_with_invalid_words; simpl; [tauto | intuition discriminate].
Defined.

(** X21.  A well-formed request, with room in the registry and a fresh uuid,
    is answered with the answer of [create_webrtc_answer]: its id is the
    uuid drawn, and the registry holds an inactive stream under it with
    the modality and mode of the request. *)
Theorem offer_accepted
  (clock : nat -> datetime) (uuid4 : nat -> string)
  (sdp a_modality a_mode : string) (w : World) :
  In a_modality ["audio"; "video"; "audio-video"] ->
  In a_mode ["send"; "receive"; "send-receive"] ->
  valid_id (uuid4 (uuids w)) ->
  PyDict.len (streams (fastrtc_manager w)) < max_streams (fastrtc_manager w) ->
  PyDict.get (streams (fastrtc_manager w)) (uuid4 (uuids w)) = None ->
  exists a w' s,
    webrtc_offer clock uuid4 sdp a_modality a_mode w = (Return (OfferAnswer a), w')
    /\ ans_status a = "success"
    /\ ans_webrtc_id a = uuid4 (uuids w)
    /\ meta_modality a = a_modality
    /\ meta_mode a = a_mode
    /\ PyDict.get (streams (fastrtc_manager w')) (uuid4 (uuids w)) = Some s
    /\ modality s = a_modality
    /\ mode s = a_mode
    /\ is_active s = false.
Proof.
  intros Hmod Hmode Hv Hlen Hg.
  apply str_in_true in Hmod, Hmode.
  unfold webrtc_offer, try_except, bind. rewrite Hmod, Hmode. simpl.
  rewrite geb_false by exact Hlen.
  unfold try_except_ValueError, bind.
  rewrite (create_webrtc_answer_success clock uuid4 _ w Hv Hlen Hg).
  eexists; eexists; eexists. split; [reflexivity|]. simpl.
  rewrite <- PyDictFacts.set_absent by exact Hg.
  rewrite PyDictFacts.get_set_same. now repeat split.
Qed.

Lemma offer_accepted_witness :
  exists a w' s,
    webrtc_offer sample_clock sample_uuid "v=0" "video" "receive" created_world
    = (Return (OfferAnswer a), w')
    /\ ans_webrtc_id a = "uuid-0"
    /\ PyDict.get (streams (fastrtc_manager w')) "uuid-0" = Some s
    /\ modality s = "video".
Proof.
  destruct (offer_accepted sample_clock sample_uuid "v=0" "video" "receive"
              created_world)
    as (a & w' & s & Hrun & _ & Hid & _ & _ & Hg & Hmod & _).
  - simpl. tauto.
  - simpl. tauto.
  - split; discriminate.
  - reflexivity.
  - reflexivity.
  - exists a, w', s. now repeat split.
Defined.

(** ** Inbound audio *)

(** What a call of [process_audio] leaves alone: the connections, the
    other streams, and the bytes processed for other streams. *)
Lemma process_audio_frame clock process id chunk w :
  exists w',
    process_audio clock process id chunk w = (Return tt, w')
    /\ manager w' = manager w
    /\ (forall id', id <> id' ->
          PyDict.get (streams (fastrtc_manager w')) id'
          = PyDict.get (streams (fastrtc_manager w)) id')
    /\ (forall id',
          (forall s, PyDict.get (streams (fastrtc_manager w)) id = Some s ->
                     webrtc_id s <> id') ->
          processed_bytes id' (logged w') = processed_bytes id' (logged w)).
Proof.
  destruct (PyDict.get (streams (fastrtc_manager w)) id) as [s|] eqn:Hg.
  - destruct (is_active s) eqn:Ha.
    + rewrite (process_audio_active clock process id chunk w s Hg Ha). cbv zeta.
      set (s1 := appended (clock (ticks w)) chunk s).
      assert (Hrec : forall id' l n,
                 webrtc_id s <> id' ->
                 processed_bytes id' (logged w ++ [(l, LProcessing n (webrtc_id s1))])
                 = processed_bytes id' (logged w)).
      { intros id' l n Hne. rewrite processed_bytes_app.
        unfold processed_bytes at 2. unfold record_bytes. simpl.
        apply String.eqb_neq in Hne. rewrite Hne. lia. }
      destruct (_ && _);
        [destruct (process (set_processing true s1) _)|];
        eexists; (split; [reflexivity|]); simpl;
        (split; [reflexivity|]); split;
        try (intros id' Hne; now apply PyDictFacts.get_set_other).
      * intros id' Hne. rewrite processed_bytes_app.
        unfold processed_bytes at 2. simpl. lia.
      * intros id' Hne. apply Hrec. now apply Hne.
      * reflexivity.
    + rewrite (process_audio_inactive clock process id chunk w s Hg Ha).
      exists w. now repeat split.
  - rewrite (process_audio_unknown clock process id chunk w Hg).
    eexists. split; [reflexivity|]. simpl. repeat split.
    intros id' _. rewrite processed_bytes_app. unfold processed_bytes at 2.
    simpl. lia.
Qed.

(** The loop of [handle_audio_data] over the entries it has not reached
    yet. *)
Lemma audio_loop clock process audio (entries : list (string * FastRTCStream)) :
  forall w,
    NoDup (map fst entries) ->
    Forall (fun kv => webrtc_id (snd kv) = fst kv) entries ->
    (forall k s, In (k, s) entries ->
                 PyDict.get (streams (fastrtc_manager w)) k = Some s) ->
    exists w',
      for_each (map (fun kv => get_status (snd kv)) entries)
        (fun stream_info =>
           if st_is_active stream_info
           then process_audio clock process (st_webrtc_id stream_info) audio
           else ret tt) w = (Return tt, w')
      /\ manager w' = manager w
      /\ (forall id, ~ In id (map fst entries) ->
            PyDict.get (streams (fastrtc_manager w')) id
            = PyDict.get (streams (fastrtc_manager w)) id)
      /\ (forall k s, In (k, s) entries -> is_active s = false ->
            PyDict.get (streams (fastrtc_manager w')) k = Some s)
      /\ (forall k s, In (k, s) entries -> is_active s = true ->
            exists s',
              PyDict.get (streams (fastrtc_manager w')) k = Some s'
              /\ is_active s' = true
              /\ (processed_bytes k (logged w') + buffered_bytes s'
                  = processed_bytes k (logged w) + buffered_bytes s
                    + List.length audio)%nat)
      /\ (forall id,
            (forall k s, In (k, s) entries -> k <> id) ->
            processed_bytes id (logged w') = processed_bytes id (logged w)).
Proof.
  induction entries as [|[k s] entries IH]; intros w Hnd Hids Hheld.
  - exists w. simpl. repeat split; intros; tauto.
  - inversion Hnd as [|? ? Hnotin Hnd']; subst.
    inversion Hids as [|? ? Hid Hids']; subst. simpl in Hid.
    assert (Hg : PyDict.get (streams (fastrtc_manager w)) k = Some s)
      by (apply Hheld; now left).
    cbn [map for_each]. unfold bind. cbn [get_status st_is_active st_webrtc_id snd].
    rewrite Hid.
    (* the step on the first entry *)
    assert (Hstep : exists w1,
               (if is_active s then process_audio clock process k audio else ret tt) w
               = (Return tt, w1)
               /\ manager w1 = manager w
               /\ (forall id, k <> id ->
                     PyDict.get (streams (fastrtc_manager w1)) id
                     = PyDict.get (streams (fastrtc_manager w)) id)
               /\ (forall id, k <> id ->
                     processed_bytes id (logged w1) = processed_bytes id (logged w))
               /\ (is_active s = false -> w1 = w)
               /\ (is_active s = true ->
                   exists s1,
                     PyDict.get (streams (fastrtc_manager w1)) k = Some s1
                     /\ is_active s1 = true
                     /\ (processed_bytes k (logged w1) + buffered_bytes s1
                         = processed_bytes k (logged w) + buffered_bytes s
                           + List.length audio)%nat)).
    { destruct (is_active s) eqn:Ha.
      - destruct (process_audio_frame clock process k audio w)
          as (w1 & Hrun & Hc & Hothers & Hbytes).
        exists w1. split; [exact Hrun|]. split; [exact Hc|].
        split; [exact Hothers|]. split.
        + intros id Hne. apply Hbytes. intros s0 Hs0.
          rewrite Hg in Hs0. inversion Hs0; subst s0. now rewrite Hid.
        + split; [discriminate|]. intros _.
          destruct (process_audio_conserves clock process k audio w s Hg Ha Hid)
            as (s1 & w1' & Hrun' & Hg1 & Ha1 & _ & Hsum).
          rewrite Hrun in Hrun'. inversion Hrun'; subst w1'.
          now exists s1.
      - exists w. repeat split; discriminate. }
    destruct Hstep as (w1 & -> & Hc1 & Hget1 & Hbytes1 & Hidle1 & Hact1).
    destruct (IH w1 Hnd' Hids') as (w' & Hrun & Hc & Hout & Hidle & Hact & Hbytes).
    { intros k' s' Hin. rewrite Hget1.
      - apply Hheld. now right.
      - intros ->. apply Hnotin. now apply (in_map fst) in Hin. }
    exists w'. split; [exact Hrun|]. split; [congruence|].
    split; [|split; [|split]].
    + intros id Hno. rewrite Hout by (intros Hin; apply Hno; now right).
      apply Hget1. intros ->. apply Hno. now left.
    + intros k' s' [Heq|Hin] Ha.
      * inversion Heq; subst k' s'. rewrite Hout by exact Hnotin.
        rewrite (Hidle1 Ha). exact Hg.
      * now apply Hidle.
    + intros k' s' [Heq|Hin] Ha.
      * inversion Heq; subst k' s'.
        destruct (Hact1 Ha) as (s1 & Hg1 & Ha1 & Hsum).
        exists s1. rewrite Hout by exact Hnotin. split; [exact Hg1|].
        split; [exact Ha1|].
        rewrite Hbytes; [exact Hsum|].
        intros k' s' Hin ->. apply Hnotin. now apply (in_map fst) in Hin.
      * destruct (Hact k' s' Hin Ha) as (s2 & Hg2 & Ha2 & Hsum).
        exists s2. split; [exact Hg2|]. split; [exact Ha2|].
        rewrite Hsum. rewrite Hbytes1; [reflexivity|].
        intros ->. apply Hnotin. now apply (in_map fst) in Hin.
    + intros id Hno. rewrite Hbytes by (intros k' s' Hin; apply (Hno k' s'); now right).
      apply Hbytes1. apply (Hno k s). now left.
Qed.

Lemma get_stats_eq w :
  get_stats w =
  (Return (mkStats (PyDict.len (streams (fastrtc_manager w)))
                   (active_count (fastrtc_manager w))
                   (max_streams (fastrtc_manager w))
                   (map get_status (PyDict.values (streams (fastrtc_manager w))))),
   w).
Proof. reflexivity. Qed.

(** The first statements of [handle_audio_data]: the time of the last
    activity of a known client is set; for an unknown client nothing
    happens. *)
Lemma audio_touches_connection clock client_id w :
  exists w1,
    (if PyDict.mem (connection_metadata (manager w)) client_id then
       now <- utcnow clock ;;
       c <- get_conn ;;
       match PyDict.get (connection_metadata c) client_id with
       | None => raise (KeyError client_id)
       | Some md =>
           put_conn (mkConn (active_connections c)
                       (PyDict.set (connection_metadata c) client_id
                          (mkMeta (connected_at md) now (audio_streaming md))))
       end
     else ret tt) w = (Return tt, w1)
    /\ fastrtc_manager w1 = fastrtc_manager w
    /\ logged w1 = logged w
    /\ active_connections (manager w1) = active_connections (manager w)
    /\ (forall md,
          PyDict.get (connection_metadata (manager w)) client_id = Some md ->
          PyDict.get (connection_metadata (manager w1)) client_id
          = Some (mkMeta (connected_at md) (clock (ticks w)) (audio_streaming md)))
    /\ (PyDict.get (connection_metadata (manager w)) client_id = None -> w1 = w).
Proof.
  unfold bind, get_conn, utcnow, PyDict.mem. simpl.
  destruct (PyDict.get (connection_metadata (manager w)) client_id) as [md|] eqn:Hmd.
  - simpl. rewrite Hmd. eexists. split; [reflexivity|]. simpl. repeat split.
    + intros md' H. inversion H; subst. apply PyDictFacts.get_set_same.
    + discriminate.
  - exists w. repeat split. discriminate.
Qed.

(** X22.  [handle_audio_data] hands the chunk to every active stream of the
    registry, whoever sent it, and to no other.  In a well-formed
    registry it returns; every stream that is not active is left as it
    was; every active stream stays active and the bytes processed for it
    plus the bytes in its buffer grow by the bytes of the chunk; no
    stream is added or removed.  The sockets are left alone, the last
    activity of a known client is set to the time of the call, and the
    chunk of a client without metadata is delivered all the same. *)
Theorem audio_goes_to_every_active_stream
  (clock : nat -> datetime)
  (process : FastRTCStream -> list byte -> option string)
  (client_id : string) (audio : list byte) (sv : Server) :
  registry_ok (fastrtc_manager (world sv)) ->
  exists sv',
    handle_audio_data clock process client_id audio sv = (Return tt, sv')
    /\ (forall id s,
          PyDict.get (streams (fastrtc_manager (world sv))) id = Some s ->
          is_active s = false ->
          PyDict.get (streams (fastrtc_manager (world sv'))) id = Some s)
    /\ (forall id s,
          PyDict.get (streams (fastrtc_manager (world sv))) id = Some s ->
          is_active s = true ->
          exists s',
            PyDict.get (streams (fastrtc_manager (world sv'))) id = Some s'
            /\ is_active s' = true
            /\ (processed_bytes id (logged (world sv')) + buffered_bytes s'
                = processed_bytes id (logged (world sv)) + buffered_bytes s
                  + List.length audio)%nat)
    /\ (forall id,
          PyDict.get (streams (fastrtc_manager (world sv))) id = None ->
          PyDict.get (streams (fastrtc_manager (world sv'))) id = None)
    /\ active_connections (manager (world sv'))
       = active_connections (manager (world sv))
    /\ (forall md,
          PyDict.get (connection_metadata (manager (world sv))) client_id = Some md ->
          PyDict.get (connection_metadata (manager (world sv'))) client_id
          = Some (mkMeta (connected_at md) (clock (ticks (world sv)))
                         (audio_streaming md)))
    /\ (PyDict.get (connection_metadata (manager (world sv))) client_id = None ->
        manager (world sv') = manager (world sv)).
Proof.
  intros (Hnd & Hids & _).
  set (w := world sv) in *.
  unfold handle_audio_data, bindS, in_world. fold w.
  destruct (audio_touches_connection clock client_id w)
    as (w1 & Htouch & Hm1 & Hl1 & Hac1 & Hmd1 & Hnone1).
  unfold bind at 1. unfold get_conn at 1. cbv beta iota.
  unfold bind at 1. rewrite Htouch.
  unfold bind at 1. rewrite get_stats_eq. cbn [stats_streams].
  rewrite Hm1. unfold PyDict.values. rewrite map_map.
  destruct (audio_loop clock process audio (streams (fastrtc_manager w)) w1)
    as (w' & Hrun & Hc & Hout & Hidle & Hact & _).
  { exact Hnd. }
  { exact Hids. }
  { intros k s Hin. rewrite Hm1. now apply PyDictFacts.In_get_Some. }
  simpl. rewrite Hrun. eexists. split; [reflexivity|]. simpl.
  split; [|split; [|split; [|split; [|split]]]].
  - intros id s Hg Ha. apply Hidle; [|exact Ha].
    now apply PyDictFacts.get_Some_In.
  - intros id s Hg Ha.
    destruct (Hact id s (PyDictFacts.get_Some_In _ _ _ Hg) Ha)
      as (s' & Hg' & Ha' & Hsum).
    exists s'. rewrite <- Hl1. now repeat split.
  - intros id Hg. rewrite Hout, Hm1; [exact Hg|].
    now apply PyDictFacts.get_None_keys.
  - now rewrite Hc.
  - intros md Hmd. rewrite Hc. now apply Hmd1.
  - intros Hmd. rewrite Hc. now rewrite (Hnone1 Hmd).
Qed.

Lemma audio_goes_to_every_active_stream_witness :
  exists sv',
    handle_audio_data sample_clock log_only "stranger" chunk_a mixed_server
    = (Return tt, sv')
    /\ (exists s',
          PyDict.get (streams (fastrtc_manager (world sv'))) "a" = Some s'
          /\ (processed_bytes "a" (logged (world sv')) + buffered_bytes s' = 2)%nat)
    /\ PyDict.get (streams (fastrtc_manager (world sv'))) "b"
       = PyDict.get (streams (fastrtc_manager mixed_world)) "b"
    /\ manager (world sv') = manager mixed_world.
Proof.
  destruct (audio_goes_to_every_active_stream sample_clock log_only "stranger"
              chunk_a mixed_server)
    as (sv' & Hrun & Hidle & Hact & _ & _ & _ & Hnone).
  - repeat split.
    + vm_compute. repeat constructor; simpl; intuition discriminate.
    + vm_compute. repeat constructor.
    + vm_compute. discriminate.
  - exists sv'. split; [exact Hrun|]. split; [|split].
    + destruct (Hact "a"
                  (mkStream "a" "audio" "send" true (sample_clock 0) (sample_clock 2)
                     [] false))
        as (s' & Hg & _ & Hsum); [vm_compute; reflexivity | reflexivity |].
      exists s'. split; [exact Hg | exact Hsum].
    + erewrite Hidle; [reflexivity | vm_compute; reflexivity | reflexivity].
    + apply Hnone. reflexivity.
Defined.

(** ** Connections *)

(** [disconnect] in closed form: deleting a key that is absent leaves
    a dictionary as it is. *)
Lemma disconnect_eq client_id sv :
  disconnect client_id sv =
  (Return tt,
   mkServer
     (with_conn
        (mkConn (PyDict.del (active_connections (manager (world sv))) client_id)
                (PyDict.del (connection_metadata (manager (world sv))) client_id))
        (world sv))
     (journal sv
      ++ [(List.length (logged (world sv)), (INFO, LClientDisconnected client_id))])).
Proof.
  unfold disconnect, bindS, in_world, bind, get_conn. simpl.
  destruct (PyDict.mem (active_connections (manager (world sv))) client_id) eqn:Ea;
    simpl;
    destruct (PyDict.mem (connection_metadata (manager (world sv))) client_id) eqn:Ec;
    simpl; unfold log_more; simpl;
    try (apply PyDictFacts.mem_false in Ea;
         rewrite (PyDictFacts.del_absent _ _ Ea));
    try (apply PyDictFacts.mem_false in Ec;
         rewrite (PyDictFacts.del_absent _ _ Ec));
    try reflexivity.
  all: unfold with_conn; now destruct (world sv) as [fm [ac cm] lg tk uu].
Qed.

(** X23.  The life of a connection never touches the streams.  [connect]
    returns, puts the socket and fresh metadata -- [audio_streaming]
    false -- under the client id, replacing what a former connection of
    the same id left, and leaves the other clients and the registry
    alone.  [disconnect] returns whether the client is known or not,
    leaves no socket and no metadata under the id, and leaves the other
    clients and the registry alone: the streams that the client started
    stay registered and active. *)
Theorem connection_lifecycle_leaves_streams
  (clock : nat -> datetime) (websocket : list frame) (client_id : string)
  (sv : Server) :
  (exists sv',
     connect clock websocket client_id sv = (Return tt, sv')
     /\ PyDict.get (active_connections (manager (world sv'))) client_id
        = Some websocket
     /\ PyDict.get (connection_metadata (manager (world sv'))) client_id
        = Some (mkMeta (clock (ticks (world sv))) (clock (S (ticks (world sv)))) false)
     /\ (forall other, client_id <> other ->
           PyDict.get (active_connections (manager (world sv'))) other
           = PyDict.get (active_connections (manager (world sv))) other
           /\ PyDict.get (connection_metadata (manager (world sv'))) other
              = PyDict.get (connection_metadata (manager (world sv))) other)
     /\ fastrtc_manager (world sv') = fastrtc_manager (world sv))
  /\ (exists sv',
        disconnect client_id sv = (Return tt, sv')
        /\ PyDict.get (active_connections (manager (world sv'))) client_id = None
        /\ PyDict.get (connection_metadata (manager (world sv'))) client_id = None
        /\ (forall other, client_id <> other ->
              PyDict.get (active_connections (manager (world sv'))) other
              = PyDict.get (active_connections (manager (world sv))) other
              /\ PyDict.get (connection_metadata (manager (world sv'))) other
                 = PyDict.get (connection_metadata (manager (world sv))) other)
        /\ fastrtc_manager (world sv') = fastrtc_manager (world sv)
        /\ logged (world sv') = logged (world sv)
        /\ journal sv'
           = (journal sv
              ++ [(List.length (logged (world sv)),
                   (INFO, LClientDisconnected client_id))])%list).
Proof.
  split.
  - eexists. split; [reflexivity|]. simpl. repeat split.
    + apply PyDictFacts.get_set_same.
    + apply PyDictFacts.get_set_same.
    + now apply PyDictFacts.get_set_other.
    + now apply PyDictFacts.get_set_other.
  - rewrite disconnect_eq. eexists. split; [reflexivity|]. simpl.
    split; [apply PyDictFacts.get_del_same|].
    split; [apply PyDictFacts.get_del_same|].
    split; [|now repeat split].
    intros other Hne. split; now apply PyDictFacts.get_del_other.
Qed.

(** ** The offer *)

Lemma create_webrtc_offer_eq uuid4 a_modality a_mode sv :
  create_webrtc_offer uuid4 a_modality a_mode sv =
  (Return (mkOffer (sdp_offer (uuid4 (uuids (world sv)))) a_modality a_mode
                   (uuid4 (uuids (world sv)))),
   mkServer (draw (world sv))
     (journal sv
      ++ [(List.length (logged (world sv)),
           (INFO, LSdpOffer (uuid4 (uuids (world sv)))))])).
Proof. reflexivity. Qed.

(** X25.  [create_webrtc_offer] does not touch the registry: the id it
    returns is the uuid it drew, with the modality and mode it was
    given and the same session description as an answer for that id,
    and nothing is registered under it.  The answer to that offer draws
    its own uuid: when that one is accepted and differs from the id of
    the offer, the stream is registered under the id of the answer, and
    the id of the offer is still not registered. *)
Theorem offer_id_is_not_registered
  (clock : nat -> datetime) (uuid4 : nat -> string)
  (a_modality a_mode : string) (sv : Server) :
  exists o sv',
    create_webrtc_offer uuid4 a_modality a_mode sv = (Return o, sv')
    /\ offer_webrtc_id o = uuid4 (uuids (world sv))
    /\ offer_modality o = a_modality
    /\ offer_mode o = a_mode
    /\ offer_sdp o = sdp_answer (offer_webrtc_id o)
    /\ fastrtc_manager (world sv') = fastrtc_manager (world sv)
    /\ manager (world sv') = manager (world sv)
    /\ (PyDict.get (streams (fastrtc_manager (world sv))) (offer_webrtc_id o) = None ->
        valid_id (uuid4 (uuids (world sv'))) ->
        uuid4 (uuids (world sv')) <> offer_webrtc_id o ->
        PyDict.len (streams (fastrtc_manager (world sv)))
          < max_streams (fastrtc_manager (world sv)) ->
        PyDict.get (streams (fastrtc_manager (world sv))) (uuid4 (uuids (world sv')))
          = None ->
        exists a w'',
          create_webrtc_answer clock uuid4
            (offer_data (offer_sdp o) (offer_modality o) (offer_mode o)) (world sv')
          = (Return a, w'')
          /\ ans_webrtc_id a = uuid4 (uuids (world sv'))
          /\ PyDict.mem (streams (fastrtc_manager w'')) (ans_webrtc_id a) = true
          /\ PyDict.get (streams (fastrtc_manager w'')) (offer_webrtc_id o) = None).
Proof.
  rewrite create_webrtc_offer_eq.
  eexists; eexists. split; [reflexivity|]. simpl.
  repeat split.
  intros Hfree Hv Hne Hlen Hnew.
  pose proof (create_webrtc_answer_success clock uuid4
                (offer_data (sdp_offer (uuid4 (uuids (world sv)))) a_modality a_mode)
                (draw (world sv)) Hv Hlen Hnew) as Hrun.
  cbv zeta in Hrun.
  eexists; eexists. split; [exact Hrun|]. simpl.
  rewrite <- PyDictFacts.set_absent by exact Hnew.
  split; [reflexivity|]. split.
  - apply PyDictFacts.mem_true. eexists. apply PyDictFacts.get_set_same.
  - rewrite PyDictFacts.get_set_other by exact Hne. exact Hfree.
Qed.

Lemma offer_id_is_not_registered_witness :
  exists o sv' a w'',
    create_webrtc_offer sample_uuid "audio" "send" initial_server = (Return o, sv')
    /\ offer_webrtc_id o = "uuid-0"
    /\ create_webrtc_answer sample_clock sample_uuid
         (offer_data (offer_sdp o) (offer_modality o) (offer_mode o)) (world sv')
       = (Return a, w'')
    /\ ans_webrtc_id a = "uuid-1"
    /\ PyDict.get (streams (fastrtc_manager w'')) "uuid-0" = None.
Proof.
  destruct (offer_id_is_not_registered sample_clock sample_uuid "audio" "send"
              initial_server)
    as (o & sv' & Hoffer & Hid & _ & _ & _ & _ & _ & Hanswer).
  rewrite create_webrtc_offer_eq in Hoffer. inversion Hoffer; subst o sv'.
  destruct Hanswer as (a & w'' & Hrun & Haid & _ & Hfree).
  - reflexivity.
  - split; discriminate.
  - discriminate.
  - reflexivity.
  - reflexivity.
  - eexists; eexists; exists a, w''. split; [apply create_webrtc_offer_eq|].
    split; [reflexivity|].
    split; [exact Hrun|]. split; [exact Haid | exact Hfree].
Defined.

(** ** Counting connections *)

Lemma length_del_one {V} (d : PyDict.t V) k v :
  NoDup (PyDict.keys d) ->
  PyDict.get d k = Some v ->
  S (List.length (PyDict.del d k)) = List.length d.
Proof.
  unfold PyDict.keys, PyDict.del. intros Hnd Hg.
  induction d as [|[k0 v0] d IH]; simpl in *; [discriminate|].
  inversion Hnd as [|? ? Hnotin Hnd']; subst.
  destruct (String.eqb_spec k0 k) as [->|Hne]; simpl.
  - assert (Hnone : PyDict.get d k = None)
      by now apply PyDictFacts.get_None_keys.
    pose proof (PyDictFacts.del_absent d k Hnone) as Hsame.
    unfold PyDict.del in Hsame. now rewrite Hsame.
  - now rewrite (IH Hnd' Hg).
Qed.

Lemma len_del_one {V} (d : PyDict.t V) k v :
  NoDup (PyDict.keys d) ->
  PyDict.get d k = Some v ->
  PyDict.len (PyDict.del d k) = PyDict.len d - 1.
Proof.
  intros Hnd Hg. pose proof (length_del_one d k v Hnd Hg) as H.
  unfold PyDict.len. lia.
Qed.

(** X24.  [get_connection_count] counts every client once: [connect] adds
    one to it for a client id that has no socket and leaves it as it is
    for an id that has one (the socket is replaced), and [disconnect]
    takes one off for a connected client and none otherwise. *)
Theorem connection_count_follows_connections
  (clock : nat -> datetime) (websocket : list frame) (client_id : string)
  (sv : Server) :
  let count (x : Server) := fst (get_connection_count (world x)) in
  let held := active_connections (manager (world sv)) in
  (PyDict.get held client_id = None ->
   count (snd (connect clock websocket client_id sv))
   = Return (PyDict.len held + 1))
  /\ (PyDict.mem held client_id = true ->
      count (snd (connect clock websocket client_id sv))
      = Return (PyDict.len held))
  /\ (PyDict.get held client_id = None ->
      count (snd (disconnect client_id sv)) = Return (PyDict.len held))
  /\ (PyDict.mem held client_id = true -> NoDup (PyDict.keys held) ->
      count (snd (disconnect client_id sv)) = Return (PyDict.len held - 1)).
Proof.
  intros count held. subst count. split; [|split; [|split]].
  - intros Hnew. simpl. f_equal. fold held.
    now apply PyDictFacts.len_set_absent.
  - intros Hmem. simpl. f_equal. fold held.
    now apply PyDictFacts.len_set_present.
  - intros Hnew. rewrite disconnect_eq. simpl. f_equal. fold held.
    now rewrite PyDictFacts.del_absent.
  - intros Hmem Hnd. rewrite disconnect_eq. simpl. f_equal. fold held.
    apply PyDictFacts.mem_true in Hmem. destruct Hmem as [ws Hg].
    now apply (len_del_one held client_id ws).
Qed.

Lemma connection_count_witness :
  fst (get_connection_count
         (world (snd (connect sample_clock [] "c2" mixed_server)))) = Return 2
  /\ fst (get_connection_count
            (world (snd (connect sample_clock [] "c1" mixed_server)))) = Return 1
  /\ fst (get_connection_count
            (world (snd (disconnect "c1" mixed_server)))) = Return 0.
Proof.
  destruct (connection_count_follows_connections sample_clock [] "c2" mixed_server)
    as (Hnew & _ & _ & _).
  destruct (connection_count_follows_connections sample_clock [] "c1" mixed_server)
    as (_ & Hagain & _ & Hgone).
  split; [|split].
  - apply Hnew. reflexivity.
  - apply Hagain. reflexivity.
  - apply Hgone; [reflexivity|]. vm_compute. repeat constructor. simpl. tauto.
Defined.

(** ** The DELETE endpoint on a registered stream *)

Lemma remove_fastrtc_stream_present_witness :
  exists w',
    remove_fastrtc_stream "a" active_world
    = (Return (RespMessage "success" (PyStr "Stream a removed")), w')
    /\ PyDict.get (streams (fastrtc_manager w')) "a" = None
    /\ logged w'
       = (logged active_world ++ [(INFO, LStopped "a"); (INFO, LRemoved "a")])%list.
Proof.
  destruct (remove_fastrtc_stream_present "a" active_world
              (mkStream "a" "audio" "send" true (sample_clock 0) (sample_clock 2)
                 [] false))
    as (w' & Hrun & Hgone & _ & Hlog).
  - vm_compute. reflexivity.
  - exists w'. now repeat split.
Defined.
